(** * ISAC D-channel controller core (drivers/isdn/hardware/mISDN/isac.c)

    A shallow embedding of the interrupt-driven protocol engine of isac.c:
    the FIFO transfer routines, the interrupt status dispatcher, the
    upstream command handler, the line-state bottom half and the
    busy-recovery timer, together with the properties the specification
    states about them.

    The driver's state is the record [dchannel_t]; everything the driver
    does to the outside (register and FIFO accesses, the hardware-access
    lock, kernel timers, buffers released, calls into the upper layer) is
    appended to a trace of [effect]s, and log output goes to a separate
    kernel log.  Values the outside supplies (register contents, FIFO
    bytes, allocation results, jiffies) are read from the machine's
    environment fields. *)

From Stdlib Require Import ZArith List String Bool Lia.
Import ListNotations.
Local Open Scope string_scope.
Local Open Scope list_scope.
Local Open Scope Z_scope.

(** ** Constants of the headers

    isac.c takes its bit numbers, C/I codes, command codes, primitive
    encodings and size limits from isac.h, hisax_dch.h, hisaxl1.h and
    debug.h.  Those headers are not part of the sources at hand, so their
    constants are the fields of a class; the code below is written over an
    arbitrary instance. *)

Class isac_h : Type := {
  (* bit numbers in dch->DFlags *)
  FLG_TX_BUSY : Z;
  FLG_TX_NEXT : Z;
  FLG_DBUSY_TIMER : Z;
  FLG_L1_DBUSY : Z;
  HW_IOM1 : Z;
  HW_ARCOFI : Z;
  (* bit numbers in dch->event *)
  D_L1STATECHANGE : Z;
  D_CLEARBUSY : Z;
  D_RCVBUFREADY : Z;
  D_XMTBUFREADY : Z;
  D_RX_MON0 : Z;
  D_RX_MON1 : Z;
  D_TX_MON0 : Z;
  D_TX_MON1 : Z;
  (* masks in dch->debug *)
  L1_DEB_WARN : Z;
  L1_DEB_ISAC : Z;
  L1_DEB_ISAC_FIFO : Z;
  L1_DEB_MONITOR : Z;
  (* buffer sizes *)
  MAX_DFRAME_LEN_L1 : Z;
  MAX_MON_FRAME : Z;
  (* C/I indication codes *)
  ISAC_IND_RS : Z;
  ISAC_IND_EI : Z;
  ISAC_IND_DID : Z;
  ISAC_IND_DR : Z;
  ISAC_IND_PU : Z;
  ISAC_IND_RSY : Z;
  ISAC_IND_ARD : Z;
  ISAC_IND_AI8 : Z;
  ISAC_IND_AI10 : Z;
  (* C/I command codes *)
  ISAC_CMD_TIM : Z;
  ISAC_CMD_RS : Z;
  ISAC_CMD_AR8 : Z;
  ISAC_CMD_AR10 : Z;
  ISAC_CMD_DUI : Z;
  ISAC_RBCH_XAC : Z;
  (* primitives and their parameters *)
  PH_DATA_REQ : Z;
  PH_DATA_CNF : Z;
  PH_SIGNAL : Z;
  PH_CONTROL : Z;
  REQUEST : Z;
  CONFIRM : Z;
  INDICATION : Z;
  HW_RESET : Z;
  HW_POWERUP : Z;
  HW_DEACTIVATE : Z;
  HW_TESTLOOP : Z;
  ANYSIGNAL : Z;
  INFO2 : Z;
  INFO4_P8 : Z;
  INFO4_P10 : Z;
  INFO3_P8 : Z;
  INFO3_P10 : Z;
  DINFO_SKB : Z;
  (* compile-time switch around the error counters *)
  ERROR_STATISTIC : bool;
  (* timer ticks per second, width of unsigned long *)
  HZ : Z;
  BITS_PER_LONG : Z
}.

(** errno.h *)
Definition EBUSY : Z := 16.
Definition EINVAL : Z := 22.

(** isac.c *)
Definition DBUSY_TIMER_VALUE : Z := 80.

(** Registers are only ever handed to [read_reg] and [write_reg]; they are
    kept by name. *)
Inductive isac_reg : Type :=
| ISAC_CMDR | ISAC_CIX0 | ISAC_RSTA | ISAC_RBCL | ISAC_RBCH | ISAC_STAR
| ISAC_CIR0 | ISAC_CIR1 | ISAC_EXIR | ISAC_MOSR | ISAC_MOCR
| ISAC_MOR0 | ISAC_MOR1 | ISAC_MOX0 | ISAC_MOX1
| ISAC_SPCR | ISAC_ADF1.

(** ** Integer helpers *)

(** Conversion to [u_char]. *)
Definition u8 (x : Z) : Z := Z.land x 255.

(** [v & mask] used as a C condition. *)
Definition tst (v mask : Z) : bool := negb (Z.land v mask =? 0).

(** Conversion to [unsigned long]. *)
Definition ulong {h : isac_h} (x : Z) : Z := x mod 2 ^ BITS_PER_LONG.

(** Conversion to [unsigned int]: [skb->len] is an unsigned int, so a sum
    with an int is computed modulo 2^32. *)
Definition uint (x : Z) : Z := x mod 2 ^ 32.

(** asm/bitops.h: bit [nr] of a flag word. *)
Definition test_bit (nr w : Z) : bool := Z.testbit w nr.
Definition set_bit (nr w : Z) : Z := Z.setbit w nr.
Definition clear_bit (nr w : Z) : Z := Z.clearbit w nr.

Fixpoint distinctb (l : list Z) : bool :=
  match l with
  | [] => true
  | x :: r => negb (existsb (Z.eqb x) r) && distinctb r
  end.

(** The groups of header constants that have to differ from one another:
    the bit numbers within a flag word, the case labels of [isac_new_ph],
    and the values [ISAC_l1hw] and the upper layer tell apart. *)
Definition flag_bits {h : isac_h} : list Z :=
  [FLG_TX_BUSY; FLG_TX_NEXT; FLG_DBUSY_TIMER; FLG_L1_DBUSY; HW_IOM1; HW_ARCOFI].

Definition event_bits {h : isac_h} : list Z :=
  [D_L1STATECHANGE; D_CLEARBUSY; D_RCVBUFREADY; D_XMTBUFREADY;
   D_RX_MON0; D_RX_MON1; D_TX_MON0; D_TX_MON1].

Definition ind_labels {h : isac_h} : list Z :=
  [ISAC_IND_RS; ISAC_IND_EI; ISAC_IND_DID; ISAC_IND_DR; ISAC_IND_PU;
   ISAC_IND_RSY; ISAC_IND_ARD; ISAC_IND_AI8; ISAC_IND_AI10].

Definition ctl_params {h : isac_h} : list Z :=
  [HW_RESET; HW_POWERUP; HW_DEACTIVATE].

Definition req_prims {h : isac_h} : list Z :=
  [PH_DATA_REQ; Z.lor PH_SIGNAL REQUEST; Z.lor PH_CONTROL REQUEST].

Definition ind_prims {h : isac_h} : list Z :=
  [Z.lor PH_SIGNAL INDICATION; Z.lor PH_CONTROL INDICATION;
   Z.lor PH_CONTROL CONFIRM].

(** What the C compiler and the bit operations require of the header
    constants: bit numbers are non-negative and pairwise different within
    a word, the case labels of [isac_new_ph] are pairwise different, and
    so are the values [ISAC_l1hw] compares a primitive or a parameter
    against. *)
Definition header_wf {h : isac_h} : bool :=
  forallb (Z.leb 0) flag_bits && distinctb flag_bits
  && forallb (Z.leb 0) event_bits && distinctb event_bits
  && distinctb ind_labels && distinctb ctl_params
  && distinctb req_prims && distinctb ind_prims.

(** ** Data model *)

(** A socket buffer: the primitive and parameter of its hisax head and the
    payload; [skb->len] is the payload's length. *)
Record sk_buff : Type := {
  hh_prim : Z;
  hh_dinfo : Z;
  skb_data : list Z
}.

Definition skb_len (s : sk_buff) : Z := Z.of_nat (List.length (skb_data s)).

(** [skb_put] followed by filling the new tail. *)
Definition skb_put (s : sk_buff) (bytes : list Z) : sk_buff :=
  {| hh_prim := hh_prim s; hh_dinfo := hh_dinfo s;
     skb_data := skb_data s ++ bytes |}.

(** isac_chip_t: the monitor channel state.  A buffer pointer is [None]
    when NULL. *)
Record isac_chip_t : Type := {
  mon_tx : option (list Z);
  mon_rx : option (list Z);
  mon_txp : Z;
  mon_txc : Z;
  mon_rxp : Z;
  mocr : Z
}.

(** dchannel_t.  [up_links] is the number of interfaces chained behind
    [inst.up] through [next]. *)
Record dchannel_t : Type := {
  debug : Z;
  DFlags : Z;
  event : Z;
  ph_state : Z;
  rx_skb : option sk_buff;
  rqueue : list sk_buff;
  next_skb : option sk_buff;
  tx_buf : list Z;
  tx_idx : Z;
  tx_len : Z;
  dbusytimer_expires : Z;
  err_crc : Z;
  err_tx : Z;
  err_rx : Z;
  hw : isac_chip_t;
  up_links : nat
}.

Inductive arcofi_event : Type := ARCOFI_RX_END | ARCOFI_TX_END.

(** What the driver does to its surroundings, in program order. *)
Inductive effect : Type :=
| EvLock                                  (* inst.lock(data, 0), also a successful trylock *)
| EvUnlock                                (* inst.unlock(data) *)
| EvReadReg (r : isac_reg)
| EvWriteReg (r : isac_reg) (v : Z)
| EvReadFifo (count : Z)
| EvWriteFifo (data : list Z)
| EvDelTimer
| EvInitTimer
| EvAddTimer (expires : Z)
| EvKfreeSkb (s : sk_buff)
| EvIfLink (idx : nat) (prim para : Z)    (* if_link(upif, prim, para, 0, NULL, 0) *)
| EvIfNewhead (prim dinfo : Z) (s : sk_buff)
| EvArcofiFsm (e : arcofi_event).

(** The machine: the channel context, the effects so far, the kernel log,
    and the environment the driver reads from. *)
Record machine : Type := {
  dch : dchannel_t;
  trace : list effect;
  klog : list (string * list Z);
  rfifo : nat -> Z;          (* bytes the receive FIFO will deliver *)
  rfifo_pos : nat;
  alloc_ok : nat -> bool;    (* outcome of the n-th allocation *)
  alloc_pos : nat;
  jiffies : Z;
  up_ret : Z                 (* what the upper layer returns from if_newhead *)
}.

(** *** Field updates *)

Definition set_hw (f : isac_chip_t -> isac_chip_t) (d : dchannel_t) : dchannel_t :=
  {| debug := debug d; DFlags := DFlags d; event := event d;
     ph_state := ph_state d; rx_skb := rx_skb d; rqueue := rqueue d;
     next_skb := next_skb d; tx_buf := tx_buf d; tx_idx := tx_idx d;
     tx_len := tx_len d; dbusytimer_expires := dbusytimer_expires d;
     err_crc := err_crc d; err_tx := err_tx d; err_rx := err_rx d;
     hw := f (hw d); up_links := up_links d |}.

Definition set_DFlags (v : Z) (d : dchannel_t) : dchannel_t :=
  {| debug := debug d; DFlags := v; event := event d;
     ph_state := ph_state d; rx_skb := rx_skb d; rqueue := rqueue d;
     next_skb := next_skb d; tx_buf := tx_buf d; tx_idx := tx_idx d;
     tx_len := tx_len d; dbusytimer_expires := dbusytimer_expires d;
     err_crc := err_crc d; err_tx := err_tx d; err_rx := err_rx d;
     hw := hw d; up_links := up_links d |}.

Definition set_event (v : Z) (d : dchannel_t) : dchannel_t :=
  {| debug := debug d; DFlags := DFlags d; event := v;
     ph_state := ph_state d; rx_skb := rx_skb d; rqueue := rqueue d;
     next_skb := next_skb d; tx_buf := tx_buf d; tx_idx := tx_idx d;
     tx_len := tx_len d; dbusytimer_expires := dbusytimer_expires d;
     err_crc := err_crc d; err_tx := err_tx d; err_rx := err_rx d;
     hw := hw d; up_links := up_links d |}.

Definition set_ph_state (v : Z) (d : dchannel_t) : dchannel_t :=
  {| debug := debug d; DFlags := DFlags d; event := event d;
     ph_state := v; rx_skb := rx_skb d; rqueue := rqueue d;
     next_skb := next_skb d; tx_buf := tx_buf d; tx_idx := tx_idx d;
     tx_len := tx_len d; dbusytimer_expires := dbusytimer_expires d;
     err_crc := err_crc d; err_tx := err_tx d; err_rx := err_rx d;
     hw := hw d; up_links := up_links d |}.

Definition set_rx_skb (v : option sk_buff) (d : dchannel_t) : dchannel_t :=
  {| debug := debug d; DFlags := DFlags d; event := event d;
     ph_state := ph_state d; rx_skb := v; rqueue := rqueue d;
     next_skb := next_skb d; tx_buf := tx_buf d; tx_idx := tx_idx d;
     tx_len := tx_len d; dbusytimer_expires := dbusytimer_expires d;
     err_crc := err_crc d; err_tx := err_tx d; err_rx := err_rx d;
     hw := hw d; up_links := up_links d |}.

Definition set_rqueue (v : list sk_buff) (d : dchannel_t) : dchannel_t :=
  {| debug := debug d; DFlags := DFlags d; event := event d;
     ph_state := ph_state d; rx_skb := rx_skb d; rqueue := v;
     next_skb := next_skb d; tx_buf := tx_buf d; tx_idx := tx_idx d;
     tx_len := tx_len d; dbusytimer_expires := dbusytimer_expires d;
     err_crc := err_crc d; err_tx := err_tx d; err_rx := err_rx d;
     hw := hw d; up_links := up_links d |}.

Definition set_next_skb (v : option sk_buff) (d : dchannel_t) : dchannel_t :=
  {| debug := debug d; DFlags := DFlags d; event := event d;
     ph_state := ph_state d; rx_skb := rx_skb d; rqueue := rqueue d;
     next_skb := v; tx_buf := tx_buf d; tx_idx := tx_idx d;
     tx_len := tx_len d; dbusytimer_expires := dbusytimer_expires d;
     err_crc := err_crc d; err_tx := err_tx d; err_rx := err_rx d;
     hw := hw d; up_links := up_links d |}.

Definition set_tx_buf (v : list Z) (d : dchannel_t) : dchannel_t :=
  {| debug := debug d; DFlags := DFlags d; event := event d;
     ph_state := ph_state d; rx_skb := rx_skb d; rqueue := rqueue d;
     next_skb := next_skb d; tx_buf := v; tx_idx := tx_idx d;
     tx_len := tx_len d; dbusytimer_expires := dbusytimer_expires d;
     err_crc := err_crc d; err_tx := err_tx d; err_rx := err_rx d;
     hw := hw d; up_links := up_links d |}.

Definition set_tx_idx (v : Z) (d : dchannel_t) : dchannel_t :=
  {| debug := debug d; DFlags := DFlags d; event := event d;
     ph_state := ph_state d; rx_skb := rx_skb d; rqueue := rqueue d;
     next_skb := next_skb d; tx_buf := tx_buf d; tx_idx := v;
     tx_len := tx_len d; dbusytimer_expires := dbusytimer_expires d;
     err_crc := err_crc d; err_tx := err_tx d; err_rx := err_rx d;
     hw := hw d; up_links := up_links d |}.

Definition set_tx_len (v : Z) (d : dchannel_t) : dchannel_t :=
  {| debug := debug d; DFlags := DFlags d; event := event d;
     ph_state := ph_state d; rx_skb := rx_skb d; rqueue := rqueue d;
     next_skb := next_skb d; tx_buf := tx_buf d; tx_idx := tx_idx d;
     tx_len := v; dbusytimer_expires := dbusytimer_expires d;
     err_crc := err_crc d; err_tx := err_tx d; err_rx := err_rx d;
     hw := hw d; up_links := up_links d |}.

Definition set_expires (v : Z) (d : dchannel_t) : dchannel_t :=
  {| debug := debug d; DFlags := DFlags d; event := event d;
     ph_state := ph_state d; rx_skb := rx_skb d; rqueue := rqueue d;
     next_skb := next_skb d; tx_buf := tx_buf d; tx_idx := tx_idx d;
     tx_len := tx_len d; dbusytimer_expires := v;
     err_crc := err_crc d; err_tx := err_tx d; err_rx := err_rx d;
     hw := hw d; up_links := up_links d |}.

Definition set_errs (crc tx rx : Z) (d : dchannel_t) : dchannel_t :=
  {| debug := debug d; DFlags := DFlags d; event := event d;
     ph_state := ph_state d; rx_skb := rx_skb d; rqueue := rqueue d;
     next_skb := next_skb d; tx_buf := tx_buf d; tx_idx := tx_idx d;
     tx_len := tx_len d; dbusytimer_expires := dbusytimer_expires d;
     err_crc := crc; err_tx := tx; err_rx := rx;
     hw := hw d; up_links := up_links d |}.

Definition set_mon_rx (v : option (list Z)) (c : isac_chip_t) : isac_chip_t :=
  {| mon_tx := mon_tx c; mon_rx := v; mon_txp := mon_txp c;
     mon_txc := mon_txc c; mon_rxp := mon_rxp c; mocr := mocr c |}.

Definition set_mon_rxp (v : Z) (c : isac_chip_t) : isac_chip_t :=
  {| mon_tx := mon_tx c; mon_rx := mon_rx c; mon_txp := mon_txp c;
     mon_txc := mon_txc c; mon_rxp := v; mocr := mocr c |}.

Definition set_mon_txp (v : Z) (c : isac_chip_t) : isac_chip_t :=
  {| mon_tx := mon_tx c; mon_rx := mon_rx c; mon_txp := v;
     mon_txc := mon_txc c; mon_rxp := mon_rxp c; mocr := mocr c |}.

Definition set_mocr (v : Z) (c : isac_chip_t) : isac_chip_t :=
  {| mon_tx := mon_tx c; mon_rx := mon_rx c; mon_txp := mon_txp c;
     mon_txc := mon_txc c; mon_rxp := mon_rxp c; mocr := v |}.

(** Update of the channel context inside the machine. *)
Definition on_dch (f : dchannel_t -> dchannel_t) (m : machine) : machine :=
  {| dch := f (dch m); trace := trace m; klog := klog m;
     rfifo := rfifo m; rfifo_pos := rfifo_pos m;
     alloc_ok := alloc_ok m; alloc_pos := alloc_pos m;
     jiffies := jiffies m; up_ret := up_ret m |}.

Definition on_isac (f : isac_chip_t -> isac_chip_t) (m : machine) : machine :=
  on_dch (set_hw f) m.

Definition emit (e : effect) (m : machine) : machine :=
  {| dch := dch m; trace := trace m ++ [e]; klog := klog m;
     rfifo := rfifo m; rfifo_pos := rfifo_pos m;
     alloc_ok := alloc_ok m; alloc_pos := alloc_pos m;
     jiffies := jiffies m; up_ret := up_ret m |}.

(** A log line, written when [c] holds ([debugprint] and [printk]). *)
Definition log_if (c : bool) (fmt : string) (args : list Z) (m : machine) : machine :=
  {| dch := dch m; trace := trace m;
     klog := if c then klog m ++ [(fmt, args)] else klog m;
     rfifo := rfifo m; rfifo_pos := rfifo_pos m;
     alloc_ok := alloc_ok m; alloc_pos := alloc_pos m;
     jiffies := jiffies m; up_ret := up_ret m |}.

Definition debugprint := log_if true.
Definition printk := log_if true.

(** [dch->debug & mask] *)
Definition deb (mask : Z) (m : machine) : bool := tst (debug (dch m)) mask.

Definition set_rfifo_pos (v : nat) (m : machine) : machine :=
  {| dch := dch m; trace := trace m; klog := klog m;
     rfifo := rfifo m; rfifo_pos := v;
     alloc_ok := alloc_ok m; alloc_pos := alloc_pos m;
     jiffies := jiffies m; up_ret := up_ret m |}.

Definition set_alloc_pos (v : nat) (m : machine) : machine :=
  {| dch := dch m; trace := trace m; klog := klog m;
     rfifo := rfifo m; rfifo_pos := rfifo_pos m;
     alloc_ok := alloc_ok m; alloc_pos := v;
     jiffies := jiffies m; up_ret := up_ret m |}.

(** [a[i] = v] on an array held as a list; an index outside the array
    (undefined in C) leaves the list as it is. *)
Fixpoint array_set (l : list Z) (i : nat) (v : Z) : list Z :=
  match l, i with
  | [], _ => []
  | _ :: r, O => v :: r
  | x :: r, S j => x :: array_set r j v
  end.

(** [memcpy(dst, src, n)] with [n] the length of [src]. *)
Definition memcpy (dst src : list Z) : list Z :=
  src ++ skipn (List.length src) dst.

(** ** The driver *)

Section Isac.
Context {h : isac_h}.

(** *** Hardware access and kernel services *)

(** [dch->read_reg(dch->inst.data, r)]: the register file [rd] is what the
    device presents during this call. *)
Definition read_reg (rd : isac_reg -> Z) (r : isac_reg) (m : machine) : Z * machine :=
  (u8 (rd r), emit (EvReadReg r) m).

Definition write_reg (r : isac_reg) (v : Z) (m : machine) : machine :=
  emit (EvWriteReg r (u8 v)) m.

(** [dch->read_fifo(dch->inst.data, ptr, count)] delivers the next [count]
    bytes of the receive FIFO. *)
Definition read_fifo (count : Z) (m : machine) : list Z * machine :=
  (map (fun i => u8 (rfifo m (rfifo_pos m + i)%nat)) (seq 0 (Z.to_nat count)),
   set_rfifo_pos (rfifo_pos m + Z.to_nat count)%nat (emit (EvReadFifo count) m)).

Definition write_fifo (data : list Z) (m : machine) : machine :=
  emit (EvWriteFifo data) m.

Definition lock (m : machine) : machine := emit EvLock m.
Definition unlock (m : machine) : machine := emit EvUnlock m.

Definition del_timer (m : machine) : machine := emit EvDelTimer m.
Definition init_timer (m : machine) : machine := emit EvInitTimer m.
Definition add_timer (m : machine) : machine :=
  emit (EvAddTimer (dbusytimer_expires (dch m))) m.

Definition dev_kfree_skb (s : sk_buff) (m : machine) : machine :=
  emit (EvKfreeSkb s) m.

(** [test_and_set_bit(nr, &dch->DFlags)] and friends: the old bit and the
    machine with the bit changed. *)
Definition test_and_set_flag (nr : Z) (m : machine) : bool * machine :=
  (test_bit nr (DFlags (dch m)),
   on_dch (fun d => set_DFlags (set_bit nr (DFlags d)) d) m).

Definition test_and_clear_flag (nr : Z) (m : machine) : bool * machine :=
  (test_bit nr (DFlags (dch m)),
   on_dch (fun d => set_DFlags (clear_bit nr (DFlags d)) d) m).

Definition test_and_clear_event (nr : Z) (m : machine) : bool * machine :=
  (test_bit nr (event (dch m)),
   on_dch (fun d => set_event (clear_bit nr (event d)) d) m).

Definition test_flag (nr : Z) (m : machine) : bool :=
  test_bit nr (DFlags (dch m)).

(** Modelled from the spec: [dchannel_sched_event] is defined in
    hisax_dch.h, which is absent; the spec has the interrupt phase record
    the notification tag in the deferred-event bitmask, to be consumed by
    the bottom half. *)
Definition dchannel_sched_event (ev : Z) (m : machine) : machine :=
  on_dch (fun d => set_event (set_bit ev (event d)) d) m.

(** Modelled from the spec: [alloc_uplink_skb] is defined in helper.h,
    which is absent; the spec has it allocate an empty receive buffer
    sized to the maximum D-channel frame, or fail. *)
Definition alloc_uplink_skb (len : Z) (m : machine) : option sk_buff * machine :=
  ((if alloc_ok m (alloc_pos m)
    then Some {| hh_prim := 0; hh_dinfo := 0; skb_data := [] |}
    else None),
   set_alloc_pos (S (alloc_pos m)) m).

(** [kmalloc(size, GFP_ATOMIC)] for a byte array; the fresh bytes are
    taken as zero. *)
Definition kmalloc (size : Z) (m : machine) : option (list Z) * machine :=
  ((if alloc_ok m (alloc_pos m)
    then Some (repeat 0 (Z.to_nat size))
    else None),
   set_alloc_pos (S (alloc_pos m)) m).

(** The loop [while (upif) { if_link(upif, prim, para, 0, NULL, 0);
    upif = upif->next; }] over [n] remaining interfaces, the next one
    being number [k] of the chain. *)
Fixpoint if_link_chain (n : nat) (k : nat) (prim para : Z) (m : machine) : machine :=
  match n with
  | O => m
  | S n' => if_link_chain n' (S k) prim para (emit (EvIfLink k prim para) m)
  end.

(** [if_newhead(&dch->inst.up, prim, dinfo, skb)]: hands the buffer to the
    upper layer and returns what that layer returns. *)
Definition if_newhead (prim dinfo : Z) (s : sk_buff) (m : machine) : Z * machine :=
  (up_ret m, emit (EvIfNewhead prim dinfo s) m).

(** Modelled from the spec: [discard_queue] is defined in helper.h, which
    is absent; the spec has deactivation discard all queued receive
    state: every buffer of the receive completion queue is released and
    the queue is left empty. *)
Definition discard_queue (m : machine) : machine :=
  on_dch (set_rqueue [])
    (fold_left (fun m s => dev_kfree_skb s m) (rqueue (dch m)) m).

(** [#ifdef ERROR_STATISTIC  counter++;  #endif] *)
Definition stat_inc (v : Z) : Z := if ERROR_STATISTIC then v + 1 else v.

(** [if (test_and_clear_bit(FLG_DBUSY_TIMER, &dch->DFlags))
       del_timer(&dch->dbusytimer);
     if (test_and_clear_bit(FLG_L1_DBUSY, &dch->DFlags))
       dchannel_sched_event(dch, D_CLEARBUSY);]
    as it stands in the XPR and XDU blocks and in the HW_DEACTIVATE
    branch. *)
Definition stop_dbusy (m : machine) : machine :=
  let (armed, m) := test_and_clear_flag FLG_DBUSY_TIMER m in
  let m := if armed then del_timer m else m in
  let (dbusy, m) := test_and_clear_flag FLG_L1_DBUSY m in
  if dbusy then dchannel_sched_event D_CLEARBUSY m else m.

(** *** ph_command *)

Definition ph_command (command : Z) (m : machine) : machine :=
  let m := log_if (deb L1_DEB_ISAC m) "ph_command %x" [command] m in
  write_reg ISAC_CIX0 (Z.lor (Z.shiftl command 2) 3) m.

(** *** isac_new_ph

    The switch over [dch->ph_state]; its case labels are pairwise
    different, so the order of the tests does not matter. *)
Definition isac_new_ph (m : machine) : machine :=
  let st := ph_state (dch m) in
  let notify prim para m :=
    if_link_chain (S (up_links (dch m))) 0 prim para m in
  if (st =? ISAC_IND_RS) || (st =? ISAC_IND_EI) then
    let m := lock m in
    let m := ph_command ISAC_CMD_DUI m in
    let m := unlock m in
    notify (Z.lor PH_CONTROL INDICATION) HW_RESET m
  else if st =? ISAC_IND_DID then
    notify (Z.lor PH_CONTROL CONFIRM) HW_DEACTIVATE m
  else if st =? ISAC_IND_DR then
    notify (Z.lor PH_CONTROL INDICATION) HW_DEACTIVATE m
  else if st =? ISAC_IND_PU then
    notify (Z.lor PH_CONTROL INDICATION) HW_POWERUP m
  else if st =? ISAC_IND_RSY then
    notify (Z.lor PH_SIGNAL INDICATION) ANYSIGNAL m
  else if st =? ISAC_IND_ARD then
    notify (Z.lor PH_SIGNAL INDICATION) INFO2 m
  else if st =? ISAC_IND_AI8 then
    notify (Z.lor PH_SIGNAL INDICATION) INFO4_P8 m
  else if st =? ISAC_IND_AI10 then
    notify (Z.lor PH_SIGNAL INDICATION) INFO4_P10 m
  else m.

(** *** isac_hwbh: the bottom half *)

Definition arcofi_fsm (e : arcofi_event) (m : machine) : machine :=
  emit (EvArcofiFsm e) m.

Definition isac_hwbh (m : machine) : machine :=
  let m := log_if (negb (debug (dch m) =? 0)) "isac_hwbh: event %x" [event (dch m)] m in
  let (chg, m) := test_and_clear_event D_L1STATECHANGE m in
  let m := if chg then isac_new_ph m else m in
  if negb (test_flag HW_ARCOFI m) then m else
  let (rx1, m) := test_and_clear_event D_RX_MON1 m in
  let m := if rx1 then arcofi_fsm ARCOFI_RX_END m else m in
  let (tx1, m) := test_and_clear_event D_TX_MON1 m in
  if tx1 then arcofi_fsm ARCOFI_TX_END m else m.

(** *** isac_empty_fifo

    [count] is an int, and the callers pass 1 to 32.  The overrun test
    adds it to [skb->len], an unsigned int, so the sum is taken modulo
    2^32.  [skb_put] and [read_fifo] are modelled for a count that is not
    negative; with a negative count that passes the test [skb_put] runs
    off the buffer in C, and the model reads no byte. *)

Definition isac_empty_fifo (count : Z) (m : machine) : machine :=
  let m := log_if (deb L1_DEB_ISAC m && negb (deb L1_DEB_ISAC_FIFO m))
             "isac_empty_fifo" [] m in
  let (skb, m) :=
    match rx_skb (dch m) with
    | Some s => (Some s, m)
    | None =>
        let (s, m) := alloc_uplink_skb MAX_DFRAME_LEN_L1 m in
        (s, on_dch (set_rx_skb s) m)
    end in
  match skb with
  | None =>
      let m := printk "HiSax: D receive out of memory" [] m in
      write_reg ISAC_CMDR 0x80 m
  | Some s =>
      if uint (skb_len s + count) >=? MAX_DFRAME_LEN_L1 then
        let m := log_if (deb L1_DEB_WARN m) "isac_empty_fifo overrun %d"
                   [uint (skb_len s + count)] m in
        write_reg ISAC_CMDR 0x80 m
      else
        let (bytes, m) := read_fifo count m in
        let m := on_dch (set_rx_skb (Some (skb_put s bytes))) m in
        let m := write_reg ISAC_CMDR 0x80 m in
        log_if (deb L1_DEB_ISAC_FIFO m) "isac_empty_fifo cnt %d" (count :: bytes) m
  end.

(** *** isac_fill_fifo *)

Definition isac_fill_fifo (m : machine) : machine :=
  let m := log_if (deb L1_DEB_ISAC m && negb (deb L1_DEB_ISAC_FIFO m))
             "isac_fill_fifo" [] m in
  let count := tx_len (dch m) - tx_idx (dch m) in
  if count <=? 0 then m else
  let more := 32 <? count in
  let count := if more then 32 else count in
  let data := firstn (Z.to_nat count)
                (skipn (Z.to_nat (tx_idx (dch m))) (tx_buf (dch m))) in
  let m := on_dch (fun d => set_tx_idx (tx_idx d + count) d) m in
  let m := write_fifo data m in
  let m := write_reg ISAC_CMDR (if more then 0x8 else 0xa) m in
  let (armed, m) := test_and_set_flag FLG_DBUSY_TIMER m in
  let m := if armed
           then del_timer (debugprint "isac_fill_fifo dbusytimer running" [] m)
           else m in
  let m := init_timer m in
  let m := on_dch (set_expires
                     (ulong (jiffies m + Z.quot (DBUSY_TIMER_VALUE * HZ) 1000))) m in
  let m := add_timer m in
  log_if (deb L1_DEB_ISAC_FIFO m) "isac_fill_fifo cnt %d" (count :: data) m.

(** *** ISAC_interrupt

    The handler tests the bits of the status byte [val] one after the
    other; each block below is the body of one of those tests. *)

(** [dch->tx_len = skb->len; memcpy(dch->tx_buf, skb->data, dch->tx_len);
    dch->tx_idx = 0;] as it stands in the XPR and XDU blocks and in
    [ISAC_l1hw]. *)
Definition load_tx_buf (s : sk_buff) (m : machine) : machine :=
  let m := on_dch (set_tx_len (skb_len s)) m in
  let m := on_dch (fun d => set_tx_buf (memcpy (tx_buf d) (skb_data s)) d) m in
  on_dch (set_tx_idx 0) m.

(** val & 0x80: RME, receive message end. *)
Definition irq_RME (rd : isac_reg -> Z) (m : machine) : machine :=
  let (exval, m) := read_reg rd ISAC_RSTA m in
  let m :=
    if negb (Z.land exval 0x70 =? 0x20) then
      let m :=
        if tst exval 0x40 then
          let m := log_if (deb L1_DEB_WARN m) "ISAC RDO" [] m in
          on_dch (fun d => set_errs (err_crc d) (err_tx d) (stat_inc (err_rx d)) d) m
        else m in
      let m :=
        if negb (tst exval 0x20) then
          let m := log_if (deb L1_DEB_WARN m) "ISAC CRC error" [] m in
          on_dch (fun d => set_errs (stat_inc (err_crc d)) (err_tx d) (err_rx d) d) m
        else m in
      let m := write_reg ISAC_CMDR 0x80 m in
      match rx_skb (dch m) with
      | Some s => dev_kfree_skb s m
      | None => m
      end
    else
      let (rbcl, m) := read_reg rd ISAC_RBCL m in
      let count := Z.land rbcl 0x1f in
      let count := if count =? 0 then 32 else count in
      let m := isac_empty_fifo count m in
      match rx_skb (dch m) with
      | Some s => on_dch (fun d => set_rqueue (rqueue d ++ [s]) d) m
      | None => m
      end in
  let m := on_dch (set_rx_skb None) m in
  dchannel_sched_event D_RCVBUFREADY m.

(** val & 0x10: XPR, transmit pool ready. *)
Definition irq_XPR (m : machine) : machine :=
  let m := stop_dbusy m in
  if tx_idx (dch m) <? tx_len (dch m) then isac_fill_fifo m
  else
    let (nxt, m) := test_and_clear_flag FLG_TX_NEXT m in
    if nxt then
      match next_skb (dch m) with
      | Some s =>
          let m := load_tx_buf s m in
          let m := isac_fill_fifo m in
          dchannel_sched_event D_XMTBUFREADY m
      | None =>
          let m := printk "isac tx irq TX_NEXT without skb" [] m in
          snd (test_and_clear_flag FLG_TX_BUSY m)
      end
    else snd (test_and_clear_flag FLG_TX_BUSY m).

(** val & 0x04: CISQ, C/I code change. *)
Definition irq_CISQ (rd : isac_reg -> Z) (m : machine) : machine :=
  let (exval, m) := read_reg rd ISAC_CIR0 m in
  let m := log_if (deb L1_DEB_ISAC m) "ISAC CIR0 %02X" [exval] m in
  let m :=
    if tst exval 2 then
      let m := on_dch (set_ph_state (Z.land (Z.shiftr exval 2) 0xf)) m in
      let m := log_if (deb L1_DEB_ISAC m) "ph_state change %x" [ph_state (dch m)] m in
      dchannel_sched_event D_L1STATECHANGE m
    else m in
  if tst exval 1 then
    let (exval, m) := read_reg rd ISAC_CIR1 m in
    log_if (deb L1_DEB_ISAC m) "ISAC CIR1 %02X" [exval] m
  else m.

(** EXIR & 0x40: XDU, transmit data underrun. *)
Definition exi_XDU (m : machine) : machine :=
  let m := debugprint "ISAC XDU" [] m in
  let m := printk "HiSax: ISAC XDU" [] m in
  let m := on_dch (fun d => set_errs (err_crc d) (stat_inc (err_tx d)) (err_rx d) d) m in
  let m := stop_dbusy m in
  if test_flag FLG_TX_BUSY m then
    (* Restart frame *)
    let m := on_dch (set_tx_idx 0) m in
    isac_fill_fifo m
  else
    let m := printk "HiSax: ISAC XDU no TX_BUSY" [] m in
    let m := debugprint "ISAC XDU no TX_BUSY" [] m in
    let (nxt, m) := test_and_clear_flag FLG_TX_NEXT m in
    if nxt then
      match next_skb (dch m) with
      | Some s =>
          let m := load_tx_buf s m in
          let m := isac_fill_fifo m in
          dchannel_sched_event D_XMTBUFREADY m
      | None => printk "isac xdu irq TX_NEXT without skb" [] m
      end
    else m.

(** [isac->mocr &= a; isac->mocr |= o;] *)
Definition mocr_and (a : Z) (m : machine) : machine :=
  on_isac (fun c => set_mocr (u8 (Z.land (mocr c) a)) c) m.
Definition mocr_or (o : Z) (m : machine) : machine :=
  on_isac (fun c => set_mocr (u8 (Z.lor (mocr c) o)) c) m.
Definition write_mocr (m : machine) : machine :=
  write_reg ISAC_MOCR (mocr (hw (dch m))) m.

(** MOSR & 0x08: a byte received on monitor channel 0. *)
Definition mon_RX0 (rd : isac_reg -> Z) (m : machine) : machine :=
  let (buf, m) :=
    match mon_rx (hw (dch m)) with
    | Some b => (Some b, m)
    | None =>
        let (b, m) := kmalloc MAX_MON_FRAME m in
        let m := on_isac (set_mon_rx b) m in
        (b, match b with
            | Some _ => on_isac (set_mon_rxp 0) m
            | None => m
            end)
    end in
  match buf with
  | None =>
      let m := log_if (deb L1_DEB_WARN m) "ISAC MON RX out of memory!" [] m in
      let m := mocr_and 0xf0 m in
      let m := mocr_or 0x0a m in
      write_mocr m
  | Some b =>
      if mon_rxp (hw (dch m)) >=? MAX_MON_FRAME then
        let m := mocr_and 0xf0 m in
        let m := mocr_or 0x0a m in
        let m := write_mocr m in
        let m := on_isac (set_mon_rxp 0) m in
        log_if (deb L1_DEB_WARN m) "ISAC MON RX overflow!" [] m
      else
        let (v, m) := read_reg rd ISAC_MOR0 m in
        let p := mon_rxp (hw (dch m)) in
        let m := on_isac (set_mon_rx (Some (array_set b (Z.to_nat p) v))) m in
        let m := on_isac (set_mon_rxp (p + 1)) m in
        let m := log_if (deb L1_DEB_MONITOR m) "ISAC MOR0 %02x" [v] m in
        if mon_rxp (hw (dch m)) =? 1 then
          let m := mocr_or 0x04 m in
          write_mocr m
        else m
  end.

(** MOSR & 0x80: a byte received on monitor channel 1. *)
Definition mon_RX1 (rd : isac_reg -> Z) (m : machine) : machine :=
  let (buf, m) :=
    match mon_rx (hw (dch m)) with
    | Some b => (Some b, m)
    | None =>
        let (b, m) := kmalloc MAX_MON_FRAME m in
        let m := on_isac (set_mon_rx b) m in
        (b, match b with
            | Some _ => on_isac (set_mon_rxp 0) m
            | None => m
            end)
    end in
  match buf with
  | None =>
      let m := log_if (deb L1_DEB_WARN m) "ISAC MON RX out of memory!" [] m in
      let m := mocr_and 0x0f m in
      let m := mocr_or 0xa0 m in
      write_mocr m
  | Some b =>
      if mon_rxp (hw (dch m)) >=? MAX_MON_FRAME then
        let m := mocr_and 0x0f m in
        let m := mocr_or 0xa0 m in
        let m := write_mocr m in
        let m := on_isac (set_mon_rxp 0) m in
        log_if (deb L1_DEB_WARN m) "ISAC MON RX overflow!" [] m
      else
        let (v, m) := read_reg rd ISAC_MOR1 m in
        let p := mon_rxp (hw (dch m)) in
        let m := on_isac (set_mon_rx (Some (array_set b (Z.to_nat p) v))) m in
        let m := on_isac (set_mon_rxp (p + 1)) m in
        let m := log_if (deb L1_DEB_MONITOR m) "ISAC MOR1 %02x" [v] m in
        let m := mocr_or 0x40 m in
        write_mocr m
  end.

(** MOSR & 0x04 and MOSR & 0x40: end of reception on channel 0 and 1. *)
Definition mon_RXEND0 (m : machine) : machine :=
  let m := mocr_and 0xf0 m in
  let m := write_mocr m in
  let m := mocr_or 0x0a m in
  let m := write_mocr m in
  dchannel_sched_event D_RX_MON0 m.

Definition mon_RXEND1 (m : machine) : machine :=
  let m := mocr_and 0x0f m in
  let m := write_mocr m in
  let m := mocr_or 0xa0 m in
  let m := write_mocr m in
  dchannel_sched_event D_RX_MON1 m.

(** [isac->mon_txc && (isac->mon_txp >= isac->mon_txc)] *)
Definition mon_tx_done (m : machine) : bool :=
  negb (mon_txc (hw (dch m)) =? 0)
  && (mon_txp (hw (dch m)) >=? mon_txc (hw (dch m))).

(** [isac->mon_tx[isac->mon_txp++]] *)
Definition mon_tx_next (m : machine) : Z * machine :=
  let c := hw (dch m) in
  (match mon_tx c with
   | Some b => nth (Z.to_nat (mon_txp c)) b 0
   | None => 0
   end,
   on_isac (set_mon_txp (mon_txp c + 1)) m).

(** MOSR & 0x02: monitor channel 0 ready for the next byte to send. *)
Definition mon_TX0 (v1 : Z) (m : machine) : machine :=
  if match mon_tx (hw (dch m)) with None => true | Some _ => false end
     || (mon_tx_done m && negb (tst v1 0x08)) then
    let m := mocr_and 0xf0 m in
    let m := write_mocr m in
    let m := mocr_or 0x0a m in
    let m := write_mocr m in
    if mon_tx_done m then dchannel_sched_event D_TX_MON0 m else m
  else if mon_tx_done m then dchannel_sched_event D_TX_MON0 m
  else
    let (b, m) := mon_tx_next m in
    let m := write_reg ISAC_MOX0 b m in
    log_if (deb L1_DEB_MONITOR m) "ISAC %02x -> MOX0" [b] m.

(** MOSR & 0x20: monitor channel 1 ready for the next byte to send. *)
Definition mon_TX1 (v1 : Z) (m : machine) : machine :=
  if match mon_tx (hw (dch m)) with None => true | Some _ => false end
     || (mon_tx_done m && negb (tst v1 0x80)) then
    let m := mocr_and 0x0f m in
    let m := write_mocr m in
    let m := mocr_or 0xa0 m in
    let m := write_mocr m in
    if mon_tx_done m then dchannel_sched_event D_TX_MON1 m else m
  else if mon_tx_done m then dchannel_sched_event D_TX_MON1 m
  else
    let (b, m) := mon_tx_next m in
    let m := write_reg ISAC_MOX1 b m in
    log_if (deb L1_DEB_MONITOR m) "ISAC %02x -> MOX1" [b] m.

(** The six monitor blocks for a given MOSR value [v1], in the order of
    the source. *)
Definition mos_blocks (rd : isac_reg -> Z) (v1 : Z) (m : machine) : machine :=
  let m := if tst v1 0x08 then mon_RX0 rd m else m in
  let m := if tst v1 0x80 then mon_RX1 rd m else m in
  let m := if tst v1 0x04 then mon_RXEND0 m else m in
  let m := if tst v1 0x40 then mon_RXEND1 m else m in
  let m := if tst v1 0x02 then mon_TX0 v1 m else m in
  if tst v1 0x20 then mon_TX1 v1 m else m.

(** EXIR & 0x04: MOS, monitor status. *)
Definition exi_MOS (rd : isac_reg -> Z) (m : machine) : machine :=
  let (v1, m) := read_reg rd ISAC_MOSR m in
  let m := log_if (deb L1_DEB_MONITOR m) "ISAC MOSR %02x" [v1] m in
  mos_blocks rd v1 m.

(** val & 0x01: EXI, extended interrupt. *)
Definition irq_EXI (rd : isac_reg -> Z) (m : machine) : machine :=
  let (exval, m) := read_reg rd ISAC_EXIR m in
  let m := log_if (deb L1_DEB_WARN m) "ISAC EXIR %02x" [exval] m in
  let m :=
    if tst exval 0x80 then
      let m := debugprint "ISAC XMR" [] m in
      printk "HiSax: ISAC XMR" [] m
    else m in
  let m := if tst exval 0x40 then exi_XDU m else m in
  if tst exval 0x04 then exi_MOS rd m else m.

Definition ISAC_interrupt (rd : isac_reg -> Z) (val : Z) (m : machine) : machine :=
  let m := log_if (deb L1_DEB_ISAC m) "ISAC interrupt %x" [val] m in
  let m := if tst val 0x80 then irq_RME rd m else m in
  let m := if tst val 0x40 then isac_empty_fifo 32 m else m in
  let m := if tst val 0x20 then log_if (deb L1_DEB_WARN m) "ISAC RSC interrupt" [] m else m in
  let m := if tst val 0x10 then irq_XPR m else m in
  let m := if tst val 0x04 then irq_CISQ rd m else m in
  let m := if tst val 0x02 then log_if (deb L1_DEB_WARN m) "ISAC SIN interrupt" [] m else m in
  if tst val 0x01 then irq_EXI rd m else m.

(** The body of the HW_DEACTIVATE branch of [ISAC_l1hw]. *)
Definition hw_deactivate (m : machine) : machine :=
  let m := discard_queue m in
  let m :=
    match next_skb (dch m) with
    | Some s =>
        let m := dev_kfree_skb s m in
        on_dch (set_next_skb None) m
    | None => m
    end in
  let m := snd (test_and_clear_flag FLG_TX_NEXT m) in
  let m := snd (test_and_clear_flag FLG_TX_BUSY m) in
  stop_dbusy m.

(** *** ISAC_l1hw: requests from the upper layer

    [hif] and [skb] are [None] when the caller passes NULL.  The result is
    the return value and the machine afterwards. *)

Definition hisaxif_t : Type := unit.

Definition ISAC_l1hw (hif : option hisaxif_t) (skb : option sk_buff) (m : machine)
  : Z * machine :=
  match hif, skb with
  | Some _, Some skb =>
      (* the common tail: if (!ret) dev_kfree_skb(skb); return(ret); *)
      let finish (ret : Z) (m : machine) : Z * machine :=
        (ret, if ret =? 0 then dev_kfree_skb skb m else m) in
      if hh_prim skb =? PH_DATA_REQ then
        match next_skb (dch m) with
        | Some _ =>
            let m := debugprint " l2l1 next_skb exist this shouldn't happen" [] m in
            (- EBUSY, m)
        | None =>
            let m := lock m in
            let (busy, m) := test_and_set_flag FLG_TX_BUSY m in
            if busy then
              let m := snd (test_and_set_flag FLG_TX_NEXT m) in
              let m := on_dch (set_next_skb (Some skb)) m in
              let m := unlock m in
              (0, m)
            else
              let m := load_tx_buf skb m in
              let m := isac_fill_fifo m in
              let m := unlock m in
              if_newhead PH_DATA_CNF DINFO_SKB skb m
        end
      else if hh_prim skb =? Z.lor PH_SIGNAL REQUEST then
        let m := lock m in
        let (ret, m) :=
          if hh_dinfo skb =? INFO3_P8 then (0, ph_command ISAC_CMD_AR8 m)
          else if hh_dinfo skb =? INFO3_P10 then (0, ph_command ISAC_CMD_AR10 m)
          else (- EINVAL, m) in
        let m := unlock m in
        finish ret m
      else if hh_prim skb =? Z.lor PH_CONTROL REQUEST then
        let m := lock m in
        let (ret, m) :=
          if hh_dinfo skb =? HW_RESET then
            if (ph_state (dch m) =? ISAC_IND_EI)
               || (ph_state (dch m) =? ISAC_IND_DR)
               || (ph_state (dch m) =? ISAC_IND_RS)
            then (0, ph_command ISAC_CMD_TIM m)
            else (0, ph_command ISAC_CMD_RS m)
          else if hh_dinfo skb =? HW_POWERUP then
            (0, ph_command ISAC_CMD_TIM m)
          else if hh_dinfo skb =? HW_DEACTIVATE then
            (0, hw_deactivate m)
          else if Z.land (hh_dinfo skb) HW_TESTLOOP =? HW_TESTLOOP then
            let tl := 0 in
            let tl := if tst 1 (hh_dinfo skb) then Z.lor tl 0x0c else tl in
            let tl := if tst 2 (hh_dinfo skb) then Z.lor tl 0x3 else tl in
            if test_flag HW_IOM1 m then
              (* IOM 1 Mode *)
              if tl =? 0 then
                (0, write_reg ISAC_ADF1 0x2 (write_reg ISAC_SPCR 0xa m))
              else
                (0, write_reg ISAC_ADF1 0xa (write_reg ISAC_SPCR tl m))
            else
              (* IOM 2 Mode *)
              let m := write_reg ISAC_SPCR tl m in
              if negb (tl =? 0)
              then (0, write_reg ISAC_ADF1 0x8 m)
              else (0, write_reg ISAC_ADF1 0x0 m)
          else
            let m := log_if (deb L1_DEB_WARN m) "isac_l1hw unknown ctrl %x"
                       [hh_dinfo skb] m in
            (- EINVAL, m) in
        let m := unlock m in
        finish ret m
      else
        let m := log_if (deb L1_DEB_WARN m) "isac_l1hw unknown prim %x"
                   [hh_prim skb] m in
        finish (- EINVAL) m
  | _, _ => (- EINVAL, m)
  end.

(** *** dbusy_timer_handler

    [lock_busy] is the outcome of the try-lock [dch->inst.lock(data, 1)]:
    [true] when the lock is held elsewhere. *)
Definition dbusy_timer_handler (lock_busy : bool) (rd : isac_reg -> Z) (m : machine)
  : machine :=
  if test_flag FLG_DBUSY_TIMER m then
    if lock_busy then
      let m := on_dch (set_expires (ulong (jiffies m + 1))) m in
      add_timer m
    else
      let m := lock m in
      let (rbch, m) := read_reg rd ISAC_RBCH m in
      let (star, m) := read_reg rd ISAC_STAR m in
      let m := log_if (negb (debug (dch m) =? 0))
                 "D-Channel Busy RBCH %02x STAR %02x" [rbch; star] m in
      let m :=
        if tst rbch ISAC_RBCH_XAC then
          (* D-Channel Busy *)
          snd (test_and_set_flag FLG_L1_DBUSY m)
        else
          (* discard frame; reset transceiver *)
          let m := snd (test_and_clear_flag FLG_DBUSY_TIMER m) in
          let m :=
            if negb (tx_idx (dch m) =? 0) then on_dch (set_tx_idx 0) m
            else
              let m := printk "HiSax: ISAC D-Channel Busy no tx_idx" [] m in
              debugprint "D-Channel Busy no tx_idx" [] m in
          (* Transmitter reset *)
          write_reg ISAC_CMDR 0x01 m in
      unlock m
  else m.

End Isac.

(** ** Vocabulary of the properties *)

(** Bytes handed to the transmit FIFO, in order. *)
Definition fifo_written (tr : list effect) : list Z :=
  flat_map (fun e => match e with EvWriteFifo d => d | _ => [] end) tr.

(** Calls into the upper layer. *)
Definition is_upcall (e : effect) : bool :=
  match e with
  | EvIfLink _ _ _ | EvIfNewhead _ _ _ => true
  | _ => false
  end.
Definition upcalls (tr : list effect) : list effect := filter is_upcall tr.

(** Writes to the monitor transmit data registers. *)
Definition is_mox_write (e : effect) : bool :=
  match e with
  | EvWriteReg ISAC_MOX0 _ | EvWriteReg ISAC_MOX1 _ => true
  | _ => false
  end.
Definition mox_writes (tr : list effect) : list effect := filter is_mox_write tr.

(** Writes to the monitor control register. *)
Definition is_mocr_write (e : effect) : bool :=
  match e with
  | EvWriteReg ISAC_MOCR _ => true
  | _ => false
  end.
Definition mocr_writes (tr : list effect) : list effect := filter is_mocr_write tr.

(** The transmit side of the monitor state and the bytes written to
    MOX0/MOX1 so far are the same in [m] and [m']. *)
Definition tx_fixed (m m' : machine) : Prop :=
  mon_tx (hw (dch m')) = mon_tx (hw (dch m))
  /\ mon_txp (hw (dch m')) = mon_txp (hw (dch m))
  /\ mon_txc (hw (dch m')) = mon_txc (hw (dch m))
  /\ mox_writes (trace m') = mox_writes (trace m).

(** Every deferred event pending in [m] is still pending in [m']. *)
Definition ev_grows (m m' : machine) : Prop :=
  forall b, test_bit b (event (dch m)) = true ->
            test_bit b (event (dch m')) = true.

(** The bytes [k] transmit-ready events write to the monitor transmit
    data register [r], starting at cursor [p] of buffer [b]. *)
Definition mon_bytes (r : isac_reg) (b : list Z) (p k : nat) : list effect :=
  map (fun i => EvWriteReg r (u8 (nth i b 0))) (seq p k).

(** The transmit data registers whose ready bit a MOSR value carries
    (0x02 for channel 0, 0x20 for channel 1), in the order their blocks
    run; and the same over a run of events. *)
Definition tx_ready_regs (v1 : Z) : list isac_reg :=
  (if tst v1 0x02 then [ISAC_MOX0] else [])
  ++ (if tst v1 0x20 then [ISAC_MOX1] else []).

Definition run_tx_regs (evs : list ((isac_reg -> Z) * Z)) : list isac_reg :=
  flat_map (fun e => tx_ready_regs (snd e)) evs.

(** The bytes of buffer [b] from cursor [p] on, written one to each
    register of [rs] in turn. *)
Fixpoint mox_bytes (b : list Z) (p : nat) (rs : list isac_reg) : list effect :=
  match rs with
  | [] => []
  | r :: rs => EvWriteReg r (u8 (nth p b 0)) :: mox_bytes b (S p) rs
  end.

(** The two MOCR writes by which a transmit block disables its channel's
    transmit direction, from shadow value [v], and the shadow value they
    leave. *)
Definition tx_disabled (ch1 : bool) (v : Z) : Z :=
  u8 (Z.lor (u8 (Z.land v (if ch1 then 0x0f else 0xf0)))
            (if ch1 then 0xa0 else 0x0a)).

Definition tx_disable_writes (ch1 : bool) (v : Z) : list effect :=
  [EvWriteReg ISAC_MOCR (u8 (Z.land v (if ch1 then 0x0f else 0xf0)));
   EvWriteReg ISAC_MOCR (tx_disabled ch1 v)].

(** From [m] to [m'] the transmit-ready bits of the registers [rs] were
    handled, buffer [b] being attached: those handled while the cursor was
    below the target length each wrote the next byte, the others none. *)
Definition tx_sent (b : list Z) (rs : list isac_reg) (m m' : machine) : Prop :=
  let p := mon_txp (hw (dch m)) in
  let sent := firstn (Z.to_nat (mon_txc (hw (dch m)) - p)) rs in
  mox_writes (trace m') = mox_writes (trace m) ++ mox_bytes b (Z.to_nat p) sent
  /\ mon_txp (hw (dch m')) = p + Z.of_nat (List.length sent)
  /\ mon_txc (hw (dch m')) = mon_txc (hw (dch m))
  /\ mon_tx (hw (dch m')) = Some b.

(** An event with MOSR value [v1] carries the channel's transmit-ready
    bit, and either no transmit buffer is attached or the event does not
    carry the channel's receive-data bit. *)
Definition tx_disables (ch1 : bool) (v1 : Z) (m : machine) : bool :=
  tst v1 (if ch1 then 0x20 else 0x02)
  && (match mon_tx (hw (dch m)) with None => true | Some _ => false end
      || negb (tst v1 (if ch1 then 0x80 else 0x08))).

(** [n] transmit-pool-ready interrupts in a row. *)
Fixpoint xpr_times {h : isac_h} (n : nat) (m : machine) : machine :=
  match n with
  | O => m
  | S k => xpr_times k (irq_XPR m)
  end.

(** A run of monitor-status events: each supplies the register file of
    the moment and the MOSR value. *)
Fixpoint mos_run {h : isac_h} (evs : list ((isac_reg -> Z) * Z)) (m : machine) : machine :=
  match evs with
  | [] => m
  | (rd, v1) :: r => mos_run r (mos_blocks rd v1 m)
  end.

(** The receive blocks of a monitor-status event, which run before its
    transmit blocks. *)
Definition mon_rx_blocks {h : isac_h} (rd : isac_reg -> Z) (v1 : Z) (m : machine)
  : machine :=
  let m := if tst v1 0x08 then mon_RX0 rd m else m in
  let m := if tst v1 0x80 then mon_RX1 rd m else m in
  let m := if tst v1 0x04 then mon_RXEND0 m else m in
  if tst v1 0x40 then mon_RXEND1 m else m.

(** The effects one call of [isac_fill_fifo] appends in state [m]. *)
Definition fill_fifo_effects {h : isac_h} (m : machine) : list effect :=
  let rem := tx_len (dch m) - tx_idx (dch m) in
  if rem <=? 0 then [] else
  [EvWriteFifo (firstn (Z.to_nat (Z.min rem 32))
                  (skipn (Z.to_nat (tx_idx (dch m))) (tx_buf (dch m))));
   EvWriteReg ISAC_CMDR (if 32 <? rem then 0x8 else 0xa)]
  ++ (if test_flag FLG_DBUSY_TIMER m then [EvDelTimer] else [])
  ++ [EvInitTimer;
      EvAddTimer (ulong (jiffies m + Z.quot (DBUSY_TIMER_VALUE * HZ) 1000))].

(** The receive buffer [isac_empty_fifo] works on: the one in the slot,
    or a freshly allocated empty one, or none when allocation fails. *)
Definition rx_buffer_for_drain (m : machine) : option sk_buff :=
  match rx_skb (dch m) with
  | Some s => Some s
  | None =>
      if alloc_ok m (alloc_pos m)
      then Some {| hh_prim := 0; hh_dinfo := 0; skb_data := [] |}
      else None
  end.

(** The next [count] bytes the receive FIFO delivers. *)
Definition fifo_next (count : Z) (m : machine) : list Z :=
  map (fun i => u8 (rfifo m (rfifo_pos m + i)%nat)) (seq 0 (Z.to_nat count)).

(** What [isac_empty_fifo count] leaves in the receive slot, and the
    effects it appends. *)
Definition drain_result {h : isac_h} (count : Z) (m : machine) : option sk_buff :=
  match rx_buffer_for_drain m with
  | None => None
  | Some s =>
      if uint (skb_len s + count) >=? MAX_DFRAME_LEN_L1 then Some s
      else Some (skb_put s (fifo_next count m))
  end.

Definition drain_effects {h : isac_h} (count : Z) (m : machine) : list effect :=
  match rx_buffer_for_drain m with
  | None => [EvWriteReg ISAC_CMDR 0x80]
  | Some s =>
      if uint (skb_len s + count) >=? MAX_DFRAME_LEN_L1
      then [EvWriteReg ISAC_CMDR 0x80]
      else [EvReadFifo count; EvWriteReg ISAC_CMDR 0x80]
  end.

(** *** The line-state table of the specification (section 4.3)

    The meanings the table distinguishes, the C/I code the source's case
    label gives each, and the (primitive, parameter) pair of each row. *)
Inductive line_state : Type :=
| LS_reset | LS_error | LS_deactivation_confirm | LS_deactivation_indication
| LS_power_up | LS_resynchronization | LS_info2 | LS_info4_A | LS_info4_B.

Definition ci_code {h : isac_h} (s : line_state) : Z :=
  match s with
  | LS_reset => ISAC_IND_RS
  | LS_error => ISAC_IND_EI
  | LS_deactivation_confirm => ISAC_IND_DID
  | LS_deactivation_indication => ISAC_IND_DR
  | LS_power_up => ISAC_IND_PU
  | LS_resynchronization => ISAC_IND_RSY
  | LS_info2 => ISAC_IND_ARD
  | LS_info4_A => ISAC_IND_AI8
  | LS_info4_B => ISAC_IND_AI10
  end.

(** The table as the specification words it: the reset / error row reads
    "control-confirm" with parameter HW_RESET. *)
Definition spec_table_4_3 {h : isac_h} (s : line_state) : Z * Z :=
  match s with
  | LS_reset | LS_error => (Z.lor PH_CONTROL CONFIRM, HW_RESET)
  | LS_deactivation_confirm => (Z.lor PH_CONTROL CONFIRM, HW_DEACTIVATE)
  | LS_deactivation_indication => (Z.lor PH_CONTROL INDICATION, HW_DEACTIVATE)
  | LS_power_up => (Z.lor PH_CONTROL INDICATION, HW_POWERUP)
  | LS_resynchronization => (Z.lor PH_SIGNAL INDICATION, ANYSIGNAL)
  | LS_info2 => (Z.lor PH_SIGNAL INDICATION, INFO2)
  | LS_info4_A => (Z.lor PH_SIGNAL INDICATION, INFO4_P8)
  | LS_info4_B => (Z.lor PH_SIGNAL INDICATION, INFO4_P10)
  end.

(** The same table with the reset / error row a control-indication. *)
Definition line_state_table {h : isac_h} (s : line_state) : Z * Z :=
  match s with
  | LS_reset | LS_error => (Z.lor PH_CONTROL INDICATION, HW_RESET)
  | _ => spec_table_4_3 s
  end.

Definition needs_disable (s : line_state) : bool :=
  match s with
  | LS_reset | LS_error => true
  | _ => false
  end.

(** One [if_link] per interface of the upper chain, all with the same
    primitive and parameter. *)
Definition notifications (links : nat) (pp : Z * Z) : list effect :=
  map (fun k => EvIfLink k (fst pp) (snd pp)) (seq 0 (S links)).

(** The write [ph_command(dch, ISAC_CMD_DUI)] makes, bracketed by the
    hardware-access lock, for the rows that need it. *)
Definition disable_effects {h : isac_h} (s : line_state) : list effect :=
  if needs_disable s
  then [EvLock;
        EvWriteReg ISAC_CIX0 (u8 (Z.lor (Z.shiftl ISAC_CMD_DUI 2) 3));
        EvUnlock]
  else [].

(** What the ARCOFI part of the bottom half adds: calls into the ARCOFI
    state machine for the pending monitor-channel-1 events, if the chip
    has an ARCOFI. *)
Definition arcofi_effects {h : isac_h} (m : machine) : list effect :=
  if test_bit HW_ARCOFI (DFlags (dch m)) then
    (if test_bit D_RX_MON1 (event (dch m))
     then [EvArcofiFsm ARCOFI_RX_END] else [])
    ++ (if test_bit D_TX_MON1 (event (dch m))
        then [EvArcofiFsm ARCOFI_TX_END] else [])
  else [].

(** ** A concrete header and concrete machines

    One assignment of the header constants on which the model can be run.
    The C/I code of ISAC_IND_ARD is the one the specification's scenario
    names (0x3); the remaining values are chosen to satisfy [header_wf]. *)
#[export] Instance sample_h : isac_h := {|
  FLG_TX_BUSY := 3; FLG_TX_NEXT := 4; FLG_DBUSY_TIMER := 5; FLG_L1_DBUSY := 6;
  HW_IOM1 := 10; HW_ARCOFI := 11;
  D_L1STATECHANGE := 0; D_CLEARBUSY := 1; D_RCVBUFREADY := 2; D_XMTBUFREADY := 3;
  D_RX_MON0 := 4; D_RX_MON1 := 5; D_TX_MON0 := 6; D_TX_MON1 := 7;
  L1_DEB_WARN := 0x01; L1_DEB_ISAC := 0x20; L1_DEB_ISAC_FIFO := 0x40;
  L1_DEB_MONITOR := 0x2000;
  MAX_DFRAME_LEN_L1 := 300; MAX_MON_FRAME := 32;
  ISAC_IND_RS := 0x1; ISAC_IND_EI := 0x6; ISAC_IND_DID := 0xF;
  ISAC_IND_DR := 0x0; ISAC_IND_PU := 0x7; ISAC_IND_RSY := 0x4;
  ISAC_IND_ARD := 0x3; ISAC_IND_AI8 := 0xC; ISAC_IND_AI10 := 0xD;
  ISAC_CMD_TIM := 0x0; ISAC_CMD_RS := 0x1; ISAC_CMD_AR8 := 0x8;
  ISAC_CMD_AR10 := 0x9; ISAC_CMD_DUI := 0xF;
  ISAC_RBCH_XAC := 0x80;
  PH_DATA_REQ := 0x120; PH_DATA_CNF := 0x121;
  PH_SIGNAL := 0x100; PH_CONTROL := 0x200;
  REQUEST := 0x80; CONFIRM := 0x81; INDICATION := 0x82;
  HW_RESET := 0x1; HW_POWERUP := 0x200; HW_DEACTIVATE := 0x1000;
  HW_TESTLOOP := 0xFF00;
  ANYSIGNAL := 0x1; INFO2 := 0x2; INFO4_P8 := 0x108; INFO4_P10 := 0x10a;
  INFO3_P8 := 0x308; INFO3_P10 := 0x30a;
  DINFO_SKB := -1;
  ERROR_STATISTIC := true;
  HZ := 100; BITS_PER_LONG := 32
|}.

Definition chip0 : isac_chip_t :=
  {| mon_tx := None; mon_rx := None; mon_txp := 0; mon_txc := 0;
     mon_rxp := 0; mocr := 0xaa |}.

(** An idle channel with a 300-byte transmit buffer. *)
Definition dch0 : dchannel_t :=
  {| debug := 0; DFlags := 0; event := 0; ph_state := 0;
     rx_skb := None; rqueue := []; next_skb := None;
     tx_buf := repeat 0 300; tx_idx := 0; tx_len := 0;
     dbusytimer_expires := 0; err_crc := 0; err_tx := 0; err_rx := 0;
     hw := chip0; up_links := 0 |}.

Definition machine0 : machine :=
  {| dch := dch0; trace := []; klog := [];
     rfifo := fun n => Z.of_nat n; rfifo_pos := 0;
     alloc_ok := fun _ => true; alloc_pos := 0;
     jiffies := 1000; up_ret := 0 |}.

(** A register file that reads [v] from register [r] and 0 elsewhere. *)
Definition reg_is (r : isac_reg) (v : Z) : isac_reg -> Z :=
  fun r' =>
    match r, r' with
    | ISAC_RSTA, ISAC_RSTA | ISAC_RBCL, ISAC_RBCL | ISAC_RBCH, ISAC_RBCH
    | ISAC_STAR, ISAC_STAR | ISAC_CIR0, ISAC_CIR0 | ISAC_CIR1, ISAC_CIR1
    | ISAC_EXIR, ISAC_EXIR | ISAC_MOSR, ISAC_MOSR | ISAC_MOR0, ISAC_MOR0
    | ISAC_MOR1, ISAC_MOR1 => v
    | _, _ => 0
    end.

(** A data request carrying [data]. *)
Definition data_req {h : isac_h} (data : list Z) : sk_buff :=
  {| hh_prim := PH_DATA_REQ; hh_dinfo := 0; skb_data := data |}.

(** A control request with parameter [para]. *)
Definition control_req {h : isac_h} (para : Z) : sk_buff :=
  {| hh_prim := Z.lor PH_CONTROL REQUEST; hh_dinfo := para; skb_data := [] |}.

(** The log line at the entry of the interrupt handler. *)
Definition entry_log {h : isac_h} (val : Z) (m : machine) : machine :=
  log_if (deb L1_DEB_ISAC m) "ISAC interrupt %x" [val] m.

(** ** Set-up and tear-down

    [ISAC_init], [ISAC_free] and [ISAC_clear_pending_ints] work on parts
    of the channel the protocol engine never looks at: whether [dch->hw]
    is there at all, the callback of the busy timer, the bottom-half hook,
    the ADF2 shadow of the chip state, and a handful of configuration
    registers.  The card is the channel's machine together with those
    parts; its trace takes the effects of the machine in program order
    among the accesses to the configuration registers. *)


(** The registers only the set-up routines touch. *)
Inductive isac_cfg_reg : Type :=
| ISAC_MASK | ISAC_ISTA | ISAC_MODE | ISAC_ADF2 | ISAC_SQXR | ISAC_STCR
| ISAC_TIMR.

(** The functions stored in [dch->dbusytimer.function] and [dch->hw_bh]. *)
Inductive timer_fn : Type := Fn_dbusy_timer_handler.
Inductive bh_fn : Type := Fn_isac_hwbh.

Inductive card_effect : Type :=
| CeChan (e : effect)                      (* an effect of the channel's machine *)
| CeReadCfg (r : isac_cfg_reg)
| CeWriteCfg (r : isac_cfg_reg) (v : Z)
| CeKfree (buf : list Z).                  (* kfree of a monitor buffer *)

Record isac_card : Type := {
  chan : machine;
  hw_null : bool;                          (* dch->hw == NULL *)
  adf2 : Z;                                (* isac->adf2 *)
  timer_function : option timer_fn;        (* dch->dbusytimer.function *)
  timer_data : bool;                       (* dch->dbusytimer.data == (long) dch *)
  hw_bh : option bh_fn;                    (* dch->hw_bh *)
  card_trace : list card_effect
}.

Definition set_mon_tx (v : option (list Z)) (c : isac_chip_t) : isac_chip_t :=
  {| mon_tx := v; mon_rx := mon_rx c; mon_txp := mon_txp c;
     mon_txc := mon_txc c; mon_rxp := mon_rxp c; mocr := mocr c |}.

(** Run a step of the channel's machine on the card; what the step adds to
    the machine's trace is added to the card's. *)
Definition on_chan (f : machine -> machine) (c : isac_card) : isac_card :=
  {| chan := f (chan c); hw_null := hw_null c; adf2 := adf2 c;
     timer_function := timer_function c; timer_data := timer_data c;
     hw_bh := hw_bh c;
     card_trace :=
       card_trace c
       ++ map CeChan (skipn (List.length (trace (chan c))) (trace (f (chan c)))) |}.

Definition card_emit (e : card_effect) (c : isac_card) : isac_card :=
  {| chan := chan c; hw_null := hw_null c; adf2 := adf2 c;
     timer_function := timer_function c; timer_data := timer_data c;
     hw_bh := hw_bh c; card_trace := card_trace c ++ [e] |}.

Definition set_adf2 (v : Z) (c : isac_card) : isac_card :=
  {| chan := chan c; hw_null := hw_null c; adf2 := v;
     timer_function := timer_function c; timer_data := timer_data c;
     hw_bh := hw_bh c; card_trace := card_trace c |}.

Definition set_timer_function (v : option timer_fn) (c : isac_card) : isac_card :=
  {| chan := chan c; hw_null := hw_null c; adf2 := adf2 c;
     timer_function := v; timer_data := timer_data c;
     hw_bh := hw_bh c; card_trace := card_trace c |}.

Definition set_timer_data (v : bool) (c : isac_card) : isac_card :=
  {| chan := chan c; hw_null := hw_null c; adf2 := adf2 c;
     timer_function := timer_function c; timer_data := v;
     hw_bh := hw_bh c; card_trace := card_trace c |}.

Definition set_hw_bh (v : option bh_fn) (c : isac_card) : isac_card :=
  {| chan := chan c; hw_null := hw_null c; adf2 := adf2 c;
     timer_function := timer_function c; timer_data := timer_data c;
     hw_bh := v; card_trace := card_trace c |}.



Section Card.
Context {h : isac_h}.

(** [dch->read_reg] and [dch->write_reg] on a configuration register;
    [rdc] is what the device presents. *)
Definition read_cfg (rdc : isac_cfg_reg -> Z) (r : isac_cfg_reg) (c : isac_card)
  : Z * isac_card :=
  (u8 (rdc r), card_emit (CeReadCfg r) c).

Definition write_cfg (r : isac_cfg_reg) (v : Z) (c : isac_card) : isac_card :=
  card_emit (CeWriteCfg r (u8 v)) c.

(** [dch->read_reg] on a register of the protocol engine. *)
Definition chan_read_reg (rd : isac_reg -> Z) (r : isac_reg) (c : isac_card)
  : Z * isac_card :=
  (fst (read_reg rd r (chan c)), on_chan (fun m => snd (read_reg rd r m)) c).

(** [kfree] of a monitor buffer. *)
Definition kfree (buf : list Z) (c : isac_card) : isac_card :=
  card_emit (CeKfree buf) c.

(** *** ISAC_free *)

Definition ISAC_free (c : isac_card) : isac_card :=
  let c :=
    match timer_function c with
    | Some _ =>
        let c := on_chan del_timer c in
        set_timer_function None c
    | None => c
    end in
  if hw_null c then c else
  let c :=
    match mon_rx (hw (dch (chan c))) with
    | Some b =>
        let c := kfree b c in
        on_chan (on_isac (set_mon_rx None)) c
    | None => c
    end in
  match mon_tx (hw (dch (chan c))) with
  | Some b =>
      let c := kfree b c in
      on_chan (on_isac (set_mon_tx None)) c
  | None => c
  end.

(** *** ISAC_init

    The version line is logged with the name already put in for [%s]. *)


(** *** ISAC_clear_pending_ints *)

Definition ISAC_clear_pending_ints (rd : isac_reg -> Z) (rdc : isac_cfg_reg -> Z)
  (c : isac_card) : isac_card :=
  if hw_null c then c else
  (* Disable all IRQ *)
  let c := write_cfg ISAC_MASK 0xFF c in
  let (val, c) := chan_read_reg rd ISAC_STAR c in
  let c := on_chan (debugprint "ISAC STAR %x" [val]) c in
  let (val, c) := read_cfg rdc ISAC_MODE c in
  let c := on_chan (debugprint "ISAC MODE %x" [val]) c in
  let (val, c) := read_cfg rdc ISAC_ADF2 c in
  let c := on_chan (debugprint "ISAC ADF2 %x" [val]) c in
  let (val, c) := read_cfg rdc ISAC_ISTA c in
  let c := on_chan (debugprint "ISAC ISTA %x" [val]) c in
  let c :=
    if tst val 0x01 then
      let (eval, c) := chan_read_reg rd ISAC_EXIR c in
      on_chan (debugprint "ISAC EXIR %x" [eval]) c
    else c in
  let (val, c) := chan_read_reg rd ISAC_CIR0 c in
  let c := on_chan (debugprint "ISAC CIR0 %x" [val]) c in
  on_chan (on_dch (set_ph_state (Z.land (Z.shiftr val 2) 0xf))) c.

End Card.

(** ** Vocabulary of the further properties *)

(** An access to the chip. *)
Definition is_hw_access (e : effect) : bool :=
  match e with
  | EvReadReg _ | EvWriteReg _ _ | EvReadFifo _ | EvWriteFifo _ => true
  | _ => false
  end.

(** Neither an access to the chip, nor a call into the upper layer, nor
    an operation on the hardware-access lock. *)
Definition lock_neutral (e : effect) : bool :=
  negb (is_hw_access e) && negb (is_upcall e)
  && match e with
     | EvLock | EvUnlock => false
     | _ => true
     end.

(** The lock discipline over a stretch of the trace, [held] telling
    whether the hardware-access lock is held at its start: the lock is
    taken only when free and released only when held, the chip is accessed
    only with the lock held and the upper layer called only with the lock
    free.  The result is whether the lock is held at the end, or [None]
    when the discipline is broken. *)
Fixpoint lock_run (held : bool) (tr : list effect) : option bool :=
  match tr with
  | [] => Some held
  | EvLock :: r => if held then None else lock_run true r
  | EvUnlock :: r => if held then lock_run false r else None
  | e :: r =>
      if (if is_hw_access e then held else if is_upcall e then negb held else true)
      then lock_run held r
      else None
  end.

(** A stretch that starts and ends with the lock free and keeps the
    discipline in between. *)
Definition locked_ok (tr : list effect) : bool :=
  match lock_run false tr with
  | Some false => true
  | _ => false
  end.

(** What the interrupt handler may do: anything but take or release the
    lock, call the upper layer or run the ARCOFI state machine. *)
Definition irq_effect (e : effect) : bool :=
  match e with
  | EvLock | EvUnlock | EvIfLink _ _ _ | EvIfNewhead _ _ _ | EvArcofiFsm _ => false
  | _ => true
  end.

(** [m'] has the trace of [m] followed by effects that all satisfy [P]. *)
Definition appends (P : effect -> bool) (m m' : machine) : Prop :=
  exists l, trace m' = trace m ++ l /\ forallb P l = true.

Definition is_kfree (e : effect) : bool :=
  match e with
  | EvKfreeSkb _ => true
  | _ => false
  end.

(** Every receive buffer the channel holds, in the slot or queued, is
    shorter than the maximum D-channel frame. *)
Definition rx_bounded {h : isac_h} (d : dchannel_t) : bool :=
  match rx_skb d with
  | Some s => skb_len s <? MAX_DFRAME_LEN_L1
  | None => true
  end
  && forallb (fun s => skb_len s <? MAX_DFRAME_LEN_L1) (rqueue d).

(** The transmit cursor lies within the frame. *)
Definition tx_cursor_ok (d : dchannel_t) : bool :=
  (0 <=? tx_idx d) && (tx_idx d <=? tx_len d).

(** The monitor receive cursor lies within the buffer, and a buffer that
    is there has the size [kmalloc] was asked for. *)
Definition mon_rx_ok {h : isac_h} (c : isac_chip_t) : bool :=
  (0 <=? mon_rxp c) && (mon_rxp c <=? MAX_MON_FRAME)
  && match mon_rx c with
     | Some b => Z.of_nat (List.length b) =? MAX_MON_FRAME
     | None => true
     end.

(** [n] receive-pool-full interrupts in a row. *)
Fixpoint rpf_times {h : isac_h} (n : nat) (m : machine) : machine :=
  match n with
  | O => m
  | S k => rpf_times k (isac_empty_fifo 32 m)
  end.

(** The receive buffer [alloc_uplink_skb] hands out. *)
Definition fresh_skb : sk_buff := {| hh_prim := 0; hh_dinfo := 0; skb_data := [] |}.

(** The C/I code in bits 2..5 of a CIX0 or CIR0 value. *)
Definition ci_field (v : Z) : Z := Z.land (Z.shiftr v 2) 0xf.

(** The value [ph_command] writes to CIX0. *)
Definition cix0_value (command : Z) : Z := u8 (Z.lor (Z.shiftl command 2) 3).

(** The loop selection of a HW_TESTLOOP request: bit 0 of the parameter
    closes the loop of one B channel (0x0c), bit 1 that of the other
    (0x03). *)
Definition testloop_tl (dinfo : Z) : Z :=
  Z.lor (if tst 1 dinfo then 0x0c else 0) (if tst 2 dinfo then 0x3 else 0).

(** The values a HW_TESTLOOP request writes to SPCR and ADF1. *)
Definition testloop_regs (iom1 : bool) (tl : Z) : Z * Z :=
  if iom1 then (if tl =? 0 then (0xa, 0x2) else (tl, 0xa))
  else (tl, if tl =? 0 then 0x0 else 0x8).

(** A signal request with parameter [para]. *)
Definition signal_req {h : isac_h} (para : Z) : sk_buff :=
  {| hh_prim := Z.lor PH_SIGNAL REQUEST; hh_dinfo := para; skb_data := [] |}.




(** A card around a machine, with nothing set up yet. *)
Definition card0 (m : machine) : isac_card :=
  {| chan := m; hw_null := false; adf2 := 0; timer_function := None;
     timer_data := false; hw_bh := None; card_trace := [] |}.

(** A register file of the configuration registers that reads [v] from
    ISTA and 0 elsewhere. *)
Definition ista_is (v : Z) : isac_cfg_reg -> Z :=
  fun r => match r with ISAC_ISTA => v | _ => 0 end.

(** ** Proof tools *)

(** Reduce projections of updated records and the small state primitives,
    leaving arithmetic alone. *)
Ltac mred :=
  cbn [dch trace klog rfifo rfifo_pos alloc_ok alloc_pos jiffies up_ret
       debug DFlags event ph_state rx_skb rqueue next_skb tx_buf tx_idx tx_len
       dbusytimer_expires err_crc err_tx err_rx hw up_links
       mon_tx mon_rx mon_txp mon_txc mon_rxp mocr
       hh_prim hh_dinfo skb_data
       on_dch on_isac emit log_if debugprint printk
       set_hw set_DFlags set_event set_ph_state set_rx_skb set_rqueue
       set_next_skb set_tx_buf set_tx_idx set_tx_len set_expires set_errs
       set_mon_rx set_mon_rxp set_mon_txp set_mocr set_rfifo_pos set_alloc_pos
       read_reg write_reg read_fifo write_fifo lock unlock del_timer init_timer
       add_timer dev_kfree_skb test_and_set_flag test_and_clear_flag
       test_and_clear_event dchannel_sched_event alloc_uplink_skb
       kmalloc if_newhead ph_command arcofi_fsm load_tx_buf mocr_and mocr_or
       write_mocr mon_tx_next fst snd negb andb orb] in *.

Ltac case_if :=
  match goal with
  | |- context [if ?c then _ else _] =>
      let E := fresh "E" in destruct c eqn:E
  end.

Ltac case_match :=
  match goal with
  | |- context [match ?c with _ => _ end] =>
      let E := fresh "E" in destruct c eqn:E
  end.

(** Boolean facts into propositions over Z. *)
Ltac b2p :=
  repeat match goal with
  | H : _ && _ = true |- _ => apply andb_true_iff in H; destruct H
  | H : _ || _ = false |- _ => apply orb_false_iff in H; destruct H
  | H : negb _ = true |- _ => apply negb_true_iff in H
  | H : negb _ = false |- _ => apply negb_false_iff in H
  | H : (_ =? _) = true |- _ => apply Z.eqb_eq in H
  | H : (_ =? _) = false |- _ => apply Z.eqb_neq in H
  | H : (_ <=? _) = true |- _ => apply Z.leb_le in H
  | H : (_ <=? _) = false |- _ => apply Z.leb_gt in H
  | H : (_ <? _) = true |- _ => apply Z.ltb_lt in H
  | H : (_ <? _) = false |- _ => apply Z.ltb_ge in H
  | H : (_ >=? _) = true |- _ => rewrite Z.geb_leb in H
  | H : (_ >=? _) = false |- _ => rewrite Z.geb_leb in H
  | H : true = true |- _ => clear H
  | H : false = false |- _ => clear H
  end.

Lemma distinctb_head x l y : distinctb (x :: l) = true -> In y l -> x <> y.
Proof.
  cbn [distinctb]. intros Hd Hy ->.
  apply andb_true_iff in Hd. destruct Hd as [Hd _].
  apply negb_true_iff in Hd.
  assert (existsb (Z.eqb y) l = true); [|congruence].
  apply existsb_exists. exists y. split; [assumption | apply Z.eqb_refl].
Qed.

Lemma distinctb_tail x l : distinctb (x :: l) = true -> distinctb l = true.
Proof.
  cbn [distinctb]. intros Hd. apply andb_true_iff in Hd. tauto.
Qed.

Lemma forallb_nonneg l x : forallb (Z.leb 0) l = true -> In x l -> 0 <= x.
Proof.
  intros Hf Hx. rewrite forallb_forall in Hf. apply Z.leb_le. now apply Hf.
Qed.

Section HeaderFacts.
Context {h : isac_h}.
Hypothesis Hwf : header_wf = true.

Lemma wf_parts :
  (forallb (Z.leb 0) flag_bits = true /\ distinctb flag_bits = true)
  /\ (forallb (Z.leb 0) event_bits = true /\ distinctb event_bits = true)
  /\ distinctb ind_labels = true /\ distinctb ctl_params = true
  /\ distinctb req_prims = true /\ distinctb ind_prims = true.
Proof.
  pose proof Hwf as W. unfold header_wf in W.
  do 7 (apply andb_true_iff in W; destruct W as [W ?]).
  tauto.
Qed.

Lemma wf_flag_nonneg x : In x flag_bits -> 0 <= x.
Proof. apply forallb_nonneg, wf_parts. Qed.

Lemma wf_event_nonneg x : In x event_bits -> 0 <= x.
Proof. apply forallb_nonneg, wf_parts. Qed.

Lemma wf_flag_distinct : distinctb flag_bits = true.
Proof. apply wf_parts. Qed.

Lemma wf_event_distinct : distinctb event_bits = true.
Proof. apply wf_parts. Qed.

Lemma wf_label_distinct : distinctb ind_labels = true.
Proof. apply wf_parts. Qed.

Lemma wf_param_distinct : distinctb ctl_params = true.
Proof. apply wf_parts. Qed.

Lemma wf_req_distinct : distinctb req_prims = true.
Proof. apply wf_parts. Qed.

Lemma wf_ind_distinct : distinctb ind_prims = true.
Proof. apply wf_parts. Qed.

End HeaderFacts.

(** Membership in a list written out. *)
Ltac in_list := cbn [In]; repeat first [ left; reflexivity | right ].

(** [a <> b] from [D], a proof of [T], which reads
    [distinctb l = true] with both [a] and [b] written out in [l]. *)
Ltac neq_in D T :=
  lazymatch T with
  | distinctb (?x :: ?l) = true =>
      first [ solve [ apply (distinctb_head x l _ D); in_list ]
            | solve [ apply not_eq_sym; apply (distinctb_head x l _ D); in_list ]
            | neq_in constr:(distinctb_tail x l D) constr:(distinctb l = true) ]
  end.

(** Solve a goal [0 <= c] or [c <> c'] that [header_wf] guarantees. *)
Ltac wf_solve H :=
  lazymatch goal with
  | |- 0 <= _ =>
      first [ solve [ apply (wf_flag_nonneg H); unfold flag_bits; in_list ]
            | solve [ apply (wf_event_nonneg H); unfold event_bits; in_list ] ]
  | |- _ <> _ =>
      first
        [ let T := eval unfold flag_bits in (distinctb flag_bits = true) in
          neq_in constr:(wf_flag_distinct H) T
        | let T := eval unfold event_bits in (distinctb event_bits = true) in
          neq_in constr:(wf_event_distinct H) T
        | let T := eval unfold ind_labels in (distinctb ind_labels = true) in
          neq_in constr:(wf_label_distinct H) T
        | let T := eval unfold ctl_params in (distinctb ctl_params = true) in
          neq_in constr:(wf_param_distinct H) T
        | let T := eval unfold req_prims in (distinctb req_prims = true) in
          neq_in constr:(wf_req_distinct H) T
        | let T := eval unfold ind_prims in (distinctb ind_prims = true) in
          neq_in constr:(wf_ind_distinct H) T ]
  end.

(** Traces as one right-nested append. *)
Ltac tr_norm := repeat rewrite <- app_assoc; cbn [app].

Lemma u8_small x : 0 <= x < 256 -> u8 x = x.
Proof.
  intros Hx. unfold u8. change 255 with (Z.ones 8).
  rewrite Z.land_ones by lia. apply Z.mod_small. lia.
Qed.

Lemma u8_idem x : u8 (u8 x) = u8 x.
Proof.
  unfold u8. rewrite <- Z.land_assoc. reflexivity.
Qed.

Lemma test_set_eq nr w : 0 <= nr -> test_bit nr (set_bit nr w) = true.
Proof. intros. unfold test_bit, set_bit. now apply Z.setbit_eq. Qed.

Lemma test_set_neq nr nr' w :
  0 <= nr' -> nr' <> nr -> test_bit nr (set_bit nr' w) = test_bit nr w.
Proof. intros. unfold test_bit, set_bit. now apply Z.setbit_neq. Qed.

Lemma test_clear_eq nr w : test_bit nr (clear_bit nr w) = false.
Proof. unfold test_bit, clear_bit. apply Z.clearbit_eq. Qed.

Lemma test_clear_neq nr nr' w :
  nr' <> nr -> test_bit nr (clear_bit nr' w) = test_bit nr w.
Proof. intros. unfold test_bit, clear_bit. now apply Z.clearbit_neq. Qed.

(** Rewrite flag tests through bit updates; [H] is the header's
    well-formedness. *)
Ltac bits H :=
  repeat first
    [ rewrite test_set_eq by wf_solve H
    | rewrite test_clear_eq
    | rewrite test_set_neq by wf_solve H
    | rewrite test_clear_neq by wf_solve H ].

(** Decide a comparison of two different header constants. *)
Ltac neq_consts H :=
  repeat match goal with
  | |- context [?a =? ?b] =>
      rewrite (proj2 (Z.eqb_neq a b)) by wf_solve H
  end.

(** Rewrite with the boolean facts at hand. *)
Ltac rw_bools :=
  repeat match goal with
  | E : ?c = true |- context [?c] =>
      lazymatch c with true => fail | false => fail | _ => rewrite E end
  | E : ?c = false |- context [?c] =>
      lazymatch c with true => fail | false => fail | _ => rewrite E end
  end.

(** Run the machine symbolically: reduce, push flag tests through bit
    updates, decide the tests already known. *)
Ltac msimp H := repeat (progress (mred; bits H; rw_bools)).

(** Comparisons between closed numbers, by computation. *)
Ltac zcomp :=
  repeat split;
  first [ apply Z.leb_le; vm_compute; reflexivity
        | apply Z.ltb_lt; vm_compute; reflexivity ].

Lemma fifo_next_length count m :
  0 <= count -> Z.of_nat (List.length (fifo_next count m)) = count.
Proof.
  intros Hc. unfold fifo_next. rewrite length_map, length_seq. lia.
Qed.

(** ** The frame transfer engine *)

Section FrameTransfer.
Context {h : isac_h}.
Hypothesis Hwf : header_wf = true.

Lemma isac_fill_fifo_trace m :
  trace (isac_fill_fifo m) = trace m ++ fill_fifo_effects m.
Proof.
  unfold isac_fill_fifo, fill_fifo_effects, test_flag.
  repeat (mred; case_if); mred; tr_norm; rewrite ?app_nil_r;
    b2p; rewrite ?u8_small by lia; try reflexivity; try lia.
  all: try (rewrite Z.min_r by lia; reflexivity).
  all: try (rewrite Z.min_l by lia; reflexivity).
Qed.

Lemma isac_fill_fifo_idle m :
  tx_len (dch m) - tx_idx (dch m) <= 0 ->
  dch (isac_fill_fifo m) = dch m /\ trace (isac_fill_fifo m) = trace m.
Proof.
  intros Hr. unfold isac_fill_fifo. mred.
  destruct (tx_len (dch m) - tx_idx (dch m) <=? 0) eqn:E; b2p; [|lia].
  mred. split; reflexivity.
Qed.

Lemma isac_fill_fifo_dch m :
  0 < tx_len (dch m) - tx_idx (dch m) ->
  dch (isac_fill_fifo m) =
  set_expires (ulong (jiffies m + Z.quot (DBUSY_TIMER_VALUE * HZ) 1000))
    (set_DFlags (set_bit FLG_DBUSY_TIMER (DFlags (dch m)))
       (set_tx_idx (tx_idx (dch m) + Z.min (tx_len (dch m) - tx_idx (dch m)) 32)
          (dch m))).
Proof.
  intros Hr. unfold isac_fill_fifo.
  repeat (mred; case_if); mred; b2p; try lia.
  all: try (rewrite Z.min_r by lia; reflexivity).
  all: try (rewrite Z.min_l by lia; reflexivity).
Qed.

Lemma isac_fill_fifo_log m :
  0 < tx_len (dch m) - tx_idx (dch m) ->
  test_flag FLG_DBUSY_TIMER m = true ->
  In ("isac_fill_fifo dbusytimer running", []) (klog (isac_fill_fifo m)).
Proof.
  intros Hr Ha. unfold isac_fill_fifo, test_flag in *.
  repeat (mred; case_if); mred; b2p; try lia; try congruence.
  all: repeat (apply in_or_app; first [ right; left; reflexivity | left ]).
Qed.

(** C2: every call of isac_fill_fifo is a no-op when no bytes remain in the
    transmit buffer (tx_idx >= tx_len); otherwise it hands min(remaining, 32)
    bytes, never more than 32, to the transmit FIFO, advances tx_idx by
    exactly that amount, writes 0x8 to CMDR when bytes remain afterwards and
    0xa when none remain, and arms the busy timer: the flag is set, a timer
    already armed is first deleted and the fact logged, and the timer is
    added with expiry jiffies + 80*HZ/1000. *)
Theorem isac_fill_fifo_chunk m :
  let rem := tx_len (dch m) - tx_idx (dch m) in
  let m' := isac_fill_fifo m in
  (rem <= 0 -> dch m' = dch m /\ trace m' = trace m)
  /\
  (0 < rem ->
   let n := Z.min rem 32 in
   let data := firstn (Z.to_nat n)
                 (skipn (Z.to_nat (tx_idx (dch m))) (tx_buf (dch m))) in
   let expires := ulong (jiffies m + Z.quot (DBUSY_TIMER_VALUE * HZ) 1000) in
   n <= 32
   /\ tx_idx (dch m') = tx_idx (dch m) + n
   /\ tx_len (dch m') = tx_len (dch m)
   /\ tx_buf (dch m') = tx_buf (dch m)
   /\ (0 <= tx_idx (dch m) ->
       tx_len (dch m) <= Z.of_nat (List.length (tx_buf (dch m))) ->
       Z.of_nat (List.length data) = n)
   /\ trace m' =
        trace m
        ++ [EvWriteFifo data;
            EvWriteReg ISAC_CMDR (if n <? rem then 0x8 else 0xa)]
        ++ (if test_flag FLG_DBUSY_TIMER m then [EvDelTimer] else [])
        ++ [EvInitTimer; EvAddTimer expires]
   /\ test_flag FLG_DBUSY_TIMER m' = true
   /\ dbusytimer_expires (dch m') = expires
   /\ (test_flag FLG_DBUSY_TIMER m = true ->
       In ("isac_fill_fifo dbusytimer running", []) (klog m'))).
Proof.
  intros rem m'. split.
  - intros Hr. now apply isac_fill_fifo_idle.
  - intros Hr n data expires. subst m'.
    rewrite isac_fill_fifo_trace. unfold test_flag.
    rewrite (isac_fill_fifo_dch m Hr). mred.
    repeat split.
    + subst n. lia.
    + intros Hi Hl. subst data.
      rewrite length_firstn, length_skipn. subst n rem. lia.
    + unfold fill_fifo_effects. fold rem.
      destruct (rem <=? 0) eqn:E; b2p; [lia|].
      subst data n.
      replace (Z.min rem 32 <? rem) with (32 <? rem); [reflexivity|].
      destruct (32 <? rem) eqn:E1; symmetry; b2p.
      * apply Z.ltb_lt. lia.
      * apply Z.ltb_ge. lia.
    + bits Hwf. reflexivity.
    + intros Ha. now apply isac_fill_fifo_log.
Qed.

Lemma stop_dbusy_trace m :
  trace (stop_dbusy m) =
  trace m ++ (if test_flag FLG_DBUSY_TIMER m then [EvDelTimer] else []).
Proof.
  unfold stop_dbusy, test_flag. mred.
  destruct (test_bit FLG_DBUSY_TIMER (DFlags (dch m))); mred;
    case_if; mred; rewrite ?app_nil_r; reflexivity.
Qed.

Lemma stop_dbusy_dch m :
  dch (stop_dbusy m) =
  set_event (if test_flag FLG_L1_DBUSY m
             then set_bit D_CLEARBUSY (event (dch m)) else event (dch m))
    (set_DFlags
       (clear_bit FLG_L1_DBUSY (clear_bit FLG_DBUSY_TIMER (DFlags (dch m))))
       (dch m)).
Proof.
  unfold stop_dbusy, test_flag. mred.
  destruct (test_bit FLG_DBUSY_TIMER (DFlags (dch m))); mred; bits Hwf;
    destruct (test_bit FLG_L1_DBUSY (DFlags (dch m))); mred;
    destruct (dch m); reflexivity.
Qed.

Lemma stop_dbusy_env m :
  jiffies (stop_dbusy m) = jiffies m
  /\ up_ret (stop_dbusy m) = up_ret m
  /\ rfifo_pos (stop_dbusy m) = rfifo_pos m
  /\ alloc_pos (stop_dbusy m) = alloc_pos m
  /\ klog (stop_dbusy m) = klog m.
Proof.
  unfold stop_dbusy. mred.
  destruct (test_bit FLG_DBUSY_TIMER (DFlags (dch m))); mred;
    case_if; mred; repeat split; reflexivity.
Qed.

Lemma set_rx_skb_same d : set_rx_skb (rx_skb d) d = d.
Proof. destruct d; reflexivity. Qed.

Lemma isac_empty_fifo_dch count m :
  dch (isac_empty_fifo count m) = set_rx_skb (drain_result count m) (dch m).
Proof.
  unfold isac_empty_fifo, drain_result, rx_buffer_for_drain, fifo_next. mred.
  destruct (rx_skb (dch m)) eqn:Es; mred.
  - case_if; mred; [rewrite <- Es; symmetry; apply set_rx_skb_same | reflexivity].
  - destruct (alloc_ok m (alloc_pos m)); mred; [|reflexivity].
    case_if; mred; reflexivity.
Qed.

Lemma isac_empty_fifo_trace count m :
  trace (isac_empty_fifo count m) = trace m ++ drain_effects count m.
Proof.
  unfold isac_empty_fifo, drain_effects, rx_buffer_for_drain. mred.
  destruct (rx_skb (dch m)) eqn:Es; mred.
  - case_if; mred; tr_norm; rewrite u8_small by lia; reflexivity.
  - destruct (alloc_ok m (alloc_pos m)); mred;
      [case_if|]; mred; tr_norm; rewrite u8_small by lia; reflexivity.
Qed.

Lemma isac_empty_fifo_pos count m :
  rfifo_pos (isac_empty_fifo count m) =
  match drain_effects count m with
  | [_] => rfifo_pos m
  | _ => (rfifo_pos m + Z.to_nat count)%nat
  end.
Proof.
  unfold isac_empty_fifo, drain_effects, rx_buffer_for_drain. mred.
  destruct (rx_skb (dch m)) eqn:Es; mred.
  - case_if; mred; reflexivity.
  - destruct (alloc_ok m (alloc_pos m)); mred;
      [case_if|]; mred; reflexivity.
Qed.

(** C4: isac_empty_fifo rejects a count that would bring the receive buffer
    to or over MAX_DFRAME_LEN_L1: it writes 0x80 to CMDR, reads nothing from
    the FIFO and leaves the buffer's length and content as they were; when
    no buffer is present and allocation fails it likewise only writes 0x80
    and the slot stays empty; otherwise it appends exactly [count] bytes
    from the FIFO at the end of the buffer and then writes 0x80.  This is
    stated for a count that is not negative, as the callers pass it, and a
    sum of length and count below 2^32.  The test itself is the code's, on
    that sum as an unsigned int, and the outcome is also given by that
    test for every count and length: the rejection whenever the unsigned
    sum reaches the limit, which includes every negative count larger in
    absolute value than the buffer's length (the sum wraps to 2^32 less
    the difference) when MAX_DFRAME_LEN_L1 is at most 2^31. *)
Theorem isac_empty_fifo_outcomes count m :
  let m' := isac_empty_fifo count m in
  (rx_buffer_for_drain m = None ->
     trace m' = trace m ++ [EvWriteReg ISAC_CMDR 0x80]
     /\ rx_skb (dch m') = None
     /\ rqueue (dch m') = rqueue (dch m)
     /\ rfifo_pos m' = rfifo_pos m)
  /\
  (forall s, rx_buffer_for_drain m = Some s ->
     0 <= count -> skb_len s + count < 2 ^ 32 ->
     MAX_DFRAME_LEN_L1 <= skb_len s + count ->
     trace m' = trace m ++ [EvWriteReg ISAC_CMDR 0x80]
     /\ rx_skb (dch m') = Some s
     /\ rqueue (dch m') = rqueue (dch m)
     /\ rfifo_pos m' = rfifo_pos m)
  /\
  (forall s, rx_buffer_for_drain m = Some s ->
     0 <= count ->
     skb_len s + count < MAX_DFRAME_LEN_L1 ->
     trace m' = trace m ++ [EvReadFifo count; EvWriteReg ISAC_CMDR 0x80]
     /\ rx_skb (dch m') = Some (skb_put s (fifo_next count m))
     /\ rqueue (dch m') = rqueue (dch m)
     /\ rfifo_pos m' = (rfifo_pos m + Z.to_nat count)%nat
     /\ Z.of_nat (List.length (fifo_next count m)) = count
     /\ skb_len (skb_put s (fifo_next count m)) = skb_len s + count)
  /\
  (forall s, rx_buffer_for_drain m = Some s ->
     MAX_DFRAME_LEN_L1 <= uint (skb_len s + count) ->
     trace m' = trace m ++ [EvWriteReg ISAC_CMDR 0x80]
     /\ rx_skb (dch m') = Some s
     /\ rqueue (dch m') = rqueue (dch m)
     /\ rfifo_pos m' = rfifo_pos m)
  /\
  (forall s, rx_buffer_for_drain m = Some s ->
     0 <= count ->
     uint (skb_len s + count) < MAX_DFRAME_LEN_L1 ->
     trace m' = trace m ++ [EvReadFifo count; EvWriteReg ISAC_CMDR 0x80]
     /\ rx_skb (dch m') = Some (skb_put s (fifo_next count m))
     /\ rqueue (dch m') = rqueue (dch m)
     /\ rfifo_pos m' = (rfifo_pos m + Z.to_nat count)%nat
     /\ Z.of_nat (List.length (fifo_next count m)) = count
     /\ skb_len (skb_put s (fifo_next count m)) = skb_len s + count)
  /\
  (forall s, rx_buffer_for_drain m = Some s ->
     - 2 ^ 31 <= count -> skb_len s + count < 0 ->
     MAX_DFRAME_LEN_L1 <= 2 ^ 31 ->
     uint (skb_len s + count) = skb_len s + count + 2 ^ 32
     /\ trace m' = trace m ++ [EvWriteReg ISAC_CMDR 0x80]
     /\ rx_skb (dch m') = Some s
     /\ rfifo_pos m' = rfifo_pos m).
Proof.
  intros m'.
  assert (Hlen : forall s, 0 <= skb_len s) by (intros s; unfold skb_len; lia).
  assert (Hneg : forall s, - 2 ^ 31 <= count -> skb_len s + count < 0 ->
            uint (skb_len s + count) = skb_len s + count + 2 ^ 32).
  { intros s Hc Hs. unfold uint. pose proof (Hlen s).
    symmetry. apply (Z.mod_unique _ _ (-1)); lia. }
  assert (Hle : forall s, 0 <= count ->
            uint (skb_len s + count) <= skb_len s + count).
  { intros s Hc. unfold uint. pose proof (Hlen s). apply Z.mod_le; lia. }
  assert (Heq : forall s, 0 <= count -> skb_len s + count < 2 ^ 32 ->
            uint (skb_len s + count) = skb_len s + count).
  { intros s Hc Hs. unfold uint. pose proof (Hlen s). apply Z.mod_small; lia. }
  assert (Hrej : forall s, rx_buffer_for_drain m = Some s ->
            MAX_DFRAME_LEN_L1 <= uint (skb_len s + count) ->
            trace m' = trace m ++ [EvWriteReg ISAC_CMDR 0x80]
            /\ rx_skb (dch m') = Some s
            /\ rqueue (dch m') = rqueue (dch m)
            /\ rfifo_pos m' = rfifo_pos m).
  { intros s Hb Hs. subst m'.
    rewrite isac_empty_fifo_dch, isac_empty_fifo_trace, isac_empty_fifo_pos.
    unfold drain_result, drain_effects. rewrite Hb.
    destruct (uint (skb_len s + count) >=? MAX_DFRAME_LEN_L1) eqn:E; b2p;
      [|lia].
    repeat split; reflexivity. }
  assert (Hacc : forall s, rx_buffer_for_drain m = Some s ->
            0 <= count ->
            uint (skb_len s + count) < MAX_DFRAME_LEN_L1 ->
            trace m' = trace m ++ [EvReadFifo count; EvWriteReg ISAC_CMDR 0x80]
            /\ rx_skb (dch m') = Some (skb_put s (fifo_next count m))
            /\ rqueue (dch m') = rqueue (dch m)
            /\ rfifo_pos m' = (rfifo_pos m + Z.to_nat count)%nat
            /\ Z.of_nat (List.length (fifo_next count m)) = count
            /\ skb_len (skb_put s (fifo_next count m)) = skb_len s + count).
  { intros s Hb Hc Hs. subst m'.
    rewrite isac_empty_fifo_dch, isac_empty_fifo_trace, isac_empty_fifo_pos.
    unfold drain_result, drain_effects. rewrite Hb.
    destruct (uint (skb_len s + count) >=? MAX_DFRAME_LEN_L1) eqn:E; b2p;
      [lia|].
    repeat split; try reflexivity.
    - apply fifo_next_length; assumption.
    - unfold skb_len, skb_put. cbn [skb_data].
      rewrite length_app. pose proof (fifo_next_length count m). lia. }
  split; [|split; [|split; [|split; [|split]]]].
  - intros Hb. subst m'.
    rewrite isac_empty_fifo_dch, isac_empty_fifo_trace, isac_empty_fifo_pos.
    unfold drain_result, drain_effects. rewrite Hb.
    repeat split; reflexivity.
  - intros s Hb Hc Hs Hm. apply Hrej; [exact Hb|].
    rewrite (Heq s Hc Hs). exact Hm.
  - intros s Hb Hc Hs. apply Hacc; [exact Hb | exact Hc |].
    pose proof (Hle s Hc). lia.
  - exact Hrej.
  - exact Hacc.
  - intros s Hb Hc Hs Hmax. pose proof (Hneg s Hc Hs) as Hu.
    pose proof (Hlen s).
    destruct (Hrej s Hb) as (Ht & Hr & _ & Hp); [lia|].
    repeat split; assumption.
Qed.

End FrameTransfer.

(** The chunk theorem on a channel with 40 bytes to send (the first call
    hands over 32 bytes with the continue strobe) and on one with nothing
    to send. *)
Lemma isac_fill_fifo_chunk_witness :
  header_wf (h := sample_h) = true
  /\ 0 < tx_len (dch (on_dch (set_tx_len 40) machine0))
         - tx_idx (dch (on_dch (set_tx_len 40) machine0))
  /\ tx_idx (dch (isac_fill_fifo (on_dch (set_tx_len 40) machine0))) = 32
  /\ trace (isac_fill_fifo (on_dch (set_tx_len 40) machine0)) =
       [EvWriteFifo (repeat 0 32); EvWriteReg ISAC_CMDR 0x8;
        EvInitTimer; EvAddTimer 1008]
  /\ trace (isac_fill_fifo (h := sample_h) machine0) = [].
Proof.
  split; [reflexivity|]. split; [vm_compute; reflexivity|].
  destruct (isac_fill_fifo_chunk (h := sample_h) eq_refl
              (on_dch (set_tx_len 40) machine0)) as [_ H].
  destruct (H eq_refl) as (_ & Hidx & _ & _ & _ & Htr & _).
  split; [exact Hidx|]. split; [exact Htr|].
  destruct (isac_fill_fifo_chunk (h := sample_h) eq_refl machine0) as [H0 _].
  refine (proj2 (H0 _)). zcomp.
Defined.

(** The drain theorem on concrete machines: a 299-byte buffer refuses one
    more byte; an empty slot with a failing allocator drops the bytes; an
    empty slot with a working allocator takes 3 bytes; a count of -1 on an
    empty buffer wraps to 2^32 - 1 and is refused. *)
Lemma isac_empty_fifo_outcomes_witness :
  (let m := on_dch (set_rx_skb (Some {| hh_prim := 0; hh_dinfo := 0;
                                        skb_data := repeat 7 299 |})) machine0 in
   trace (isac_empty_fifo 1 m) = [EvWriteReg ISAC_CMDR 0x80]
   /\ rx_skb (dch (isac_empty_fifo 1 m)) = rx_skb (dch m))
  /\
  (let m := {| dch := dch0; trace := []; klog := []; rfifo := fun n => Z.of_nat n;
               rfifo_pos := 0; alloc_ok := fun _ => false; alloc_pos := 0;
               jiffies := 0; up_ret := 0 |} in
   trace (isac_empty_fifo 3 m) = [EvWriteReg ISAC_CMDR 0x80]
   /\ rx_skb (dch (isac_empty_fifo 3 m)) = None)
  /\
  (trace (isac_empty_fifo 3 machine0) = [EvReadFifo 3; EvWriteReg ISAC_CMDR 0x80]
   /\ rx_skb (dch (isac_empty_fifo 3 machine0)) =
        Some {| hh_prim := 0; hh_dinfo := 0; skb_data := [0; 1; 2] |})
  /\
  (uint (0 + -1) = 2 ^ 32 - 1
   /\ trace (isac_empty_fifo (-1) machine0) = [EvWriteReg ISAC_CMDR 0x80]
   /\ rx_skb (dch (isac_empty_fifo (-1) machine0)) =
        Some {| hh_prim := 0; hh_dinfo := 0; skb_data := [] |}).
Proof.
  split; [|split; [|split]].
  - intros m.
    destruct (isac_empty_fifo_outcomes (h := sample_h) 1 m) as (_ & H & _).
    destruct (H _ eq_refl) as (Ht & Hs & _);
      [vm_compute; discriminate | vm_compute; reflexivity
      | vm_compute; discriminate |].
    split; [exact Ht | exact Hs].
  - intros m.
    destruct (isac_empty_fifo_outcomes (h := sample_h) 3 m) as (H & _ & _).
    destruct (H eq_refl) as (Ht & Hs & _).
    split; [exact Ht | exact Hs].
  - destruct (isac_empty_fifo_outcomes (h := sample_h) 3 machine0) as (_ & _ & H & _).
    destruct (H _ eq_refl) as (Ht & Hs & _);
      [vm_compute; discriminate | vm_compute; reflexivity|].
    split; [exact Ht | exact Hs].
  - destruct (isac_empty_fifo_outcomes (h := sample_h) (-1) machine0)
      as (_ & _ & _ & _ & _ & H).
    destruct (H _ eq_refl) as (Hu & Ht & Hs & _);
      [vm_compute; discriminate | vm_compute; reflexivity
      | vm_compute; discriminate |].
    split; [exact Hu|]. split; [exact Ht | exact Hs].
Defined.

(** ** The upstream command handler: send-frame *)

Section SendFrame.
Context {h : isac_h}.
Hypothesis Hwf : header_wf = true.

Lemma isac_fill_fifo_env m :
  up_ret (isac_fill_fifo m) = up_ret m
  /\ jiffies (isac_fill_fifo m) = jiffies m
  /\ rfifo_pos (isac_fill_fifo m) = rfifo_pos m
  /\ alloc_pos (isac_fill_fifo m) = alloc_pos m.
Proof.
  unfold isac_fill_fifo.
  repeat (mred; case_if); mred; repeat split; reflexivity.
Qed.

Lemma firstn_memcpy n dst src :
  (n <= List.length src)%nat -> firstn n (memcpy dst src) = firstn n src.
Proof.
  intros Hn. unfold memcpy. rewrite firstn_app.
  replace (n - List.length src)%nat with 0%nat by lia.
  cbn [firstn]. apply app_nil_r.
Qed.

Lemma memcpy_prefix dst src :
  firstn (List.length src) (memcpy dst src) = src.
Proof.
  rewrite firstn_memcpy by lia. apply firstn_all.
Qed.

(** The accepted, not-busy path of a data request. *)
Lemma ISAC_l1hw_start (hif : hisaxif_t) skb m :
  hh_prim skb = PH_DATA_REQ ->
  next_skb (dch m) = None -> test_flag FLG_TX_BUSY m = false ->
  let r := fst (ISAC_l1hw (Some hif) (Some skb) m) in
  let m' := snd (ISAC_l1hw (Some hif) (Some skb) m) in
  let L := skb_len skb in
  tx_len (dch m') = L
  /\ tx_buf (dch m') = memcpy (tx_buf (dch m)) (skb_data skb)
  /\ firstn (List.length (skb_data skb)) (tx_buf (dch m')) = skb_data skb
  /\ tx_idx (dch m') = Z.min L 32
  /\ test_flag FLG_TX_BUSY m' = true
  /\ next_skb (dch m') = None
  /\ trace m' =
       trace m ++ [EvLock]
       ++ (if L <=? 0 then [] else
           [EvWriteFifo (firstn (Z.to_nat (Z.min L 32)) (skb_data skb));
            EvWriteReg ISAC_CMDR (if 32 <? L then 0x8 else 0xa)]
           ++ (if test_flag FLG_DBUSY_TIMER m then [EvDelTimer] else [])
           ++ [EvInitTimer;
               EvAddTimer (ulong (jiffies m
                                  + Z.quot (DBUSY_TIMER_VALUE * HZ) 1000))])
       ++ [EvUnlock; EvIfNewhead PH_DATA_CNF DINFO_SKB skb]
  /\ r = up_ret m.
Proof.
  intros Hp Hn Hb r m' L. subst r m'.
  unfold ISAC_l1hw, test_flag in *. rewrite Hp, Z.eqb_refl.
  rewrite Hn. mred. rewrite Hb.
  set (m1 := load_tx_buf skb _).
  assert (Hrem : tx_len (dch m1) - tx_idx (dch m1) = L)
    by (subst m1; mred; lia).
  assert (HL : 0 <= L) by (subst L; unfold skb_len; lia).
  destruct (isac_fill_fifo_env m1) as (Hu & _).
  mred. rewrite isac_fill_fifo_trace, Hu.
  unfold fill_fifo_effects, test_flag. rewrite Hrem.
  destruct (L <=? 0) eqn:E; b2p.
  - destruct (isac_fill_fifo_idle m1) as [Hd _]; [lia|].
    rewrite Hd. subst m1. mred. bits Hwf. tr_norm.
    rewrite memcpy_prefix.
    repeat split; try reflexivity; try assumption. lia.
  - rewrite (isac_fill_fifo_dch m1) by lia. rewrite Hrem.
    subst m1. mred. bits Hwf. tr_norm.
    rewrite memcpy_prefix. cbn [skipn Z.to_nat].
    rewrite firstn_memcpy
      by (subst L; unfold skb_len in *; lia).
    repeat split; try reflexivity; try assumption.
Qed.

(** C1: a PH_DATA_REQ handed to ISAC_l1hw.  With next_skb occupied the call
    returns -EBUSY, the channel context and the trace are untouched (no
    register write, the buffer neither stored, freed nor passed on).  With
    next_skb empty and FLG_TX_BUSY clear the payload is copied to the start
    of tx_buf, isac_fill_fifo runs between lock and unlock, and the buffer
    goes upstream with PH_DATA_CNF.  With next_skb empty and FLG_TX_BUSY set
    the buffer becomes next_skb, FLG_TX_NEXT is set, and the call returns 0
    having done nothing but lock and unlock. *)
Theorem ISAC_l1hw_data_req (hif : hisaxif_t) skb m :
  hh_prim skb = PH_DATA_REQ ->
  let r := fst (ISAC_l1hw (Some hif) (Some skb) m) in
  let m' := snd (ISAC_l1hw (Some hif) (Some skb) m) in
  let L := skb_len skb in
  (next_skb (dch m) <> None ->
     r = - EBUSY /\ dch m' = dch m /\ trace m' = trace m)
  /\
  (next_skb (dch m) = None -> test_flag FLG_TX_BUSY m = false ->
     tx_len (dch m') = L
     /\ tx_buf (dch m') = memcpy (tx_buf (dch m)) (skb_data skb)
     /\ firstn (List.length (skb_data skb)) (tx_buf (dch m')) = skb_data skb
     /\ tx_idx (dch m') = Z.min L 32
     /\ test_flag FLG_TX_BUSY m' = true
     /\ next_skb (dch m') = None
     /\ trace m' =
          trace m ++ [EvLock]
          ++ (if L <=? 0 then [] else
              [EvWriteFifo (firstn (Z.to_nat (Z.min L 32)) (skb_data skb));
               EvWriteReg ISAC_CMDR (if 32 <? L then 0x8 else 0xa)]
              ++ (if test_flag FLG_DBUSY_TIMER m then [EvDelTimer] else [])
              ++ [EvInitTimer;
                  EvAddTimer (ulong (jiffies m
                                     + Z.quot (DBUSY_TIMER_VALUE * HZ) 1000))])
          ++ [EvUnlock; EvIfNewhead PH_DATA_CNF DINFO_SKB skb]
     /\ r = up_ret m)
  /\
  (next_skb (dch m) = None -> test_flag FLG_TX_BUSY m = true ->
     r = 0
     /\ next_skb (dch m') = Some skb
     /\ test_flag FLG_TX_NEXT m' = true
     /\ test_flag FLG_TX_BUSY m' = true
     /\ trace m' = trace m ++ [EvLock; EvUnlock]
     /\ tx_buf (dch m') = tx_buf (dch m)
     /\ tx_idx (dch m') = tx_idx (dch m)
     /\ tx_len (dch m') = tx_len (dch m)).
Proof.
  intros Hp r m' L. subst r m'.
  split; [|split].
  - unfold ISAC_l1hw. rewrite Hp, Z.eqb_refl.
    intros Hn. destruct (next_skb (dch m)); [|congruence].
    mred. repeat split; reflexivity.
  - intros Hn Hb. exact (ISAC_l1hw_start hif skb m Hp Hn Hb).
  - unfold ISAC_l1hw, test_flag. rewrite Hp, Z.eqb_refl.
    intros Hn Hb. rewrite Hn. mred. rewrite Hb. mred. bits Hwf. tr_norm.
    repeat split; reflexivity.
Qed.

End SendFrame.

(** The send-frame theorem on concrete requests: a second frame while one
    is queued, a 3-byte frame on an idle channel, and a frame while the
    transmitter is busy. *)
Lemma ISAC_l1hw_data_req_witness :
  header_wf (h := sample_h) = true
  /\ fst (ISAC_l1hw (Some tt) (Some (data_req (h := sample_h) [1; 2; 3]))
            (on_dch (set_next_skb (Some (data_req (h := sample_h) [9]))) machine0)) = -16
  /\ trace (snd (ISAC_l1hw (Some tt) (Some (data_req (h := sample_h) [1; 2; 3])) machine0)) =
       [EvLock; EvWriteFifo [1; 2; 3]; EvWriteReg ISAC_CMDR 0xa;
        EvInitTimer; EvAddTimer 1008; EvUnlock;
        EvIfNewhead 0x121 (-1) (data_req (h := sample_h) [1; 2; 3])]
  /\ next_skb (dch (snd (ISAC_l1hw (Some tt) (Some (data_req (h := sample_h) [1; 2; 3]))
                           (on_dch (set_DFlags 8) machine0)))) =
       Some (data_req (h := sample_h) [1; 2; 3]).
Proof.
  split; [reflexivity|]. split; [|split].
  - destruct (ISAC_l1hw_data_req (h := sample_h) eq_refl tt (data_req (h := sample_h) [1; 2; 3])
                (on_dch (set_next_skb (Some (data_req (h := sample_h) [9]))) machine0) eq_refl)
      as (H & _ & _).
    destruct H as (Hr & _); [discriminate|]. exact Hr.
  - destruct (ISAC_l1hw_data_req (h := sample_h) eq_refl tt (data_req (h := sample_h) [1; 2; 3])
                machine0 eq_refl) as (_ & H & _).
    destruct (H eq_refl eq_refl) as (_ & _ & _ & _ & _ & _ & Ht & _).
    exact Ht.
  - destruct (ISAC_l1hw_data_req (h := sample_h) eq_refl tt (data_req (h := sample_h) [1; 2; 3])
                (on_dch (set_DFlags 8) machine0) eq_refl) as (_ & _ & H).
    destruct (H eq_refl eq_refl) as (_ & Hn & _).
    exact Hn.
Defined.

(** ** The upstream command handler: deactivation *)

Section Deactivate.
Context {h : isac_h}.
Hypothesis Hwf : header_wf = true.

Lemma fold_kfree_trace l m :
  trace (fold_left (fun m s => dev_kfree_skb s m) l m) =
  trace m ++ map EvKfreeSkb l.
Proof.
  revert m. induction l as [|s l IH]; intros m; cbn [fold_left map].
  - now rewrite app_nil_r.
  - rewrite IH. mred. now tr_norm.
Qed.

Lemma fold_kfree_dch l m :
  dch (fold_left (fun m s => dev_kfree_skb s m) l m) = dch m.
Proof.
  revert m. induction l as [|s l IH]; intros m; cbn [fold_left]; [reflexivity|].
  now rewrite IH.
Qed.

Lemma discard_queue_dch m :
  dch (discard_queue m) = set_rqueue [] (dch m).
Proof. unfold discard_queue. mred. now rewrite fold_kfree_dch. Qed.

Lemma discard_queue_trace m :
  trace (discard_queue m) = trace m ++ map EvKfreeSkb (rqueue (dch m)).
Proof. unfold discard_queue. mred. apply fold_kfree_trace. Qed.

Lemma hw_deactivate_trace m :
  trace (hw_deactivate m) =
  trace m ++ map EvKfreeSkb (rqueue (dch m))
  ++ match next_skb (dch m) with
     | Some s => [EvKfreeSkb s]
     | None => []
     end
  ++ (if test_flag FLG_DBUSY_TIMER m then [EvDelTimer] else []).
Proof.
  unfold hw_deactivate.
  rewrite stop_dbusy_trace. unfold test_flag. mred.
  rewrite discard_queue_dch. mred.
  destruct (next_skb (dch m)) eqn:En; mred; rewrite ?discard_queue_dch;
    mred; bits Hwf; rewrite discard_queue_trace; tr_norm; reflexivity.
Qed.

Lemma hw_deactivate_state m :
  DFlags (dch (hw_deactivate m)) =
    clear_bit FLG_L1_DBUSY
      (clear_bit FLG_DBUSY_TIMER
         (clear_bit FLG_TX_BUSY (clear_bit FLG_TX_NEXT (DFlags (dch m)))))
  /\ next_skb (dch (hw_deactivate m)) = None
  /\ rqueue (dch (hw_deactivate m)) = [].
Proof.
  unfold hw_deactivate.
  rewrite (stop_dbusy_dch Hwf). mred.
  rewrite discard_queue_dch. mred.
  destruct (next_skb (dch m)) eqn:En; mred; rewrite ?discard_queue_dch;
    mred; repeat split; try reflexivity; assumption.
Qed.

(** C8: after a PH_CONTROL request with parameter HW_DEACTIVATE the busy
    timer is disarmed (FLG_DBUSY_TIMER clear, the timer deleted if it was
    armed), the queued next frame is released and next_skb is empty,
    FLG_TX_NEXT and FLG_TX_BUSY are clear, and the receive completion queue
    is empty; the call returns 0. *)
Theorem ISAC_l1hw_deactivate (hif : hisaxif_t) skb m :
  hh_prim skb = Z.lor PH_CONTROL REQUEST ->
  hh_dinfo skb = HW_DEACTIVATE ->
  let r := fst (ISAC_l1hw (Some hif) (Some skb) m) in
  let m' := snd (ISAC_l1hw (Some hif) (Some skb) m) in
  r = 0
  /\ test_flag FLG_DBUSY_TIMER m' = false
  /\ next_skb (dch m') = None
  /\ test_flag FLG_TX_NEXT m' = false
  /\ test_flag FLG_TX_BUSY m' = false
  /\ rqueue (dch m') = []
  /\ trace m' =
       trace m ++ [EvLock]
       ++ map EvKfreeSkb (rqueue (dch m))
       ++ match next_skb (dch m) with
          | Some s => [EvKfreeSkb s]
          | None => []
          end
       ++ (if test_flag FLG_DBUSY_TIMER m then [EvDelTimer] else [])
       ++ [EvUnlock; EvKfreeSkb skb].
Proof.
  intros Hp Hd r m'. subst r m'.
  assert (Heq : ISAC_l1hw (Some hif) (Some skb) m =
                (0, dev_kfree_skb skb (unlock (hw_deactivate (lock m))))).
  { unfold ISAC_l1hw. rewrite Hp, Hd.
    rewrite (proj2 (Z.eqb_neq (Z.lor PH_CONTROL REQUEST) PH_DATA_REQ))
      by wf_solve Hwf.
    rewrite (proj2 (Z.eqb_neq (Z.lor PH_CONTROL REQUEST)
                      (Z.lor PH_SIGNAL REQUEST))) by wf_solve Hwf.
    rewrite (proj2 (Z.eqb_neq HW_DEACTIVATE HW_RESET)) by wf_solve Hwf.
    rewrite (proj2 (Z.eqb_neq HW_DEACTIVATE HW_POWERUP)) by wf_solve Hwf.
    rewrite !Z.eqb_refl. reflexivity. }
  rewrite Heq. unfold test_flag. mred.
  destruct (hw_deactivate_state (lock m)) as (Hf & Hn & Hq).
  rewrite hw_deactivate_trace, Hf, Hn, Hq. unfold test_flag. mred.
  bits Hwf. tr_norm. repeat split; reflexivity.
Qed.

End Deactivate.

(** Deactivation of a busy channel with a queued frame, an armed timer
    and one received frame waiting. *)
Lemma ISAC_l1hw_deactivate_witness :
  header_wf (h := sample_h) = true
  /\ (let m := on_dch (fun d => set_rqueue [data_req (h := sample_h) [5]]
                                  (set_next_skb (Some (data_req (h := sample_h) [9]))
                                     (set_DFlags 56 d))) machine0 in
      let m' := snd (ISAC_l1hw (Some tt) (Some (control_req (h := sample_h) (@HW_DEACTIVATE sample_h))) m) in
      DFlags (dch m') = 0
      /\ next_skb (dch m') = None
      /\ rqueue (dch m') = []
      /\ trace m' = [EvLock; EvKfreeSkb (data_req (h := sample_h) [5]); EvKfreeSkb (data_req (h := sample_h) [9]);
                     EvDelTimer; EvUnlock; EvKfreeSkb (control_req (h := sample_h) (@HW_DEACTIVATE sample_h))]).
Proof.
  split; [reflexivity|]. intros m m'.
  destruct (ISAC_l1hw_deactivate (h := sample_h) eq_refl tt
              (control_req (h := sample_h) (@HW_DEACTIVATE sample_h)) m eq_refl eq_refl)
    as (_ & _ & Hn & _ & _ & Hq & Ht).
  split; [vm_compute; reflexivity|].
  split; [exact Hn|]. split; [exact Hq | exact Ht].
Defined.

(** ** The busy-recovery timer *)

Section BusyTimer.
Context {h : isac_h}.
Hypothesis Hwf : header_wf = true.

(** C7: an expiry of the busy timer.  With FLG_DBUSY_TIMER clear the
    handler does nothing at all.  With the flag set and the lock taken
    elsewhere it only re-adds the timer for jiffies + 1.  With the lock
    free it takes the lock, reads RBCH and STAR, and then either (RBCH has
    XAC set) sets FLG_L1_DBUSY and adds no timer, or clears
    FLG_DBUSY_TIMER, leaves tx_idx at zero and writes 0x01 to CMDR; in
    both cases it releases the lock. *)
Theorem dbusy_timer_handler_expiry lock_busy rd m :
  let m' := dbusy_timer_handler lock_busy rd m in
  (test_flag FLG_DBUSY_TIMER m = false -> m' = m)
  /\
  (test_flag FLG_DBUSY_TIMER m = true -> lock_busy = true ->
     trace m' = trace m ++ [EvAddTimer (ulong (jiffies m + 1))]
     /\ dch m' = set_expires (ulong (jiffies m + 1)) (dch m))
  /\
  (test_flag FLG_DBUSY_TIMER m = true -> lock_busy = false ->
   tst (u8 (rd ISAC_RBCH)) ISAC_RBCH_XAC = true ->
     trace m' = trace m ++ [EvLock; EvReadReg ISAC_RBCH; EvReadReg ISAC_STAR;
                            EvUnlock]
     /\ dch m' = set_DFlags (set_bit FLG_L1_DBUSY (DFlags (dch m))) (dch m)
     /\ test_flag FLG_L1_DBUSY m' = true
     /\ test_flag FLG_DBUSY_TIMER m' = true)
  /\
  (test_flag FLG_DBUSY_TIMER m = true -> lock_busy = false ->
   tst (u8 (rd ISAC_RBCH)) ISAC_RBCH_XAC = false ->
     trace m' = trace m ++ [EvLock; EvReadReg ISAC_RBCH; EvReadReg ISAC_STAR;
                            EvWriteReg ISAC_CMDR 0x01; EvUnlock]
     /\ test_flag FLG_DBUSY_TIMER m' = false
     /\ DFlags (dch m') = clear_bit FLG_DBUSY_TIMER (DFlags (dch m))
     /\ tx_idx (dch m') = 0
     /\ tx_len (dch m') = tx_len (dch m)
     /\ tx_buf (dch m') = tx_buf (dch m)
     /\ next_skb (dch m') = next_skb (dch m)
     /\ rqueue (dch m') = rqueue (dch m)
     /\ event (dch m') = event (dch m)).
Proof.
  intros m'. subst m'. unfold dbusy_timer_handler, test_flag.
  split; [|split; [|split]].
  - intros Ha. rewrite Ha. reflexivity.
  - intros Ha Hl. rewrite Ha, Hl. mred. split; reflexivity.
  - intros Ha Hl Hx. rewrite Ha, Hl. mred. rewrite Hx. mred. tr_norm.
    bits Hwf. repeat split; try reflexivity. exact Ha.
  - intros Ha Hl Hx. rewrite Ha, Hl. mred. rewrite Hx. mred.
    destruct (tx_idx (dch m) =? 0) eqn:E; b2p; mred; tr_norm;
      change (u8 1) with 1; bits Hwf;
      repeat split; try reflexivity; assumption.
Qed.

End BusyTimer.

(** Expiry on a channel with the timer armed and tx_idx at 17: lock held
    elsewhere, line still active (RBCH = 0x80), transmitter stalled. *)
Lemma dbusy_timer_handler_expiry_witness :
  header_wf (h := sample_h) = true
  /\ (let m := on_dch (fun d => set_tx_idx 17 (set_DFlags 32 d)) machine0 in
      dbusy_timer_handler true (reg_is ISAC_RBCH 0) machine0 = machine0
      /\ trace (dbusy_timer_handler true (reg_is ISAC_RBCH 0) m) =
           [EvAddTimer 1001]
      /\ trace (dbusy_timer_handler false (reg_is ISAC_RBCH 0x80) m) =
           [EvLock; EvReadReg ISAC_RBCH; EvReadReg ISAC_STAR; EvUnlock]
      /\ trace (dbusy_timer_handler false (reg_is ISAC_RBCH 0) m) =
           [EvLock; EvReadReg ISAC_RBCH; EvReadReg ISAC_STAR;
            EvWriteReg ISAC_CMDR 0x01; EvUnlock]
      /\ tx_idx (dch (dbusy_timer_handler false (reg_is ISAC_RBCH 0) m)) = 0).
Proof.
  split; [reflexivity|]. intros m.
  split; [|split; [|split; [|split]]].
  - destruct (dbusy_timer_handler_expiry (h := sample_h) eq_refl true
                (reg_is ISAC_RBCH 0) machine0) as (H & _).
    exact (H eq_refl).
  - destruct (dbusy_timer_handler_expiry (h := sample_h) eq_refl true
                (reg_is ISAC_RBCH 0) m) as (_ & H & _).
    exact (proj1 (H eq_refl eq_refl)).
  - destruct (dbusy_timer_handler_expiry (h := sample_h) eq_refl false
                (reg_is ISAC_RBCH 0x80) m) as (_ & _ & H & _).
    exact (proj1 (H eq_refl eq_refl eq_refl)).
  - destruct (dbusy_timer_handler_expiry (h := sample_h) eq_refl false
                (reg_is ISAC_RBCH 0) m) as (_ & _ & _ & H).
    exact (proj1 (H eq_refl eq_refl eq_refl)).
  - destruct (dbusy_timer_handler_expiry (h := sample_h) eq_refl false
                (reg_is ISAC_RBCH 0) m) as (_ & _ & _ & H).
    destruct (H eq_refl eq_refl eq_refl) as (_ & _ & _ & Hi & _).
    exact Hi.
Defined.

(** ** Receive message end *)

Section ReceiveFrame.
Context {h : isac_h}.
Hypothesis Hwf : header_wf = true.

Lemma land_1f_range x : 0 <= x -> 0 <= Z.land x 0x1f <= 31.
Proof.
  intros Hx. change 0x1f with (Z.ones 5).
  rewrite Z.land_ones by lia. change (2 ^ 5) with 32.
  change (Z.ones 5) with 31.
  pose proof (Z.mod_pos_bound x 32). lia.
Qed.

Lemma u8_nonneg x : 0 <= u8 x.
Proof. unfold u8. apply (proj2 (Z.land_nonneg x 255)). right. lia. Qed.

Lemma drain_result_emit count e1 e2 m :
  drain_result count (emit e1 (emit e2 m)) = drain_result count m.
Proof. reflexivity. Qed.

(** C3, as the code has it: on RME a frame whose RSTA is not clean
    ((RSTA & 0x70) != 0x20) is discarded without being queued: 0x80 is
    written to CMDR and a receive buffer in the slot is freed; where the
    error counters are compiled in, err_rx counts a frame with bit 0x40
    set and err_crc one with bit 0x20 clear, and no other case is counted.
    For a clean frame isac_empty_fifo runs with the count RBCL reports (0
    standing for 32) and the receive buffer it leaves in the slot is
    queued exactly once: extended by the new bytes when they fit, as it
    was when they do not (for a length whose sum with the count is below
    2^32; the test is isac_empty_fifo's, on that sum as an unsigned int,
    and the outcome is also given by that test for any length); when no
    buffer could be allocated nothing is queued.  Either way the slot
    ends empty and D_RCVBUFREADY is scheduled. *)
Theorem irq_RME_outcomes rd m :
  let rsta := u8 (rd ISAC_RSTA) in
  let m' := irq_RME rd m in
  (Z.land rsta 0x70 <> 0x20 ->
     rqueue (dch m') = rqueue (dch m)
     /\ trace m' =
          trace m ++ [EvReadReg ISAC_RSTA; EvWriteReg ISAC_CMDR 0x80]
          ++ match rx_skb (dch m) with
             | Some s => [EvKfreeSkb s]
             | None => []
             end
     /\ err_rx (dch m') =
          (if tst rsta 0x40 then stat_inc (err_rx (dch m)) else err_rx (dch m))
     /\ err_crc (dch m') =
          (if tst rsta 0x20 then err_crc (dch m) else stat_inc (err_crc (dch m)))
     /\ rx_skb (dch m') = None
     /\ test_bit D_RCVBUFREADY (event (dch m')) = true)
  /\
  (Z.land rsta 0x70 = 0x20 ->
     let rbcl := Z.land (u8 (rd ISAC_RBCL)) 0x1f in
     let count := if rbcl =? 0 then 32 else rbcl in
     1 <= count <= 32
     /\ (rx_buffer_for_drain m = None -> rqueue (dch m') = rqueue (dch m))
     /\ (forall s, rx_buffer_for_drain m = Some s ->
           skb_len s + count < MAX_DFRAME_LEN_L1 ->
           rqueue (dch m') = rqueue (dch m) ++ [skb_put s (fifo_next count m)])
     /\ (forall s, rx_buffer_for_drain m = Some s ->
           MAX_DFRAME_LEN_L1 <= skb_len s + count ->
           skb_len s + count < 2 ^ 32 ->
           rqueue (dch m') = rqueue (dch m) ++ [s])
     /\ (forall s, rx_buffer_for_drain m = Some s ->
           uint (skb_len s + count) < MAX_DFRAME_LEN_L1 ->
           rqueue (dch m') = rqueue (dch m) ++ [skb_put s (fifo_next count m)])
     /\ (forall s, rx_buffer_for_drain m = Some s ->
           MAX_DFRAME_LEN_L1 <= uint (skb_len s + count) ->
           rqueue (dch m') = rqueue (dch m) ++ [s])
     /\ err_rx (dch m') = err_rx (dch m)
     /\ err_crc (dch m') = err_crc (dch m)
     /\ rx_skb (dch m') = None
     /\ test_bit D_RCVBUFREADY (event (dch m')) = true).
Proof.
  intros rsta m'. subst m'. unfold irq_RME. mred. fold rsta.
  split.
  - intros Hc.
    destruct (Z.land rsta 112 =? 32) eqn:E; b2p; [contradiction|]. mred.
    destruct (tst rsta 64), (tst rsta 32), (rx_skb (dch m)) eqn:Es;
      mred; rewrite ?Es; mred; tr_norm; bits Hwf; change (u8 128) with 128;
      repeat split; reflexivity.
  - intros Hc. rewrite Hc, Z.eqb_refl. mred.
    set (rbcl := Z.land (u8 (rd ISAC_RBCL)) 31).
    set (count := if rbcl =? 0 then 32 else rbcl).
    rewrite isac_empty_fifo_dch. mred. rewrite drain_result_emit.
    unfold drain_result.
    assert (Hcount : 1 <= count <= 32).
    { pose proof (land_1f_range (u8 (rd ISAC_RBCL)) (u8_nonneg _)) as Hr.
      fold rbcl in Hr. subst count.
      destruct (rbcl =? 0) eqn:E; b2p; lia. }
    split; [exact Hcount|].
    assert (Hu : forall s,
              uint (skb_len s + count) <= skb_len s + count
              /\ (skb_len s + count < 2 ^ 32 ->
                  uint (skb_len s + count) = skb_len s + count)).
    { intros s. assert (0 <= skb_len s) by (unfold skb_len; lia).
      unfold uint. split; [apply Z.mod_le; lia | intros; apply Z.mod_small; lia]. }
    destruct (rx_buffer_for_drain m) as [s|] eqn:Eb.
    + pose proof (Hu s) as [Hle Heq].
      destruct (uint (skb_len s + count) >=? MAX_DFRAME_LEN_L1) eqn:E; b2p;
        mred; rewrite isac_empty_fifo_dch; mred; bits Hwf;
        repeat split; try reflexivity; try discriminate;
        intros s' Hs'; injection Hs' as <-; intros; try reflexivity; lia.
    + mred. rewrite isac_empty_fifo_dch. mred. bits Hwf.
      repeat split; try reflexivity; intros; discriminate.
Qed.

End ReceiveFrame.

(** C3 as stated fails: with the error counters compiled in, a frame that
    is unclean only through RSTA bit 0x10 (RSTA = 0x30) is discarded and
    no counter moves. *)
Lemma irq_RME_abort_not_counted :
  let rd := reg_is ISAC_RSTA 0x30 in
  let m := on_dch (set_rx_skb (Some (data_req (h := sample_h) [1; 2]))) machine0 in
  let m' := irq_RME (h := sample_h) rd m in
  ERROR_STATISTIC (isac_h := sample_h) = true
  /\ Z.land (u8 (rd ISAC_RSTA)) 0x70 <> 0x20
  /\ rqueue (dch m') = []
  /\ trace m' = [EvReadReg ISAC_RSTA; EvWriteReg ISAC_CMDR 0x80;
                 EvKfreeSkb (data_req (h := sample_h) [1; 2])]
  /\ err_rx (dch m') = err_rx (dch m)
  /\ err_crc (dch m') = err_crc (dch m)
  /\ err_tx (dch m') = err_tx (dch m).
Proof.
  vm_compute. repeat split; try reflexivity. discriminate.
Qed.

(** The amended statement on concrete interrupts: an overrun frame
    (RSTA = 0x40), and a clean 3-byte frame on an empty slot. *)
Lemma irq_RME_outcomes_witness :
  header_wf (h := sample_h) = true
  /\ (let m' := irq_RME (h := sample_h) (reg_is ISAC_RSTA 0x40) machine0 in
      rqueue (dch m') = [] /\ err_rx (dch m') = 1 /\ err_crc (dch m') = 1)
  /\ (let rd := fun r => match r with
                         | ISAC_RSTA => 0x20
                         | ISAC_RBCL => 3
                         | _ => 0
                         end in
      rqueue (dch (irq_RME (h := sample_h) rd machine0)) =
        [{| hh_prim := 0; hh_dinfo := 0; skb_data := [0; 1; 2] |}]).
Proof.
  split; [reflexivity|]. split.
  - intros m'.
    destruct (irq_RME_outcomes (h := sample_h) eq_refl
                (reg_is ISAC_RSTA 0x40) machine0) as (H & _).
    destruct H as (Hq & _ & Hrx & Hcrc & _); [vm_compute; discriminate|].
    split; [exact Hq|]. split; [exact Hrx | exact Hcrc].
  - intros rd.
    destruct (irq_RME_outcomes (h := sample_h) eq_refl rd machine0) as (_ & H).
    destruct (H eq_refl) as (_ & _ & Hq & _).
    exact (Hq _ eq_refl eq_refl).
Defined.

(** ** Transmit underrun *)

Section Underrun.
Context {h : isac_h}.
Hypothesis Hwf : header_wf = true.

Lemma fifo_written_app t1 t2 :
  fifo_written (t1 ++ t2) = fifo_written t1 ++ fifo_written t2.
Proof. apply flat_map_app. Qed.

Lemma upcalls_app t1 t2 : upcalls (t1 ++ t2) = upcalls t1 ++ upcalls t2.
Proof. apply filter_app. Qed.

Lemma fill_fifo_effects_written m :
  fifo_written (fill_fifo_effects m) =
  if tx_len (dch m) - tx_idx (dch m) <=? 0 then []
  else firstn (Z.to_nat (Z.min (tx_len (dch m) - tx_idx (dch m)) 32))
         (skipn (Z.to_nat (tx_idx (dch m))) (tx_buf (dch m))).
Proof.
  unfold fill_fifo_effects, test_flag.
  destruct (_ <=? 0); [reflexivity|].
  destruct (test_bit _ _); cbn; now rewrite app_nil_r.
Qed.

Lemma fill_fifo_effects_upcalls m : upcalls (fill_fifo_effects m) = [].
Proof.
  unfold fill_fifo_effects, test_flag.
  destruct (_ <=? 0); [reflexivity|].
  destruct (test_bit _ _); reflexivity.
Qed.

(** Fields [isac_fill_fifo] never touches. *)
Lemma isac_fill_fifo_frame m :
  tx_buf (dch (isac_fill_fifo m)) = tx_buf (dch m)
  /\ tx_len (dch (isac_fill_fifo m)) = tx_len (dch m)
  /\ next_skb (dch (isac_fill_fifo m)) = next_skb (dch m)
  /\ event (dch (isac_fill_fifo m)) = event (dch m)
  /\ rqueue (dch (isac_fill_fifo m)) = rqueue (dch m)
  /\ hw (dch (isac_fill_fifo m)) = hw (dch m).
Proof.
  destruct (Z_le_gt_dec (tx_len (dch m) - tx_idx (dch m)) 0) as [Hr|Hr].
  - destruct (isac_fill_fifo_idle m Hr) as [-> _]. repeat split.
  - rewrite isac_fill_fifo_dch by lia. mred. repeat split.
Qed.

Lemma isac_fill_fifo_idx m :
  tx_idx (dch (isac_fill_fifo m)) =
  if tx_len (dch m) - tx_idx (dch m) <=? 0 then tx_idx (dch m)
  else tx_idx (dch m) + Z.min (tx_len (dch m) - tx_idx (dch m)) 32.
Proof.
  destruct (_ <=? 0) eqn:E; b2p.
  - now destruct (isac_fill_fifo_idle m E) as [-> _].
  - rewrite isac_fill_fifo_dch by lia. reflexivity.
Qed.

Lemma isac_fill_fifo_flags m nr :
  nr <> FLG_DBUSY_TIMER ->
  test_bit nr (DFlags (dch (isac_fill_fifo m))) = test_bit nr (DFlags (dch m)).
Proof.
  intros Hn.
  destruct (Z_le_gt_dec (tx_len (dch m) - tx_idx (dch m)) 0) as [Hr|Hr].
  - now destruct (isac_fill_fifo_idle m Hr) as [-> _].
  - rewrite isac_fill_fifo_dch by lia. mred.
    apply test_set_neq; [wf_solve Hwf | congruence].
Qed.

(** A transmit-pool-ready interrupt while bytes remain sends the next
    chunk and leaves the frame and the busy flag alone. *)
Lemma irq_XPR_continue m :
  tx_idx (dch m) < tx_len (dch m) ->
  let rem := tx_len (dch m) - tx_idx (dch m) in
  tx_buf (dch (irq_XPR m)) = tx_buf (dch m)
  /\ tx_len (dch (irq_XPR m)) = tx_len (dch m)
  /\ tx_idx (dch (irq_XPR m)) = tx_idx (dch m) + Z.min rem 32
  /\ test_flag FLG_TX_BUSY (irq_XPR m) = test_flag FLG_TX_BUSY m
  /\ fifo_written (trace (irq_XPR m)) =
       fifo_written (trace m)
       ++ firstn (Z.to_nat (Z.min rem 32))
            (skipn (Z.to_nat (tx_idx (dch m))) (tx_buf (dch m))).
Proof.
  intros Hi rem. unfold irq_XPR, test_flag. mred.
  assert (E : (tx_idx (dch m) <? tx_len (dch m)) = true)
    by (apply Z.ltb_lt; lia).
  assert (Er : (rem <=? 0) = false) by (apply Z.leb_gt; subst rem; lia).
  rewrite (stop_dbusy_dch Hwf). mred. rewrite E.
  destruct (isac_fill_fifo_frame (stop_dbusy m)) as (Hb & Hl & _).
  rewrite Hb, Hl, (isac_fill_fifo_idx (stop_dbusy m)),
    (isac_fill_fifo_flags (stop_dbusy m) FLG_TX_BUSY) by wf_solve Hwf.
  rewrite (isac_fill_fifo_trace (stop_dbusy m)), fifo_written_app,
    fill_fifo_effects_written.
  rewrite stop_dbusy_trace, (stop_dbusy_dch Hwf). mred.
  fold rem. rewrite Er. bits Hwf.
  rewrite fifo_written_app.
  assert (Hd : fifo_written (if test_flag FLG_DBUSY_TIMER m
                             then [EvDelTimer] else []) = [])
    by (destruct (test_flag FLG_DBUSY_TIMER m); reflexivity).
  rewrite Hd, app_nil_r. repeat split; reflexivity.
Qed.

Lemma firstn_plus (c r : nat) : forall l : list Z,
  firstn (c + r) l = firstn c l ++ firstn r (skipn c l).
Proof.
  induction c as [|c IH]; intros l; [reflexivity|].
  destruct l as [|x l]; cbn [Nat.add firstn skipn app].
  - now rewrite firstn_nil.
  - now rewrite IH.
Qed.

Lemma firstn_skipn_chunk (l : list Z) i c r :
  firstn c (skipn i l) ++ firstn r (skipn (i + c) l) = firstn (c + r) (skipn i l).
Proof.
  rewrite firstn_plus, skipn_skipn. now rewrite (Nat.add_comm c i).
Qed.

(** [n] further interrupts send what remains of a frame that needs [n]
    more chunks. *)
Lemma xpr_times_sends n : forall m,
  0 <= tx_idx (dch m) ->
  0 <= tx_len (dch m) - tx_idx (dch m) ->
  32 * (Z.of_nat n - 1) < tx_len (dch m) - tx_idx (dch m) <= 32 * Z.of_nat n ->
  fifo_written (trace (xpr_times n m)) =
    fifo_written (trace m)
    ++ firstn (Z.to_nat (tx_len (dch m) - tx_idx (dch m)))
         (skipn (Z.to_nat (tx_idx (dch m))) (tx_buf (dch m)))
  /\ tx_buf (dch (xpr_times n m)) = tx_buf (dch m)
  /\ tx_len (dch (xpr_times n m)) = tx_len (dch m).
Proof.
  induction n as [|k IH]; intros m Hi Hr Hn; cbn [xpr_times].
  - replace (tx_len (dch m) - tx_idx (dch m)) with 0 by lia.
    cbn [Z.to_nat firstn]. rewrite app_nil_r. repeat split.
  - destruct (irq_XPR_continue m) as (Hb & Hl & Hx & _ & Hw); [lia|].
    set (rem := tx_len (dch m) - tx_idx (dch m)) in *.
    destruct (IH (irq_XPR m)) as (Hw' & Hb' & Hl'); rewrite ?Hx, ?Hl; try lia.
    rewrite Hw', Hb', Hl', Hw, Hb, Hl, Hx, <- app_assoc.
    repeat split. f_equal.
    replace (tx_len (dch m) - (tx_idx (dch m) + Z.min rem 32))
      with (rem - Z.min rem 32) by (subst rem; lia).
    replace (Z.to_nat (tx_idx (dch m) + Z.min rem 32))
      with (Z.to_nat (tx_idx (dch m)) + Z.to_nat (Z.min rem 32))%nat by lia.
    rewrite firstn_skipn_chunk. f_equal. lia.
Qed.

(** [j] further interrupts while the frame is still incomplete before each
    of them keep the frame, its length and the busy flag. *)
Lemma xpr_times_busy j : forall m,
  (j = 0%nat \/ tx_idx (dch m) + 32 * (Z.of_nat j - 1) < tx_len (dch m)) ->
  tx_buf (dch (xpr_times j m)) = tx_buf (dch m)
  /\ tx_len (dch (xpr_times j m)) = tx_len (dch m)
  /\ test_flag FLG_TX_BUSY (xpr_times j m) = test_flag FLG_TX_BUSY m.
Proof.
  induction j as [|k IH]; intros m Hj; cbn [xpr_times]; [repeat split|].
  destruct Hj as [Hj|Hj]; [discriminate|].
  destruct (irq_XPR_continue m) as (Hb & Hl & Hx & Hf & _); [lia|].
  destruct (IH (irq_XPR m)) as (Hb' & Hl' & Hf').
  - destruct k; [now left|right]. rewrite Hx, Hl. lia.
  - rewrite Hb', Hl', Hf', Hb, Hl, Hf. repeat split.
Qed.

(** The state in which the XDU block decides between restart and
    promotion: both busy flags cleared, the timer deleted if it was
    armed. *)
Lemma exi_XDU_restart m :
  test_flag FLG_TX_BUSY m = true ->
  exists m0,
    exi_XDU m = isac_fill_fifo m0
    /\ tx_idx (dch m0) = 0
    /\ tx_len (dch m0) = tx_len (dch m)
    /\ tx_buf (dch m0) = tx_buf (dch m)
    /\ next_skb (dch m0) = next_skb (dch m)
    /\ test_flag FLG_DBUSY_TIMER m0 = false
    /\ test_flag FLG_TX_BUSY m0 = true
    /\ jiffies m0 = jiffies m
    /\ event (dch m0) =
         (if test_flag FLG_L1_DBUSY m
          then set_bit D_CLEARBUSY (event (dch m)) else event (dch m))
    /\ trace m0 =
         trace m ++ (if test_flag FLG_DBUSY_TIMER m then [EvDelTimer] else []).
Proof.
  unfold exi_XDU, test_flag. intros Hb. mred.
  set (m1 := stop_dbusy _).
  assert (Hd1 : dch m1 = dch (stop_dbusy
    (on_dch (fun d => set_errs (err_crc d) (stat_inc (err_tx d)) (err_rx d) d) m)))
    by (subst m1; rewrite !(stop_dbusy_dch Hwf); reflexivity).
  assert (Ht1 : trace m1 =
            trace m ++ (if test_bit FLG_DBUSY_TIMER (DFlags (dch m))
                        then [EvDelTimer] else []))
    by (subst m1; rewrite stop_dbusy_trace; reflexivity).
  assert (Hj1 : jiffies m1 = jiffies m)
    by (subst m1; now rewrite (proj1 (stop_dbusy_env _))).
  rewrite (stop_dbusy_dch Hwf) in Hd1. unfold test_flag in Hd1. mred.
  rewrite Hd1. mred. bits Hwf. rewrite Hb.
  eexists; split; [reflexivity|]. mred. rewrite Hd1, Ht1, Hj1. mred.
  bits Hwf. repeat split; try reflexivity; assumption.
Qed.

(** C5: an EXI interrupt with transmit underrun (EXIR bit 0x40).  With
    FLG_TX_BUSY set the busy timer is deleted if armed, tx_idx restarts at
    0 and isac_fill_fifo runs on the unchanged transmit buffer; nothing is
    passed upstream and no transmit-confirm event is scheduled; together
    with the following XPR interrupts exactly bytes [0, L) of the buffer,
    which are the frame a data request loaded, go to the FIFO again.  With
    FLG_TX_BUSY clear, a queued next frame (FLG_TX_NEXT set and next_skb
    present) is copied into the transmit buffer, sent from offset 0, and
    D_XMTBUFREADY is scheduled; with none, the anomaly is logged and
    nothing is sent. *)
Theorem exi_XDU_outcomes m :
  let m' := exi_XDU m in
  let L := tx_len (dch m) in
  let disarm := if test_flag FLG_DBUSY_TIMER m then [EvDelTimer] else [] in
  let arm := [EvInitTimer;
              EvAddTimer (ulong (jiffies m
                                 + Z.quot (DBUSY_TIMER_VALUE * HZ) 1000))] in
  (test_flag FLG_TX_BUSY m = true ->
     trace m' =
       trace m ++ disarm
       ++ (if L <=? 0 then [] else
           [EvWriteFifo (firstn (Z.to_nat (Z.min L 32)) (tx_buf (dch m)));
            EvWriteReg ISAC_CMDR (if 32 <? L then 0x8 else 0xa)] ++ arm)
     /\ tx_idx (dch m') = (if L <=? 0 then 0 else Z.min L 32)
     /\ tx_buf (dch m') = tx_buf (dch m)
     /\ tx_len (dch m') = L
     /\ next_skb (dch m') = next_skb (dch m)
     /\ upcalls (trace m') = upcalls (trace m)
     /\ event (dch m') =
          (if test_flag FLG_L1_DBUSY m
           then set_bit D_CLEARBUSY (event (dch m)) else event (dch m))
     /\ test_bit D_XMTBUFREADY (event (dch m')) =
          test_bit D_XMTBUFREADY (event (dch m)))
  /\
  (test_flag FLG_TX_BUSY m = true ->
   L <= Z.of_nat (List.length (tx_buf (dch m))) ->
   forall n : nat, 32 * Z.of_nat n < L <= 32 * (Z.of_nat n + 1) ->
     fifo_written (trace (xpr_times n m')) =
       fifo_written (trace m) ++ firstn (Z.to_nat L) (tx_buf (dch m))
     /\ tx_buf (dch (xpr_times n m')) = tx_buf (dch m))
  /\
  (forall (hif : hisaxif_t) skb m0 (j n : nat),
     hh_prim skb = PH_DATA_REQ ->
     next_skb (dch m0) = None -> test_flag FLG_TX_BUSY m0 = false ->
     skb_len skb <= Z.of_nat (List.length (tx_buf (dch m0))) ->
     32 * Z.of_nat n < skb_len skb <= 32 * (Z.of_nat n + 1) ->
     (j <= n)%nat ->
     m = xpr_times j (snd (ISAC_l1hw (Some hif) (Some skb) m0)) ->
     fifo_written (trace (xpr_times n m')) =
       fifo_written (trace m) ++ skb_data skb)
  /\
  (test_flag FLG_TX_BUSY m = false -> test_flag FLG_TX_NEXT m = true ->
   forall s, next_skb (dch m) = Some s ->
     let Ls := skb_len s in
     tx_buf (dch m') = memcpy (tx_buf (dch m)) (skb_data s)
     /\ tx_len (dch m') = Ls
     /\ tx_idx (dch m') = Z.min Ls 32
     /\ trace m' =
          trace m ++ disarm
          ++ (if Ls <=? 0 then [] else
              [EvWriteFifo (firstn (Z.to_nat (Z.min Ls 32)) (skb_data s));
               EvWriteReg ISAC_CMDR (if 32 <? Ls then 0x8 else 0xa)] ++ arm)
     /\ test_bit D_XMTBUFREADY (event (dch m')) = true
     /\ test_flag FLG_TX_NEXT m' = false)
  /\
  (test_flag FLG_TX_BUSY m = false ->
   test_flag FLG_TX_NEXT m = false \/ next_skb (dch m) = None ->
     trace m' = trace m ++ disarm
     /\ tx_buf (dch m') = tx_buf (dch m)
     /\ tx_len (dch m') = L
     /\ tx_idx (dch m') = tx_idx (dch m)
     /\ test_bit D_XMTBUFREADY (event (dch m')) =
          test_bit D_XMTBUFREADY (event (dch m))
     /\ In ("ISAC XDU no TX_BUSY", []) (klog m')).
Proof.
  intros m' L disarm arm.
  assert (HA : test_flag FLG_TX_BUSY m = true ->
     trace m' =
       trace m ++ disarm
       ++ (if L <=? 0 then [] else
           [EvWriteFifo (firstn (Z.to_nat (Z.min L 32)) (tx_buf (dch m)));
            EvWriteReg ISAC_CMDR (if 32 <? L then 0x8 else 0xa)] ++ arm)
     /\ tx_idx (dch m') = (if L <=? 0 then 0 else Z.min L 32)
     /\ tx_buf (dch m') = tx_buf (dch m)
     /\ tx_len (dch m') = L
     /\ next_skb (dch m') = next_skb (dch m)
     /\ upcalls (trace m') = upcalls (trace m)
     /\ event (dch m') =
          (if test_flag FLG_L1_DBUSY m
           then set_bit D_CLEARBUSY (event (dch m)) else event (dch m))
     /\ test_bit D_XMTBUFREADY (event (dch m')) =
          test_bit D_XMTBUFREADY (event (dch m))).
  { intros Hb. subst m' disarm arm.
    destruct (exi_XDU_restart m Hb)
      as (m0 & -> & Hi & Hl & Hbuf & Hn & Ht & _ & Hj & He & Htr).
    destruct (isac_fill_fifo_frame m0) as (Fb & Fl & Fn & Fe & _).
    rewrite isac_fill_fifo_trace, isac_fill_fifo_idx, Fb, Fl, Fn, Fe.
    rewrite upcalls_app, fill_fifo_effects_upcalls, app_nil_r.
    unfold fill_fifo_effects. rewrite Ht, Hi, Hl, Hbuf, Hn, He, Htr, Hj.
    rewrite Z.sub_0_r, Z.add_0_l. fold L.
    rewrite upcalls_app.
    assert (Hd : upcalls (if test_flag FLG_DBUSY_TIMER m
                          then [EvDelTimer] else []) = [])
      by (destruct (test_flag FLG_DBUSY_TIMER m); reflexivity).
    rewrite Hd, app_nil_r.
    repeat split.
    - rewrite <- app_assoc. reflexivity.
    - destruct (test_flag FLG_L1_DBUSY m); [|reflexivity].
      apply test_set_neq; wf_solve Hwf. }
  assert (HD : test_flag FLG_TX_BUSY m = true ->
     forall n : nat, 32 * Z.of_nat n < L <= 32 * (Z.of_nat n + 1) ->
     fifo_written (trace (xpr_times n m')) =
       fifo_written (trace m) ++ firstn (Z.to_nat L) (tx_buf (dch m))
     /\ tx_buf (dch (xpr_times n m')) = tx_buf (dch m)).
  { intros Hb n Hn.
    destruct (HA Hb) as (Htr & Hi & Hbuf & Hl & _). subst disarm arm.
    assert (E : (L <=? 0) = false) by (apply Z.leb_gt; lia).
    rewrite E in Htr, Hi.
    destruct (xpr_times_sends n m') as (Hw & Hb' & _);
      rewrite ?Hi, ?Hl; try lia.
    rewrite Hw, Hb', Hbuf, Htr, Hi, Hl.
    split; [|reflexivity].
    rewrite !fifo_written_app.
    assert (Hd : fifo_written (if test_flag FLG_DBUSY_TIMER m
                               then [EvDelTimer] else []) = [])
      by (destruct (test_flag FLG_DBUSY_TIMER m); reflexivity).
    rewrite Hd. cbn [fifo_written flat_map app]. rewrite app_nil_r.
    rewrite <- app_assoc. f_equal.
    pose proof (firstn_skipn_chunk (tx_buf (dch m)) 0
                  (Z.to_nat (Z.min L 32)) (Z.to_nat (L - Z.min L 32))) as Hc.
    cbn [skipn Nat.add] in Hc. rewrite app_nil_r, Hc. f_equal. lia. }
  split; [exact HA|].
  split; [intros Hb _; exact (HD Hb)|].
  split; [|split].
  - intros hif skb m0 j n Hp Hn0 Hb0 Hcap Hn Hj Hm.
    destruct (ISAC_l1hw_start Hwf hif skb m0 Hp Hn0 Hb0)
      as (Hl1 & Hbuf1 & Hpre & Hi1 & Hbusy1 & _).
    set (m1 := snd (ISAC_l1hw (Some hif) (Some skb) m0)) in *.
    destruct (xpr_times_busy j m1) as (Hb2 & Hl2 & Hf2).
    { destruct j; [now left|right]. rewrite Hi1, Hl1. lia. }
    rewrite <- Hm in Hb2, Hl2, Hf2.
    assert (Hbusy : test_flag FLG_TX_BUSY m = true) by congruence.
    assert (HL : L = skb_len skb) by (subst L; congruence).
    destruct (HD Hbusy n) as (Hw & _); [lia|].
    rewrite Hw, HL, Hb2. f_equal.
    unfold skb_len. rewrite Nat2Z.id. exact Hpre.
  - intros Hb Hx s Hs Ls. subst m' disarm arm. clear HA HD.
    unfold exi_XDU, test_flag in *. mred.
    set (m1 := stop_dbusy _).
    assert (Hd1 : dch m1 = dch (stop_dbusy
      (on_dch (fun d => set_errs (err_crc d) (stat_inc (err_tx d)) (err_rx d) d) m)))
      by (subst m1; rewrite !(stop_dbusy_dch Hwf); reflexivity).
    assert (Ht1 : trace m1 =
              trace m ++ (if test_bit FLG_DBUSY_TIMER (DFlags (dch m))
                          then [EvDelTimer] else []))
      by (subst m1; rewrite stop_dbusy_trace; reflexivity).
    assert (Hj1 : jiffies m1 = jiffies m)
      by (subst m1; now rewrite (proj1 (stop_dbusy_env _))).
    rewrite (stop_dbusy_dch Hwf) in Hd1. unfold test_flag in Hd1. mred.
    rewrite Hd1. mred. bits Hwf. rewrite Hb, Hx. mred. rewrite Hs.
    set (m2 := load_tx_buf s _).
    assert (Hd2 : dch m2 =
              set_tx_idx 0
                (set_tx_buf (memcpy (tx_buf (dch m)) (skb_data s))
                   (set_tx_len (skb_len s)
                      (set_DFlags (clear_bit FLG_TX_NEXT (DFlags (dch m1)))
                         (dch m1)))))
      by (subst m2; mred; rewrite Hd1; reflexivity).
    assert (Ht2 : trace m2 = trace m1) by reflexivity.
    assert (Hj2 : jiffies m2 = jiffies m1) by reflexivity.
    destruct (isac_fill_fifo_frame m2) as (Fb & Fl & _ & Fe & _).
    mred. rewrite Fb, Fl, Fe, (isac_fill_fifo_idx m2),
      (isac_fill_fifo_trace m2),
      (isac_fill_fifo_flags m2 FLG_TX_NEXT) by wf_solve Hwf.
    unfold fill_fifo_effects, test_flag.
    rewrite Hd2, Ht2, Hj2, Ht1, Hj1, Hd1. mred. bits Hwf.
    rewrite Z.sub_0_r, Z.add_0_l. fold Ls.
    assert (HLs : 0 <= Ls) by (subst Ls; unfold skb_len; lia).
    cbn [skipn Z.to_nat].
    destruct (Ls <=? 0) eqn:E; b2p.
    + replace Ls with 0 by lia. tr_norm. rewrite ?app_nil_r.
      repeat split; reflexivity.
    + rewrite firstn_memcpy by (subst Ls; unfold skb_len in *; lia).
      tr_norm. repeat split; reflexivity.
  - intros Hb Hx. subst m' disarm arm. clear HA HD.
    unfold exi_XDU, test_flag in *. mred.
    set (m1 := stop_dbusy _).
    assert (Hd1 : dch m1 = dch (stop_dbusy
      (on_dch (fun d => set_errs (err_crc d) (stat_inc (err_tx d)) (err_rx d) d) m)))
      by (subst m1; rewrite !(stop_dbusy_dch Hwf); reflexivity).
    assert (Ht1 : trace m1 =
              trace m ++ (if test_bit FLG_DBUSY_TIMER (DFlags (dch m))
                          then [EvDelTimer] else []))
      by (subst m1; rewrite stop_dbusy_trace; reflexivity).
    assert (Hk1 : In ("ISAC XDU", []) (klog m1)).
    { subst m1. rewrite (proj2 (proj2 (proj2 (proj2 (stop_dbusy_env _))))).
      mred. apply in_or_app. left. apply in_or_app. right. now left. }
    rewrite (stop_dbusy_dch Hwf) in Hd1. unfold test_flag in Hd1. mred.
    rewrite Hd1. mred. bits Hwf. rewrite Hb. mred. rewrite ?Hd1. mred. bits Hwf.
    assert (Hev : test_bit D_XMTBUFREADY
                    (if test_bit FLG_L1_DBUSY (DFlags (dch m))
                     then set_bit D_CLEARBUSY (event (dch m))
                     else event (dch m)) =
                  test_bit D_XMTBUFREADY (event (dch m))).
    { destruct (test_bit FLG_L1_DBUSY (DFlags (dch m))); [|reflexivity].
      apply test_set_neq; wf_solve Hwf. }
    destruct (test_bit FLG_TX_NEXT (DFlags (dch m))) eqn:En;
      destruct (next_skb (dch m)) eqn:Es;
      try (destruct Hx; discriminate);
      mred; rewrite ?Hd1; mred; rewrite ?Es; mred; rewrite ?Hd1, ?Ht1; mred;
      repeat split; try reflexivity; try exact Hev;
      repeat (apply in_or_app; first [ right; left; reflexivity | left ]).
Qed.

End Underrun.

(** The underrun theorem on concrete channels: a 40-byte frame whose first
    chunk is out when the underrun strikes; the same frame sent by a data
    request, interrupted after its second chunk; a queued next frame on an
    idle transmitter; and an underrun with nothing to send. *)
Lemma exi_XDU_outcomes_witness :
  header_wf (h := sample_h) = true
  /\ (let m := on_dch (fun d => set_tx_idx 32 (set_tx_len 40 (set_DFlags 40 d)))
                 machine0 in
      trace (exi_XDU (h := sample_h) m) =
        [EvDelTimer; EvWriteFifo (repeat 0 32); EvWriteReg ISAC_CMDR 0x8;
         EvInitTimer; EvAddTimer 1008]
      /\ fifo_written (trace (xpr_times (h := sample_h) 1 (exi_XDU (h := sample_h) m))) =
           repeat 0 40)
  /\ (let skb := data_req (h := sample_h) (map Z.of_nat (seq 0 40)) in
      let m := xpr_times (h := sample_h) 1
                 (snd (ISAC_l1hw (h := sample_h) (Some tt) (Some skb) machine0)) in
      fifo_written (trace (xpr_times (h := sample_h) 1 (exi_XDU (h := sample_h) m))) =
        fifo_written (trace m) ++ map Z.of_nat (seq 0 40))
  /\ (let m := on_dch (fun d => set_next_skb (Some (data_req (h := sample_h) [7; 8]))
                                  (set_DFlags 16 d)) machine0 in
      tx_len (dch (exi_XDU (h := sample_h) m)) = 2
      /\ test_bit 3 (event (dch (exi_XDU (h := sample_h) m))) = true)
  /\ trace (exi_XDU (h := sample_h) machine0) = [].
Proof.
  split; [reflexivity|]. split; [|split; [|split]].
  - intros m.
    destruct (exi_XDU_outcomes (h := sample_h) eq_refl m) as (HA & HD & _).
    split.
    + exact (proj1 (HA eq_refl)).
    + refine (proj1 (HD eq_refl _ 1%nat _)); zcomp.
  - intros skb m.
    destruct (exi_XDU_outcomes (h := sample_h) eq_refl m) as (_ & _ & HE & _).
    refine (HE tt skb machine0 1%nat 1%nat eq_refl eq_refl eq_refl _ _ _ eq_refl).
    + zcomp.
    + zcomp.
    + apply le_n.
  - intros m.
    destruct (exi_XDU_outcomes (h := sample_h) eq_refl m) as (_ & _ & _ & HP & _).
    destruct (HP eq_refl eq_refl _ eq_refl) as (_ & Hl & _ & _ & He & _).
    split; [exact Hl | exact He].
  - destruct (exi_XDU_outcomes (h := sample_h) eq_refl machine0)
      as (_ & _ & _ & _ & HN).
    destruct (HN eq_refl (or_introl eq_refl)) as (Ht & _).
    exact Ht.
Defined.

(** ** The line state tracker *)

Section LineState.
Context {h : isac_h}.
Hypothesis Hwf : header_wf = true.

Lemma if_link_chain_trace n : forall k prim para m,
  trace (if_link_chain n k prim para m) =
  trace m ++ map (fun i => EvIfLink i prim para) (seq k n).
Proof.
  induction n as [|n IH]; intros k prim para m; cbn [if_link_chain seq map].
  - now rewrite app_nil_r.
  - rewrite IH. mred. now rewrite <- app_assoc.
Qed.

Lemma if_link_chain_dch n : forall k prim para m,
  dch (if_link_chain n k prim para m) = dch m.
Proof.
  induction n as [|n IH]; intros k prim para m; cbn [if_link_chain];
    [reflexivity|].
  now rewrite IH.
Qed.

Lemma isac_new_ph_dch m : dch (isac_new_ph m) = dch m.
Proof.
  unfold isac_new_ph.
  repeat case_if; rewrite ?if_link_chain_dch; reflexivity.
Qed.

(** A state code of the table: the row's pair goes to every interface of
    the upper chain, after the disable command where the row asks for
    it. *)
Lemma isac_new_ph_row s m :
  ph_state (dch m) = ci_code s ->
  trace (isac_new_ph m) =
  trace m ++ disable_effects s
  ++ notifications (up_links (dch m)) (line_state_table s).
Proof.
  intros Hs. unfold isac_new_ph, notifications, disable_effects.
  rewrite Hs.
  destruct s; cbn [ci_code line_state_table spec_table_4_3 needs_disable fst snd];
    neq_consts Hwf; rewrite ?Z.eqb_refl; cbn [orb];
    rewrite if_link_chain_trace; mred; tr_norm; reflexivity.
Qed.

(** Any other state code: nothing happens. *)
Lemma isac_new_ph_other m :
  (forall s, ph_state (dch m) <> ci_code s) -> isac_new_ph m = m.
Proof.
  intros Hs. unfold isac_new_ph.
  pose proof (Hs LS_reset) as H1. pose proof (Hs LS_error) as H2.
  pose proof (Hs LS_deactivation_confirm) as H3.
  pose proof (Hs LS_deactivation_indication) as H4.
  pose proof (Hs LS_power_up) as H5.
  pose proof (Hs LS_resynchronization) as H6.
  pose proof (Hs LS_info2) as H7. pose proof (Hs LS_info4_A) as H8.
  pose proof (Hs LS_info4_B) as H9.
  cbn [ci_code] in *.
  repeat match goal with
  | H : ?a <> ?b |- context [?a =? ?b] => rewrite (proj2 (Z.eqb_neq a b) H)
  end.
  reflexivity.
Qed.

(** The bottom half with a line-state change pending. *)
Lemma isac_hwbh_statechange m :
  test_bit D_L1STATECHANGE (event (dch m)) = true ->
  let m1 := isac_new_ph
              (on_dch (fun d => set_event (clear_bit D_L1STATECHANGE (event d)) d)
                 (log_if (negb (debug (dch m) =? 0)) "isac_hwbh: event %x"
                    [event (dch m)] m)) in
  trace (isac_hwbh m) = trace m1 ++ arcofi_effects m
  /\ test_bit D_L1STATECHANGE (event (dch (isac_hwbh m))) = false.
Proof.
  intros Hc m1. subst m1. unfold isac_hwbh, test_flag, arcofi_effects. mred.
  rewrite Hc. rewrite ?isac_new_ph_dch. mred.
  destruct (test_bit HW_ARCOFI (DFlags (dch m))); mred;
    [|rewrite ?isac_new_ph_dch; mred; bits Hwf; rewrite app_nil_r;
      split; reflexivity].
  rewrite ?isac_new_ph_dch. mred. bits Hwf.
  destruct (test_bit D_RX_MON1 (event (dch m))) eqn:E1;
    destruct (test_bit D_TX_MON1 (event (dch m))) eqn:E2;
    repeat (progress (mred; rewrite ?isac_new_ph_dch; bits Hwf; rw_bools));
    tr_norm; rewrite ?app_nil_r; split; reflexivity.
Qed.

Lemma irq_CISQ_decode rd m :
  tst (u8 (rd ISAC_CIR0)) 2 = true ->
  ph_state (dch (irq_CISQ rd m)) = Z.land (Z.shiftr (u8 (rd ISAC_CIR0)) 2) 0xf
  /\ test_bit D_L1STATECHANGE (event (dch (irq_CISQ rd m))) = true
  /\ DFlags (dch (irq_CISQ rd m)) = DFlags (dch m)
  /\ up_links (dch (irq_CISQ rd m)) = up_links (dch m)
  /\ event (dch (irq_CISQ rd m)) = set_bit D_L1STATECHANGE (event (dch m))
  /\ trace (irq_CISQ rd m) =
       trace m ++ [EvReadReg ISAC_CIR0]
       ++ (if tst (u8 (rd ISAC_CIR0)) 1 then [EvReadReg ISAC_CIR1] else []).
Proof.
  intros Hc. unfold irq_CISQ. mred. rewrite Hc.
  destruct (tst (u8 (rd ISAC_CIR0)) 1); mred; bits Hwf; tr_norm;
    repeat split; reflexivity.
Qed.

Lemma upcalls_notifications n pp :
  upcalls (notifications n pp) = notifications n pp.
Proof.
  unfold notifications, upcalls.
  induction (seq 0 (S n)) as [|k l IH]; cbn [map filter is_upcall];
    [reflexivity|].
  now rewrite IH.
Qed.

Lemma upcalls_disable s : upcalls (disable_effects s) = [].
Proof. unfold disable_effects. destruct (needs_disable s); reflexivity. Qed.

Lemma upcalls_arcofi m : upcalls (arcofi_effects m) = [].
Proof.
  unfold arcofi_effects.
  destruct (test_bit HW_ARCOFI (DFlags (dch m))),
    (test_bit D_RX_MON1 (event (dch m))),
    (test_bit D_TX_MON1 (event (dch m))); reflexivity.
Qed.

(** C6, as the code has it.  On a CISQ interrupt whose CIR0 value has bit 1
    set, bits 2..5 become ph_state and D_L1STATECHANGE is scheduled; the
    block only reads CIR0 (and CIR1 when bit 0 is set) and calls nothing
    upstream.  The bottom half then, for a state code of the table, sends
    the row's (primitive, parameter) pair once to every interface of the
    upper chain (exactly once for a single interface): control-indication
    with HW_RESET for the reset and error codes, the pairs of section 4.3
    for the others; for the reset and error codes the DUI command is
    written to CIX0 between lock and unlock first.  For a code outside
    the table nothing is sent.  Where ISAC_IND_ARD is the code 0x3, a CIR0
    value with state code 0x3 makes ph_state 3 and the bottom half sends
    signal-indication with INFO2. *)
Theorem line_state_change rd m :
  (tst (u8 (rd ISAC_CIR0)) 2 = true ->
     ph_state (dch (irq_CISQ rd m)) = Z.land (Z.shiftr (u8 (rd ISAC_CIR0)) 2) 0xf
     /\ test_bit D_L1STATECHANGE (event (dch (irq_CISQ rd m))) = true
     /\ trace (irq_CISQ rd m) =
          trace m ++ [EvReadReg ISAC_CIR0]
          ++ (if tst (u8 (rd ISAC_CIR0)) 1 then [EvReadReg ISAC_CIR1] else [])
     /\ upcalls (trace (irq_CISQ rd m)) = upcalls (trace m))
  /\
  (forall s : line_state,
     test_bit D_L1STATECHANGE (event (dch m)) = true ->
     ph_state (dch m) = ci_code s ->
     trace (isac_hwbh m) =
       trace m ++ disable_effects s
       ++ notifications (up_links (dch m)) (line_state_table s)
       ++ arcofi_effects m
     /\ upcalls (trace (isac_hwbh m)) =
          upcalls (trace m)
          ++ notifications (up_links (dch m)) (line_state_table s)
     /\ test_bit D_L1STATECHANGE (event (dch (isac_hwbh m))) = false)
  /\
  (test_bit D_L1STATECHANGE (event (dch m)) = true ->
   (forall s, ph_state (dch m) <> ci_code s) ->
     trace (isac_hwbh m) = trace m ++ arcofi_effects m
     /\ upcalls (trace (isac_hwbh m)) = upcalls (trace m))
  /\
  (ISAC_IND_ARD = 0x3 ->
   tst (u8 (rd ISAC_CIR0)) 2 = true ->
   Z.land (Z.shiftr (u8 (rd ISAC_CIR0)) 2) 0xf = 0x3 ->
     ph_state (dch (irq_CISQ rd m)) = 0x3
     /\ upcalls (trace (isac_hwbh (irq_CISQ rd m))) =
          upcalls (trace m)
          ++ notifications (up_links (dch m))
               (Z.lor PH_SIGNAL INDICATION, INFO2)).
Proof.
  assert (HB : forall (s : line_state) m,
     test_bit D_L1STATECHANGE (event (dch m)) = true ->
     ph_state (dch m) = ci_code s ->
     trace (isac_hwbh m) =
       trace m ++ disable_effects s
       ++ notifications (up_links (dch m)) (line_state_table s)
       ++ arcofi_effects m
     /\ upcalls (trace (isac_hwbh m)) =
          upcalls (trace m)
          ++ notifications (up_links (dch m)) (line_state_table s)
     /\ test_bit D_L1STATECHANGE (event (dch (isac_hwbh m))) = false).
  { intros s m0 Hc Hs.
    destruct (isac_hwbh_statechange m0 Hc) as [Ht Hf].
    rewrite Ht, (isac_new_ph_row s) by exact Hs. mred.
    split; [now tr_norm|]. split; [|exact Hf].
    rewrite !upcalls_app, upcalls_disable, upcalls_notifications,
      upcalls_arcofi.
    now rewrite app_nil_r. }
  split; [|split; [|split]].
  - intros Hc.
    destruct (irq_CISQ_decode rd m Hc) as (Hp & He & _ & _ & _ & Ht).
    repeat split; try assumption.
    rewrite Ht, !upcalls_app.
    destruct (tst (u8 (rd ISAC_CIR0)) 1); cbn; now rewrite app_nil_r.
  - intros s. apply HB.
  - intros Hc Hs.
    destruct (isac_hwbh_statechange m Hc) as [Ht _].
    rewrite Ht, isac_new_ph_other by exact Hs. mred.
    split; [reflexivity|].
    now rewrite upcalls_app, upcalls_arcofi, app_nil_r.
  - intros Hard Hc Hcode.
    destruct (irq_CISQ_decode rd m Hc) as (Hp & He & _ & Hl & _ & Ht).
    rewrite Hcode in Hp. split; [exact Hp|].
    destruct (HB LS_info2 (irq_CISQ rd m) He) as (_ & Hu & _).
    { cbn [ci_code]. congruence. }
    rewrite Hu, Hl, Ht, !upcalls_app.
    cbn [line_state_table spec_table_4_3].
    destruct (tst (u8 (rd ISAC_CIR0)) 1); cbn [upcalls filter is_upcall app];
      now rewrite ?app_nil_r.
Qed.

End LineState.

(** C6 as stated fails on the reset row: the table of section 4.3 names
    control-confirm for the reset and error codes, the bottom half sends
    control-indication. *)
Lemma isac_hwbh_reset_is_indication :
  let m := on_dch (fun d => set_ph_state (ci_code (h := sample_h) LS_reset)
                              (set_event 1 d)) machine0 in
  upcalls (trace (isac_hwbh (h := sample_h) m)) =
    [EvIfLink 0 (Z.lor (@PH_CONTROL sample_h) (@INDICATION sample_h))
       (@HW_RESET sample_h)]
  /\ upcalls (trace (isac_hwbh (h := sample_h) m)) <>
       notifications (up_links (dch m)) (spec_table_4_3 (h := sample_h) LS_reset).
Proof.
  vm_compute. split; [reflexivity | discriminate].
Qed.

(** The amended statement on concrete states: the scenario of the
    specification (CIR0 = 0x0e: state code 3, change bit set), a reset
    indication, and a code outside the table. *)
Lemma line_state_change_witness :
  header_wf (h := sample_h) = true
  /\ ph_state (dch (irq_CISQ (h := sample_h) (reg_is ISAC_CIR0 0x0e) machine0)) = 3
  /\ upcalls (trace (isac_hwbh (h := sample_h)
                       (irq_CISQ (h := sample_h) (reg_is ISAC_CIR0 0x0e) machine0))) =
       [EvIfLink 0 0x182 0x2]
  /\ trace (isac_hwbh (h := sample_h)
              (on_dch (fun d => set_ph_state 1 (set_event 1 d)) machine0)) =
       [EvLock; EvWriteReg ISAC_CIX0 0x3f; EvUnlock; EvIfLink 0 0x282 1]
  /\ trace (isac_hwbh (h := sample_h)
              (on_dch (fun d => set_ph_state 2 (set_event 1 d)) machine0)) = [].
Proof.
  split; [reflexivity|].
  destruct (line_state_change (h := sample_h) eq_refl
              (reg_is ISAC_CIR0 0x0e) machine0) as (_ & _ & _ & HS).
  destruct (HS eq_refl eq_refl eq_refl) as (Hp & Hu).
  split; [exact Hp|]. split; [exact Hu|]. split.
  - destruct (line_state_change (h := sample_h) eq_refl (reg_is ISAC_CIR0 0)
                (on_dch (fun d => set_ph_state 1 (set_event 1 d)) machine0))
      as (_ & HB & _).
    exact (proj1 (HB LS_reset eq_refl eq_refl)).
  - destruct (line_state_change (h := sample_h) eq_refl (reg_is ISAC_CIR0 0)
                (on_dch (fun d => set_ph_state 2 (set_event 1 d)) machine0))
      as (_ & _ & HO & _).
    refine (proj1 (HO eq_refl _)).
    intros s; destruct s; vm_compute; discriminate.
Defined.

(** ** The monitor channel *)

Section Monitor.
Context {h : isac_h}.
Hypothesis Hwf : header_wf = true.

Lemma tx_fixed_refl m : tx_fixed m m.
Proof. repeat split. Qed.

Lemma tx_fixed_trans m1 m2 m3 :
  tx_fixed m1 m2 -> tx_fixed m2 m3 -> tx_fixed m1 m3.
Proof.
  unfold tx_fixed. intros (A1 & A2 & A3 & A4) (B1 & B2 & B3 & B4).
  repeat split; congruence.
Qed.

Lemma tx_fixed_done m m' :
  tx_fixed m m' -> mon_tx_done m' = mon_tx_done m.
Proof.
  unfold tx_fixed, mon_tx_done. intros (_ & -> & -> & _). reflexivity.
Qed.

(** Finish a goal about a monitor block after its cases are split. *)
Ltac mon_done :=
  mred; unfold tx_fixed, mox_writes, mocr_writes; mred;
  rewrite ?filter_app; cbn [filter is_mox_write is_mocr_write app];
  rewrite ?app_nil_r; repeat split; try reflexivity.

Lemma mon_RX0_tx_fixed rd m : tx_fixed m (mon_RX0 rd m).
Proof.
  unfold mon_RX0. mred.
  destruct (mon_rx (hw (dch m))); mred;
    [|destruct (alloc_ok m (alloc_pos m)); mred];
    repeat (case_if; mred); mon_done.
Qed.

Lemma mon_RX1_tx_fixed rd m : tx_fixed m (mon_RX1 rd m).
Proof.
  unfold mon_RX1. mred.
  destruct (mon_rx (hw (dch m))); mred;
    [|destruct (alloc_ok m (alloc_pos m)); mred];
    repeat (case_if; mred); mon_done.
Qed.

Lemma mon_RXEND0_tx_fixed m : tx_fixed m (mon_RXEND0 m).
Proof. unfold mon_RXEND0. mon_done. Qed.

Lemma mon_RXEND1_tx_fixed m : tx_fixed m (mon_RXEND1 m).
Proof. unfold mon_RXEND1. mon_done. Qed.

(** A transmit-ready event on channel 0 once the target length is
    reached. *)
Lemma mon_TX0_done v1 m :
  mon_tx_done m = true ->
  tx_fixed m (mon_TX0 v1 m)
  /\ event (dch (mon_TX0 v1 m)) = set_bit D_TX_MON0 (event (dch m))
  /\ (mon_tx (hw (dch m)) = None \/ tst v1 0x08 = false ->
        trace (mon_TX0 v1 m) =
          trace m
          ++ [EvWriteReg ISAC_MOCR (u8 (Z.land (mocr (hw (dch m))) 0xf0));
              EvWriteReg ISAC_MOCR
                (u8 (Z.lor (u8 (Z.land (mocr (hw (dch m))) 0xf0)) 0x0a))]
        /\ mocr (hw (dch (mon_TX0 v1 m))) =
             u8 (Z.lor (u8 (Z.land (mocr (hw (dch m))) 0xf0)) 0x0a))
  /\ (mon_tx (hw (dch m)) <> None -> tst v1 0x08 = true ->
        trace (mon_TX0 v1 m) = trace m
        /\ mocr (hw (dch (mon_TX0 v1 m))) = mocr (hw (dch m))).
Proof.
  intros Hd. unfold mon_TX0.
  assert (Hd' : forall f, mon_tx_done (write_mocr (mocr_or 0x0a
                   (write_mocr (mocr_and 0xf0 (on_dch f m))))) =
                mon_tx_done (on_dch f m)) by reflexivity.
  destruct (mon_tx (hw (dch m))) eqn:Et; destruct (tst v1 8) eqn:Eh;
    rewrite ?Hd; cbn [negb andb orb];
    try (change (mon_tx_done (write_mocr (mocr_or 10 (write_mocr
                   (mocr_and 240 m))))) with (mon_tx_done m); rewrite Hd);
    mon_done; tr_norm; rewrite ?u8_idem; try reflexivity; try congruence;
    match goal with H : _ \/ _ |- _ => destruct H; discriminate end.
Qed.

(** The same on channel 1. *)
Lemma mon_TX1_done v1 m :
  mon_tx_done m = true ->
  tx_fixed m (mon_TX1 v1 m)
  /\ event (dch (mon_TX1 v1 m)) = set_bit D_TX_MON1 (event (dch m))
  /\ (mon_tx (hw (dch m)) = None \/ tst v1 0x80 = false ->
        trace (mon_TX1 v1 m) =
          trace m
          ++ [EvWriteReg ISAC_MOCR (u8 (Z.land (mocr (hw (dch m))) 0x0f));
              EvWriteReg ISAC_MOCR
                (u8 (Z.lor (u8 (Z.land (mocr (hw (dch m))) 0x0f)) 0xa0))]
        /\ mocr (hw (dch (mon_TX1 v1 m))) =
             u8 (Z.lor (u8 (Z.land (mocr (hw (dch m))) 0x0f)) 0xa0))
  /\ (mon_tx (hw (dch m)) <> None -> tst v1 0x80 = true ->
        trace (mon_TX1 v1 m) = trace m
        /\ mocr (hw (dch (mon_TX1 v1 m))) = mocr (hw (dch m))).
Proof.
  intros Hd. unfold mon_TX1.
  destruct (mon_tx (hw (dch m))) eqn:Et; destruct (tst v1 128) eqn:Eh;
    rewrite ?Hd; cbn [negb andb orb];
    try (change (mon_tx_done (write_mocr (mocr_or 160 (write_mocr
                   (mocr_and 15 m))))) with (mon_tx_done m); rewrite Hd);
    mon_done; tr_norm; rewrite ?u8_idem; try reflexivity; try congruence;
    match goal with H : _ \/ _ |- _ => destruct H; discriminate end.
Qed.

Lemma test_set_mono x y w :
  0 <= y -> test_bit x w = true -> test_bit x (set_bit y w) = true.
Proof.
  intros Hy Hx. unfold test_bit, set_bit in *.
  apply Z.setbit_iff; [assumption | now right].
Qed.

Lemma ev_grows_refl m : ev_grows m m.
Proof. intros b Hb. exact Hb. Qed.

Lemma ev_grows_trans m1 m2 m3 :
  ev_grows m1 m2 -> ev_grows m2 m3 -> ev_grows m1 m3.
Proof. intros H1 H2 b Hb. apply H2, H1, Hb. Qed.

Lemma ev_grows_set nr m m' :
  0 <= nr -> event (dch m') = set_bit nr (event (dch m)) -> ev_grows m m'.
Proof.
  intros Hn He b Hb. rewrite He. now apply test_set_mono.
Qed.

Lemma ev_grows_same m m' : event (dch m') = event (dch m) -> ev_grows m m'.
Proof. intros He b Hb. now rewrite He. Qed.

Lemma mon_RX0_event rd m : event (dch (mon_RX0 rd m)) = event (dch m).
Proof.
  unfold mon_RX0. mred.
  destruct (mon_rx (hw (dch m))); mred;
    [|destruct (alloc_ok m (alloc_pos m)); mred];
    repeat (case_if; mred); reflexivity.
Qed.

Lemma mon_RX1_event rd m : event (dch (mon_RX1 rd m)) = event (dch m).
Proof.
  unfold mon_RX1. mred.
  destruct (mon_rx (hw (dch m))); mred;
    [|destruct (alloc_ok m (alloc_pos m)); mred];
    repeat (case_if; mred); reflexivity.
Qed.

(** One monitor-status event once the target length is reached: the
    transmit side stays as it is and pending events stay pending. *)
Lemma mos_blocks_done rd v1 m :
  mon_tx_done m = true ->
  tx_fixed m (mos_blocks rd v1 m)
  /\ ev_grows m (mos_blocks rd v1 m)
  /\ (tst v1 0x02 = true ->
      test_bit D_TX_MON0 (event (dch (mos_blocks rd v1 m))) = true)
  /\ (tst v1 0x20 = true ->
      test_bit D_TX_MON1 (event (dch (mos_blocks rd v1 m))) = true).
Proof.
  intros Hd. unfold mos_blocks.
  set (m1 := if tst v1 8 then mon_RX0 rd m else m).
  assert (F1 : tx_fixed m m1 /\ ev_grows m m1).
  { subst m1. destruct (tst v1 8).
    - split; [apply mon_RX0_tx_fixed | apply ev_grows_same, mon_RX0_event].
    - split; [apply tx_fixed_refl | apply ev_grows_refl]. }
  set (m2 := if tst v1 128 then mon_RX1 rd m1 else m1).
  assert (F2 : tx_fixed m1 m2 /\ ev_grows m1 m2).
  { subst m2. destruct (tst v1 128).
    - split; [apply mon_RX1_tx_fixed | apply ev_grows_same, mon_RX1_event].
    - split; [apply tx_fixed_refl | apply ev_grows_refl]. }
  set (m3 := if tst v1 4 then mon_RXEND0 m2 else m2).
  assert (F3 : tx_fixed m2 m3 /\ ev_grows m2 m3).
  { subst m3. destruct (tst v1 4).
    - split; [apply mon_RXEND0_tx_fixed|].
      apply (ev_grows_set D_RX_MON0); [wf_solve Hwf | reflexivity].
    - split; [apply tx_fixed_refl | apply ev_grows_refl]. }
  set (m4 := if tst v1 64 then mon_RXEND1 m3 else m3).
  assert (F4 : tx_fixed m3 m4 /\ ev_grows m3 m4).
  { subst m4. destruct (tst v1 64).
    - split; [apply mon_RXEND1_tx_fixed|].
      apply (ev_grows_set D_RX_MON1); [wf_solve Hwf | reflexivity].
    - split; [apply tx_fixed_refl | apply ev_grows_refl]. }
  assert (T4 : tx_fixed m m4)
    by (eapply tx_fixed_trans; [|apply F4];
        eapply tx_fixed_trans; [|apply F3];
        eapply tx_fixed_trans; [apply F1 | apply F2]).
  assert (D4 : mon_tx_done m4 = true)
    by (rewrite (tx_fixed_done _ _ T4); exact Hd).
  set (m5 := if tst v1 2 then mon_TX0 v1 m4 else m4).
  assert (F5 : tx_fixed m4 m5 /\ ev_grows m4 m5
                /\ (tst v1 2 = true ->
                    test_bit D_TX_MON0 (event (dch m5)) = true)).
  { subst m5. destruct (tst v1 2).
    - destruct (mon_TX0_done v1 m4 D4) as (Ht & He & _).
      split; [exact Ht|]. split.
      + apply (ev_grows_set D_TX_MON0); [wf_solve Hwf | exact He].
      + intros _. rewrite He. apply test_set_eq. wf_solve Hwf.
    - split; [apply tx_fixed_refl|]. split; [apply ev_grows_refl|].
      discriminate. }
  assert (D5 : mon_tx_done m5 = true)
    by (rewrite (tx_fixed_done _ _ (proj1 F5)); exact D4).
  assert (F6 : tx_fixed m5 (if tst v1 32 then mon_TX1 v1 m5 else m5)
               /\ ev_grows m5 (if tst v1 32 then mon_TX1 v1 m5 else m5)
               /\ (tst v1 32 = true ->
                   test_bit D_TX_MON1
                     (event (dch (if tst v1 32 then mon_TX1 v1 m5 else m5)))
                   = true)).
  { destruct (tst v1 32).
    - destruct (mon_TX1_done v1 m5 D5) as (Ht & He & _).
      split; [exact Ht|]. split.
      + apply (ev_grows_set D_TX_MON1); [wf_solve Hwf | exact He].
      + intros _. rewrite He. apply test_set_eq. wf_solve Hwf.
    - split; [apply tx_fixed_refl|]. split; [apply ev_grows_refl|].
      discriminate. }
  destruct F5 as (T5 & E5 & B5). destruct F6 as (T6 & E6 & B6).
  split; [|split; [|split]].
  - eapply tx_fixed_trans; [|exact T6]. eapply tx_fixed_trans; eassumption.
  - eapply ev_grows_trans; [|exact E6].
    eapply ev_grows_trans; [|exact E5].
    eapply ev_grows_trans; [|apply F4].
    eapply ev_grows_trans; [|apply F3].
    eapply ev_grows_trans; [apply F1 | apply F2].
  - intros H2. apply E6, B5, H2.
  - exact B6.
Qed.

(** Any run of monitor-status events from such a state. *)
Lemma mos_run_done evs : forall m,
  mon_tx_done m = true ->
  tx_fixed m (mos_run evs m) /\ ev_grows m (mos_run evs m).
Proof.
  induction evs as [|[rd v1] evs IH]; intros m Hd; cbn [mos_run].
  - split; [apply tx_fixed_refl | apply ev_grows_refl].
  - destruct (mos_blocks_done rd v1 m Hd) as (T1 & E1 & _).
    destruct (IH (mos_blocks rd v1 m)) as (T2 & E2).
    { rewrite (tx_fixed_done _ _ T1). exact Hd. }
    split; [eapply tx_fixed_trans | eapply ev_grows_trans]; eassumption.
Qed.

(** A transmit-ready event on channel 0 while bytes are left: the next
    byte goes to MOX0 and the cursor moves on. *)
Lemma mon_TX0_send v1 b m :
  mon_tx (hw (dch m)) = Some b -> mon_tx_done m = false ->
  trace (mon_TX0 v1 m) =
    trace m ++ [EvWriteReg ISAC_MOX0 (u8 (nth (Z.to_nat (mon_txp (hw (dch m)))) b 0))]
  /\ mon_txp (hw (dch (mon_TX0 v1 m))) = mon_txp (hw (dch m)) + 1
  /\ mon_txc (hw (dch (mon_TX0 v1 m))) = mon_txc (hw (dch m))
  /\ mon_tx (hw (dch (mon_TX0 v1 m))) = Some b
  /\ mocr (hw (dch (mon_TX0 v1 m))) = mocr (hw (dch m))
  /\ event (dch (mon_TX0 v1 m)) = event (dch m).
Proof.
  intros Et Hd. unfold mon_TX0. rewrite Et, Hd. cbn [negb andb orb].
  mred. rewrite Et. repeat split; reflexivity.
Qed.

Lemma mon_TX1_send v1 b m :
  mon_tx (hw (dch m)) = Some b -> mon_tx_done m = false ->
  trace (mon_TX1 v1 m) =
    trace m ++ [EvWriteReg ISAC_MOX1 (u8 (nth (Z.to_nat (mon_txp (hw (dch m)))) b 0))]
  /\ mon_txp (hw (dch (mon_TX1 v1 m))) = mon_txp (hw (dch m)) + 1
  /\ mon_txc (hw (dch (mon_TX1 v1 m))) = mon_txc (hw (dch m))
  /\ mon_tx (hw (dch (mon_TX1 v1 m))) = Some b
  /\ mocr (hw (dch (mon_TX1 v1 m))) = mocr (hw (dch m))
  /\ event (dch (mon_TX1 v1 m)) = event (dch m).
Proof.
  intros Et Hd. unfold mon_TX1. rewrite Et, Hd. cbn [negb andb orb].
  mred. rewrite Et. repeat split; reflexivity.
Qed.

Lemma mon_not_done m :
  0 < mon_txc (hw (dch m)) -> mon_txp (hw (dch m)) < mon_txc (hw (dch m)) ->
  mon_tx_done m = false.
Proof.
  intros Hc Hp. unfold mon_tx_done.
  apply andb_false_iff. right. rewrite Z.geb_leb. apply Z.leb_gt. lia.
Qed.

Lemma mon_is_done m :
  0 < mon_txc (hw (dch m)) -> mon_txc (hw (dch m)) <= mon_txp (hw (dch m)) ->
  mon_tx_done m = true.
Proof.
  intros Hc Hp. unfold mon_tx_done.
  apply andb_true_iff. split.
  - apply negb_true_iff, Z.eqb_neq. lia.
  - rewrite Z.geb_leb. apply Z.leb_le. lia.
Qed.

(** [k] transmit-ready events in a row on one channel, the target length
    not yet reached before any of them. *)
Lemma mon_send_run (ch1 : bool) rd k : forall m b,
  mon_tx (hw (dch m)) = Some b ->
  0 <= mon_txp (hw (dch m)) ->
  mon_txp (hw (dch m)) + Z.of_nat k <= mon_txc (hw (dch m)) ->
  let m' := mos_run (repeat (rd, if ch1 then 0x20 else 0x02) k) m in
  trace m' =
    trace m ++ mon_bytes (if ch1 then ISAC_MOX1 else ISAC_MOX0) b
                 (Z.to_nat (mon_txp (hw (dch m)))) k
  /\ mon_txp (hw (dch m')) = mon_txp (hw (dch m)) + Z.of_nat k
  /\ mon_txc (hw (dch m')) = mon_txc (hw (dch m))
  /\ mon_tx (hw (dch m')) = Some b
  /\ mocr (hw (dch m')) = mocr (hw (dch m))
  /\ event (dch m') = event (dch m).
Proof.
  induction k as [|k IH]; intros m b Et Hp Hk; cbn [repeat mos_run].
  - unfold mon_bytes. cbn [seq map]. rewrite app_nil_r, Z.add_0_r.
    repeat split; try reflexivity. exact Et.
  - assert (Hd : mon_tx_done m = false) by (apply mon_not_done; lia).
    assert (Hs :
      let m1 := mos_blocks rd (if ch1 then 0x20 else 0x02) m in
      trace m1 =
        trace m ++ [EvWriteReg (if ch1 then ISAC_MOX1 else ISAC_MOX0)
                      (u8 (nth (Z.to_nat (mon_txp (hw (dch m)))) b 0))]
      /\ mon_txp (hw (dch m1)) = mon_txp (hw (dch m)) + 1
      /\ mon_txc (hw (dch m1)) = mon_txc (hw (dch m))
      /\ mon_tx (hw (dch m1)) = Some b
      /\ mocr (hw (dch m1)) = mocr (hw (dch m))
      /\ event (dch m1) = event (dch m)).
    { destruct ch1.
      - change (mos_blocks rd 32 m) with (mon_TX1 32 m).
        now apply mon_TX1_send.
      - change (mos_blocks rd 2 m) with (mon_TX0 2 m).
        now apply mon_TX0_send. }
    destruct Hs as (Ht1 & Hp1 & Hc1 & Hb1 & Hm1 & He1).
    destruct (IH _ b Hb1) as (Ht & Hp' & Hc' & Hb' & Hm' & He');
      rewrite ?Hp1, ?Hc1; try lia.
    rewrite Ht, Hp', Hc', Hb', Hm', He', Ht1, Hp1, Hc1, Hm1, He1.
    repeat split; try lia.
    rewrite <- app_assoc. f_equal. unfold mon_bytes. cbn [seq map app].
    f_equal. f_equal. f_equal. lia.
Qed.

(** The receive blocks of an event leave the transmit side alone, and
    the transmit blocks run on the state they leave. *)
Lemma mon_rx_blocks_fixed rd v1 m : tx_fixed m (mon_rx_blocks rd v1 m).
Proof.
  unfold mon_rx_blocks. cbv zeta.
  eapply tx_fixed_trans;
    [|destruct (tst v1 64); [apply mon_RXEND1_tx_fixed | apply tx_fixed_refl]].
  eapply tx_fixed_trans;
    [|destruct (tst v1 4); [apply mon_RXEND0_tx_fixed | apply tx_fixed_refl]].
  eapply tx_fixed_trans;
    [|destruct (tst v1 128); [apply mon_RX1_tx_fixed | apply tx_fixed_refl]].
  destruct (tst v1 8); [apply mon_RX0_tx_fixed | apply tx_fixed_refl].
Qed.

Lemma mos_blocks_split rd v1 m :
  mos_blocks rd v1 m =
  let m5 := if tst v1 0x02 then mon_TX0 v1 (mon_rx_blocks rd v1 m)
            else mon_rx_blocks rd v1 m in
  if tst v1 0x20 then mon_TX1 v1 m5 else m5.
Proof. reflexivity. Qed.

Lemma mox_bytes_app b rs1 : forall p rs2,
  mox_bytes b p (rs1 ++ rs2) =
  mox_bytes b p rs1 ++ mox_bytes b (p + List.length rs1)%nat rs2.
Proof.
  induction rs1 as [|r rs1 IH]; intros p rs2; cbn [mox_bytes app List.length].
  - now rewrite Nat.add_0_r.
  - rewrite IH. do 3 f_equal. lia.
Qed.

Lemma mon_bytes_mox r b k : forall p,
  mon_bytes r b p k = mox_bytes b p (repeat r k).
Proof.
  unfold mon_bytes.
  induction k as [|k IH]; intros p; cbn [seq map repeat mox_bytes];
    [reflexivity | now rewrite IH].
Qed.

Lemma tx_sent_fixed b m m' :
  mon_tx (hw (dch m)) = Some b -> tx_fixed m m' -> tx_sent b [] m m'.
Proof.
  intros Eb (Hb & Hp & Hc & Hx). unfold tx_sent. cbv zeta.
  rewrite firstn_nil. cbn [mox_bytes List.length].
  rewrite app_nil_r, Z.add_0_r. repeat split; congruence.
Qed.

Lemma tx_sent_trans b rs1 rs2 m1 m2 m3 :
  0 <= mon_txp (hw (dch m1)) ->
  tx_sent b rs1 m1 m2 -> tx_sent b rs2 m2 m3 -> tx_sent b (rs1 ++ rs2) m1 m3.
Proof.
  unfold tx_sent. cbv zeta.
  intros Hp (Hx1 & Hp1 & Hc1 & Hb1) (Hx2 & Hp2 & Hc2 & Hb2).
  set (p := mon_txp (hw (dch m1))) in *.
  set (c := mon_txc (hw (dch m1))) in *.
  rewrite Hc1, Hp1 in Hx2, Hp2.
  pose proof (length_firstn (Z.to_nat (c - p)) rs1) as Hl.
  set (s1 := firstn (Z.to_nat (c - p)) rs1) in *.
  assert (Hr : Z.to_nat (c - (p + Z.of_nat (List.length s1))) =
               (Z.to_nat (c - p) - List.length rs1)%nat) by lia.
  rewrite Hr in Hx2, Hp2.
  rewrite firstn_app. fold s1.
  rewrite mox_bytes_app, length_app, Hx2, Hx1, Hp2, <- app_assoc.
  replace (Z.to_nat (p + Z.of_nat (List.length s1)))
    with (Z.to_nat p + List.length s1)%nat by lia.
  repeat split; try congruence. lia.
Qed.

(** One transmit block, a buffer attached and a target length declared. *)
Lemma mon_TX0_sent v1 b m :
  mon_tx (hw (dch m)) = Some b ->
  0 <= mon_txp (hw (dch m)) -> 0 < mon_txc (hw (dch m)) ->
  tx_sent b [ISAC_MOX0] m (mon_TX0 v1 m).
Proof.
  intros Eb Hp Hc.
  destruct (Z_lt_dec (mon_txp (hw (dch m))) (mon_txc (hw (dch m)))) as [Hlt|Hge].
  - destruct (mon_TX0_send v1 b m Eb (mon_not_done m Hc Hlt))
      as (Ht & Hp' & Hc' & Hb' & _).
    unfold tx_sent. cbv zeta.
    replace (Z.to_nat (mon_txc (hw (dch m)) - mon_txp (hw (dch m))))
      with (S (Z.to_nat (mon_txc (hw (dch m)) - mon_txp (hw (dch m)) - 1)))
      by lia.
    cbn [firstn]. rewrite firstn_nil. cbn [mox_bytes List.length].
    rewrite Ht, Hp', Hc', Hb'. unfold mox_writes. rewrite filter_app.
    repeat split; reflexivity.
  - assert (Hd : mon_tx_done m = true) by (apply mon_is_done; lia).
    destruct (mon_TX0_done v1 m Hd) as ((Hb' & Hp' & Hc' & Hx) & _).
    unfold tx_sent. cbv zeta.
    replace (Z.to_nat (mon_txc (hw (dch m)) - mon_txp (hw (dch m))))
      with O by lia.
    cbn [firstn mox_bytes List.length].
    rewrite app_nil_r, Z.add_0_r. repeat split; congruence.
Qed.

Lemma mon_TX1_sent v1 b m :
  mon_tx (hw (dch m)) = Some b ->
  0 <= mon_txp (hw (dch m)) -> 0 < mon_txc (hw (dch m)) ->
  tx_sent b [ISAC_MOX1] m (mon_TX1 v1 m).
Proof.
  intros Eb Hp Hc.
  destruct (Z_lt_dec (mon_txp (hw (dch m))) (mon_txc (hw (dch m)))) as [Hlt|Hge].
  - destruct (mon_TX1_send v1 b m Eb (mon_not_done m Hc Hlt))
      as (Ht & Hp' & Hc' & Hb' & _).
    unfold tx_sent. cbv zeta.
    replace (Z.to_nat (mon_txc (hw (dch m)) - mon_txp (hw (dch m))))
      with (S (Z.to_nat (mon_txc (hw (dch m)) - mon_txp (hw (dch m)) - 1)))
      by lia.
    cbn [firstn]. rewrite firstn_nil. cbn [mox_bytes List.length].
    rewrite Ht, Hp', Hc', Hb'. unfold mox_writes. rewrite filter_app.
    repeat split; reflexivity.
  - assert (Hd : mon_tx_done m = true) by (apply mon_is_done; lia).
    destruct (mon_TX1_done v1 m Hd) as ((Hb' & Hp' & Hc' & Hx) & _).
    unfold tx_sent. cbv zeta.
    replace (Z.to_nat (mon_txc (hw (dch m)) - mon_txp (hw (dch m))))
      with O by lia.
    cbn [firstn mox_bytes List.length].
    rewrite app_nil_r, Z.add_0_r. repeat split; congruence.
Qed.

Lemma tx_sent_state b rs m m' :
  0 <= mon_txp (hw (dch m)) -> 0 < mon_txc (hw (dch m)) ->
  tx_sent b rs m m' ->
  mon_tx (hw (dch m')) = Some b
  /\ 0 <= mon_txp (hw (dch m')) /\ 0 < mon_txc (hw (dch m')).
Proof.
  intros Hp Hc (_ & Hp' & Hc' & Hb'). rewrite Hp', Hc'.
  split; [exact Hb'|]. lia.
Qed.

(** One monitor-status event, with any MOSR value. *)
Lemma mos_blocks_sent rd v1 b m :
  mon_tx (hw (dch m)) = Some b ->
  0 <= mon_txp (hw (dch m)) -> 0 < mon_txc (hw (dch m)) ->
  tx_sent b (tx_ready_regs v1) m (mos_blocks rd v1 m).
Proof.
  intros Eb Hp Hc. rewrite mos_blocks_split. cbv zeta.
  pose proof (tx_sent_fixed b m _ Eb (mon_rx_blocks_fixed rd v1 m)) as S4.
  set (m4 := mon_rx_blocks rd v1 m) in *.
  destruct (tx_sent_state _ _ _ _ Hp Hc S4) as (Eb4 & Hp4 & Hc4).
  assert (S5 : tx_sent b (if tst v1 2 then [ISAC_MOX0] else []) m4
                 (if tst v1 2 then mon_TX0 v1 m4 else m4)).
  { destruct (tst v1 2);
      [now apply mon_TX0_sent | apply tx_sent_fixed, tx_fixed_refl; exact Eb4]. }
  set (m5 := if tst v1 2 then mon_TX0 v1 m4 else m4) in *.
  destruct (tx_sent_state _ _ _ _ Hp4 Hc4 S5) as (Eb5 & Hp5 & Hc5).
  assert (S6 : tx_sent b (if tst v1 32 then [ISAC_MOX1] else []) m5
                 (if tst v1 32 then mon_TX1 v1 m5 else m5)).
  { destruct (tst v1 32);
      [now apply mon_TX1_sent | apply tx_sent_fixed, tx_fixed_refl; exact Eb5]. }
  change (tx_ready_regs v1) with
    ([] ++ (if tst v1 2 then [ISAC_MOX0] else [])
        ++ (if tst v1 32 then [ISAC_MOX1] else [])).
  eapply tx_sent_trans; [exact Hp | exact S4 |].
  eapply tx_sent_trans; [exact Hp4 | exact S5 | exact S6].
Qed.

(** Any run of monitor-status events. *)
Lemma mos_run_sent evs : forall m b,
  mon_tx (hw (dch m)) = Some b ->
  0 <= mon_txp (hw (dch m)) -> 0 < mon_txc (hw (dch m)) ->
  tx_sent b (run_tx_regs evs) m (mos_run evs m).
Proof.
  induction evs as [|[rd v1] evs IH]; intros m b Eb Hp Hc;
    cbn [mos_run run_tx_regs flat_map snd].
  - apply tx_sent_fixed, tx_fixed_refl. exact Eb.
  - pose proof (mos_blocks_sent rd v1 b m Eb Hp Hc) as S1.
    destruct (tx_sent_state _ _ _ _ Hp Hc S1) as (Eb1 & Hp1 & Hc1).
    eapply tx_sent_trans; [exact Hp | exact S1 |].
    apply IH; assumption.
Qed.

(** One monitor-status event once the target length is reached: what its
    transmit blocks write after its receive blocks. *)
Lemma mos_blocks_complete rd v1 m :
  mon_tx_done m = true ->
  let m4 := mon_rx_blocks rd v1 m in
  let m' := mos_blocks rd v1 m in
  let c0 := mocr (hw (dch m4)) in
  let c1 := if tx_disables false v1 m then tx_disabled false c0 else c0 in
  trace m' =
    trace m4
    ++ (if tx_disables false v1 m then tx_disable_writes false c0 else [])
    ++ (if tx_disables true v1 m then tx_disable_writes true c1 else [])
  /\ mocr (hw (dch m')) =
       (if tx_disables true v1 m then tx_disabled true c1 else c1).
Proof.
  intros Hd m4 m' c0 c1. subst m'. rewrite mos_blocks_split. fold m4. cbv zeta.
  pose proof (mon_rx_blocks_fixed rd v1 m) as T4. fold m4 in T4.
  assert (D4 : mon_tx_done m4 = true)
    by (rewrite (tx_fixed_done _ _ T4); exact Hd).
  assert (B4 : mon_tx (hw (dch m4)) = mon_tx (hw (dch m))) by apply T4.
  assert (F5 : let m5 := if tst v1 2 then mon_TX0 v1 m4 else m4 in
               trace m5 =
                 trace m4 ++ (if tx_disables false v1 m
                              then tx_disable_writes false c0 else [])
               /\ mocr (hw (dch m5)) = c1 /\ tx_fixed m4 m5).
  { subst c1. unfold tx_disables. rewrite <- B4.
    destruct (tst v1 2) eqn:E2; cbn [andb]; cbv zeta.
    - destruct (mon_TX0_done v1 m4 D4) as (T & _ & Hdis & Hkeep).
      destruct (mon_tx (hw (dch m4))) eqn:Eb;
        [destruct (tst v1 8) eqn:E8|]; cbn [orb negb].
      + destruct Hkeep as (Ht & Hm); [discriminate | reflexivity |].
        rewrite Ht, Hm, app_nil_r. split; [|split]; [reflexivity | reflexivity | exact T].
      + destruct Hdis as (Ht & Hm); [now right|].
        rewrite Ht, Hm. split; [|split]; [reflexivity | reflexivity | exact T].
      + destruct Hdis as (Ht & Hm); [now left|].
        rewrite Ht, Hm. split; [|split]; [reflexivity | reflexivity | exact T].
    - rewrite app_nil_r.
      split; [|split]; [reflexivity | reflexivity | apply tx_fixed_refl]. }
  set (m5 := if tst v1 2 then mon_TX0 v1 m4 else m4) in *.
  destruct F5 as (Ht5 & Hm5 & T5).
  assert (D5 : mon_tx_done m5 = true)
    by (rewrite (tx_fixed_done _ _ T5); exact D4).
  assert (B5 : mon_tx (hw (dch m5)) = mon_tx (hw (dch m)))
    by (rewrite <- B4; apply T5).
  unfold tx_disables at 2 3. rewrite <- B5.
  destruct (tst v1 32) eqn:E32; cbn [andb].
  - destruct (mon_TX1_done v1 m5 D5) as (T & _ & Hdis & Hkeep).
    destruct (mon_tx (hw (dch m5))) eqn:Eb;
      [destruct (tst v1 128) eqn:E128|]; cbn [orb negb].
    + destruct Hkeep as (Ht & Hm); [discriminate | reflexivity |].
      rewrite Ht, Hm, Ht5, Hm5, app_nil_r. split; reflexivity.
    + destruct Hdis as (Ht & Hm); [now right|].
      rewrite Ht, Hm, Ht5, Hm5, <- app_assoc. split; reflexivity.
    + destruct Hdis as (Ht & Hm); [now left|].
      rewrite Ht, Hm, Ht5, Hm5, <- app_assoc. split; reflexivity.
  - rewrite Ht5, Hm5, app_nil_r. split; reflexivity.
Qed.

(** C9, as the code has it.  The two monitor sub-channels share one
    transmit buffer, cursor and target length N.  With a buffer attached,
    N > 0 and a cursor that is not negative, over any run of monitor
    events: each transmit-ready bit
    (0x02 for channel 0, 0x20 for channel 1, channel 0 first when an event
    carries both) handled while the cursor is below N writes the next byte
    of the buffer to its channel's transmit data register and advances the
    cursor, and one handled later writes no byte; so the bytes written to
    MOX0 and MOX1 are, in order, the buffer's bytes from the cursor up to
    at most the N-th, and the target is reached once N - cursor bits were
    handled.  In particular [k] events in a row that carry one channel's
    transmit-ready bit only write the next [k] bytes to that channel's
    register and do nothing else, so N such events from cursor 0 write
    exactly the N bytes.  Once the target is reached, an event first runs
    its receive blocks and then, for each transmit-ready bit it carries,
    sets the channel's transmit-complete bit in the deferred-event mask,
    and its transmit block disables the channel's transmit direction
    through the shadow control value - the channel's nibble cleared, then
    set to 0xa, both written to MOCR - when the event does not also carry
    the channel's receive-data bit (0x08, 0x80) or no transmit buffer is
    attached, and writes nothing and leaves the shadow value as the
    receive blocks left it when it does; no byte is written to MOX0 or
    MOX1.  The same holds of each transmit block on its own, in whatever
    state it is entered with the target reached.  Over any run of
    monitor events from then on no byte is written to MOX0 or MOX1, the
    cursor stays and the deferred events set stay set. *)
Theorem mon_tx_completion :
  (forall evs m b,
     mon_tx (hw (dch m)) = Some b ->
     0 <= mon_txp (hw (dch m)) ->
     0 < mon_txc (hw (dch m)) ->
     let p := mon_txp (hw (dch m)) in
     let n := mon_txc (hw (dch m)) in
     let m' := mos_run evs m in
     let sent := firstn (Z.to_nat (n - p)) (run_tx_regs evs) in
     mox_writes (trace m') = mox_writes (trace m) ++ mox_bytes b (Z.to_nat p) sent
     /\ mon_txp (hw (dch m')) = p + Z.of_nat (List.length sent)
     /\ mon_txp (hw (dch m')) <= Z.max p n
     /\ (n - p <= Z.of_nat (List.length (run_tx_regs evs)) ->
         mon_tx_done m' = true))
  /\
  (forall (ch1 : bool) rd (k : nat) m b,
     mon_tx (hw (dch m)) = Some b ->
     0 <= mon_txp (hw (dch m)) ->
     0 < mon_txc (hw (dch m)) ->
     mon_txp (hw (dch m)) + Z.of_nat k <= mon_txc (hw (dch m)) ->
     let m' := mos_run (repeat (rd, if ch1 then 0x20 else 0x02) k) m in
     trace m' =
       trace m ++ mon_bytes (if ch1 then ISAC_MOX1 else ISAC_MOX0) b
                    (Z.to_nat (mon_txp (hw (dch m)))) k
     /\ mon_txp (hw (dch m')) = mon_txp (hw (dch m)) + Z.of_nat k
     /\ (mon_txp (hw (dch m)) + Z.of_nat k = mon_txc (hw (dch m)) ->
         mon_tx_done m' = true))
  /\
  (forall rd v1 m, mon_tx_done m = true ->
     let m4 := mon_rx_blocks rd v1 m in
     let m' := mos_blocks rd v1 m in
     let c0 := mocr (hw (dch m4)) in
     let c1 := if tx_disables false v1 m then tx_disabled false c0 else c0 in
     trace m' =
       trace m4
       ++ (if tx_disables false v1 m then tx_disable_writes false c0 else [])
       ++ (if tx_disables true v1 m then tx_disable_writes true c1 else [])
     /\ mocr (hw (dch m')) =
          (if tx_disables true v1 m then tx_disabled true c1 else c1)
     /\ (tst v1 0x02 = true -> test_bit D_TX_MON0 (event (dch m')) = true)
     /\ (tst v1 0x20 = true -> test_bit D_TX_MON1 (event (dch m')) = true)
     /\ mox_writes (trace m') = mox_writes (trace m)
     /\ mon_txp (hw (dch m')) = mon_txp (hw (dch m)))
  /\
  (forall v1 m, mon_tx_done m = true ->
     mox_writes (trace (mon_TX0 v1 m)) = mox_writes (trace m)
     /\ test_bit D_TX_MON0 (event (dch (mon_TX0 v1 m))) = true
     /\ (mon_tx (hw (dch m)) = None \/ tst v1 0x08 = false ->
           trace (mon_TX0 v1 m) =
             trace m
             ++ [EvWriteReg ISAC_MOCR (u8 (Z.land (mocr (hw (dch m))) 0xf0));
                 EvWriteReg ISAC_MOCR
                   (u8 (Z.lor (u8 (Z.land (mocr (hw (dch m))) 0xf0)) 0x0a))]
           /\ mocr (hw (dch (mon_TX0 v1 m))) =
                u8 (Z.lor (u8 (Z.land (mocr (hw (dch m))) 0xf0)) 0x0a))
     /\ (mon_tx (hw (dch m)) <> None -> tst v1 0x08 = true ->
           trace (mon_TX0 v1 m) = trace m
           /\ mocr (hw (dch (mon_TX0 v1 m))) = mocr (hw (dch m))))
  /\
  (forall v1 m, mon_tx_done m = true ->
     mox_writes (trace (mon_TX1 v1 m)) = mox_writes (trace m)
     /\ test_bit D_TX_MON1 (event (dch (mon_TX1 v1 m))) = true
     /\ (mon_tx (hw (dch m)) = None \/ tst v1 0x80 = false ->
           trace (mon_TX1 v1 m) =
             trace m
             ++ [EvWriteReg ISAC_MOCR (u8 (Z.land (mocr (hw (dch m))) 0x0f));
                 EvWriteReg ISAC_MOCR
                   (u8 (Z.lor (u8 (Z.land (mocr (hw (dch m))) 0x0f)) 0xa0))]
           /\ mocr (hw (dch (mon_TX1 v1 m))) =
                u8 (Z.lor (u8 (Z.land (mocr (hw (dch m))) 0x0f)) 0xa0))
     /\ (mon_tx (hw (dch m)) <> None -> tst v1 0x80 = true ->
           trace (mon_TX1 v1 m) = trace m
           /\ mocr (hw (dch (mon_TX1 v1 m))) = mocr (hw (dch m))))
  /\
  (forall evs m, mon_tx_done m = true ->
     mox_writes (trace (mos_run evs m)) = mox_writes (trace m)
     /\ mon_txp (hw (dch (mos_run evs m))) = mon_txp (hw (dch m))
     /\ mon_tx_done (mos_run evs m) = true
     /\ (forall b, test_bit b (event (dch m)) = true ->
                   test_bit b (event (dch (mos_run evs m))) = true)).
Proof.
  split; [|split; [|split; [|split; [|split]]]].
  - intros evs m b Eb Hp Hc p n m' sent.
    destruct (mos_run_sent evs m b Eb Hp Hc) as (Hx & Hp' & Hc' & Hb').
    fold p n m' sent in Hx, Hp', Hc'.
    pose proof (length_firstn (Z.to_nat (n - p)) (run_tx_regs evs)) as Hl.
    fold sent in Hl.
    split; [exact Hx|]. split; [exact Hp'|]. split; [lia|].
    intros Hk. apply mon_is_done; rewrite ?Hp', ?Hc'; fold n; lia.
  - intros ch1 rd k m b Et Hp Hc Hk m'.
    destruct (mon_send_run ch1 rd k m b Et Hp Hk)
      as (Ht & Hp' & Hc' & _).
    fold m' in Ht, Hp', Hc'.
    split; [exact Ht|]. split; [exact Hp'|].
    intros He. apply mon_is_done; rewrite ?Hp', ?Hc'; lia.
  - intros rd v1 m Hd m4 m' c0 c1.
    destruct (mos_blocks_complete rd v1 m Hd) as (Ht & Hm).
    destruct (mos_blocks_done rd v1 m Hd) as ((_ & Hp & _ & Hx) & _ & H0 & H1).
    repeat split; assumption.
  - intros v1 m Hd.
    destruct (mon_TX0_done v1 m Hd) as ((_ & _ & _ & Hx) & He & Hdis & Hkeep).
    split; [exact Hx|]. split; [|split; assumption].
    rewrite He. apply test_set_eq. wf_solve Hwf.
  - intros v1 m Hd.
    destruct (mon_TX1_done v1 m Hd) as ((_ & _ & _ & Hx) & He & Hdis & Hkeep).
    split; [exact Hx|]. split; [|split; assumption].
    rewrite He. apply test_set_eq. wf_solve Hwf.
  - intros evs m Hd.
    destruct (mos_run_done evs m Hd) as (T & E).
    pose proof (tx_fixed_done _ _ T) as Hd'.
    destruct T as (_ & Hp & _ & Hx).
    split; [exact Hx|]. split; [exact Hp|]. split; [congruence | exact E].
Qed.

(** On channel 0 the ready bit 0x04 is set in MOCR, and MOCR written, with
    the first byte of a buffer only. *)
Lemma mon_RX0_ready_first_byte rd b m :
  mon_rx (hw (dch m)) = Some b ->
  mon_rxp (hw (dch m)) < MAX_MON_FRAME ->
  mon_rxp (hw (dch (mon_RX0 rd m))) = mon_rxp (hw (dch m)) + 1
  /\ mon_rx (hw (dch (mon_RX0 rd m))) =
       Some (array_set b (Z.to_nat (mon_rxp (hw (dch m)))) (u8 (rd ISAC_MOR0)))
  /\ trace (mon_RX0 rd m) =
       trace m ++ [EvReadReg ISAC_MOR0]
       ++ (if mon_rxp (hw (dch m)) =? 0
           then [EvWriteReg ISAC_MOCR (u8 (Z.lor (mocr (hw (dch m))) 0x04))]
           else []).
Proof.
  intros Eb Hp. unfold mon_RX0. mred. rewrite Eb. mred.
  destruct (mon_rxp (hw (dch m)) >=? MAX_MON_FRAME) eqn:E; b2p; [lia|].
  mred.
  destruct (mon_rxp (hw (dch m)) + 1 =? 1) eqn:E1;
    destruct (mon_rxp (hw (dch m)) =? 0) eqn:E0; b2p; try lia;
    mred; tr_norm; rewrite ?u8_idem; repeat split; reflexivity.
Qed.

(** On channel 1 the ready bit 0x40 is set, and MOCR written, with every
    byte. *)
Lemma mon_RX1_ready_every_byte rd b m :
  mon_rx (hw (dch m)) = Some b ->
  mon_rxp (hw (dch m)) < MAX_MON_FRAME ->
  mon_rxp (hw (dch (mon_RX1 rd m))) = mon_rxp (hw (dch m)) + 1
  /\ mon_rx (hw (dch (mon_RX1 rd m))) =
       Some (array_set b (Z.to_nat (mon_rxp (hw (dch m)))) (u8 (rd ISAC_MOR1)))
  /\ trace (mon_RX1 rd m) =
       trace m ++ [EvReadReg ISAC_MOR1;
                   EvWriteReg ISAC_MOCR (u8 (Z.lor (mocr (hw (dch m))) 0x40))].
Proof.
  intros Eb Hp. unfold mon_RX1. mred. rewrite Eb. mred.
  destruct (mon_rxp (hw (dch m)) >=? MAX_MON_FRAME) eqn:E; b2p; [lia|].
  mred. tr_norm. rewrite ?u8_idem. repeat split; reflexivity.
Qed.

End Monitor.

(** C9 as stated fails: the target length of 1 is reached and a
    transmit-ready event for channel 0 arrives together with that
    channel's receive-data bit (MOSR = 0x0a).  The transmit-complete event
    is scheduled, but MOCR is neither changed nor written: the transmit
    direction is not disabled. *)
Lemma mon_TX0_done_hint_keeps_transmit :
  let m := on_isac (fun _ => {| mon_tx := Some [0x55];
                                mon_rx := Some (repeat 0 32);
                                mon_txp := 1; mon_txc := 1;
                                mon_rxp := 1; mocr := 0xbb |}) machine0 in
  let m' := mos_blocks (h := sample_h) (reg_is ISAC_MOR0 0x11) 0x0a m in
  mon_tx_done m = true
  /\ tst 0x0a 0x02 = true
  /\ mocr (hw (dch m')) = mocr (hw (dch m))
  /\ mocr_writes (trace m') = []
  /\ test_bit (@D_TX_MON0 sample_h) (event (dch m')) = true.
Proof.
  vm_compute. repeat split; reflexivity.
Qed.

(** A second transmit-ready event after completion on channel 1, the
    bottom half having run in between: the ARCOFI state machine is told
    of the end of transmission twice. *)
Lemma mon_TX1_complete_twice :
  let m := on_dch (set_DFlags (Z.shiftl 1 (@HW_ARCOFI sample_h)))
             (on_isac (fun _ => {| mon_tx := Some [0x55]; mon_rx := None;
                                   mon_txp := 1; mon_txc := 1;
                                   mon_rxp := 0; mocr := 0xbb |}) machine0) in
  let step m := isac_hwbh (h := sample_h)
                  (mos_blocks (h := sample_h) (reg_is ISAC_MOSR 0) 0x20 m) in
  filter (fun e => match e with EvArcofiFsm _ => true | _ => false end)
    (trace (step (step m))) =
  [EvArcofiFsm ARCOFI_TX_END; EvArcofiFsm ARCOFI_TX_END].
Proof.
  vm_compute. reflexivity.
Qed.

(** The amended statement on a two-byte transfer: two transmit-ready
    events for channel 0 write the two bytes to MOX0; a third disables
    the transmit direction and schedules the completion event; a fourth
    writes no byte either.  Two events that carry both transmit-ready
    bits (MOSR = 0x22) put the first byte on MOX0 and the second on MOX1
    with the first event and no byte with the second.  After completion
    an event that also carries channel 0's receive-data bit (MOSR = 0x0a)
    writes to MOCR what its receive block writes (the ready bit with the
    first received byte, 0xbb becoming 0xbf) and nothing else, and
    schedules the completion event. *)
Lemma mon_tx_completion_witness :
  header_wf (h := sample_h) = true
  /\ (let m := on_isac (fun _ => {| mon_tx := Some [0x55; 0x66]; mon_rx := None;
                                    mon_txp := 0; mon_txc := 2;
                                    mon_rxp := 0; mocr := 0xbb |}) machine0 in
      let rd := reg_is ISAC_MOSR 0 in
      let m2 := mos_run (h := sample_h) (repeat (rd, 0x02) 2) m in
      let rx := reg_is ISAC_MOR0 0x11 in
      trace m2 = [EvWriteReg ISAC_MOX0 0x55; EvWriteReg ISAC_MOX0 0x66]
      /\ mon_tx_done m2 = true
      /\ trace (mon_TX0 (h := sample_h) 0x02 m2) =
           trace m2 ++ [EvWriteReg ISAC_MOCR 0xb0; EvWriteReg ISAC_MOCR 0xba]
      /\ test_bit 6 (event (dch (mon_TX0 (h := sample_h) 0x02 m2))) = true
      /\ mox_writes (trace (mos_run (h := sample_h) [(rd, 0x02); (rd, 0x02)] m2)) =
           mox_writes (trace m2)
      /\ mox_writes (trace (mos_run (h := sample_h) [(rd, 0x22); (rd, 0x22)] m)) =
           [EvWriteReg ISAC_MOX0 0x55; EvWriteReg ISAC_MOX1 0x66]
      /\ mon_tx_done (mos_run (h := sample_h) [(rd, 0x22); (rd, 0x22)] m) = true
      /\ trace (mos_blocks (h := sample_h) rx 0x0a m2) =
           trace m2 ++ [EvReadReg ISAC_MOR0; EvWriteReg ISAC_MOCR 0xbf]
      /\ trace (mos_blocks (h := sample_h) rx 0x0a m2) =
           trace (mon_rx_blocks (h := sample_h) rx 0x0a m2)
      /\ test_bit 6 (event (dch (mos_blocks (h := sample_h) rx 0x0a m2))) = true).
Proof.
  split; [reflexivity|]. intros m rd m2 rx.
  destruct (mon_tx_completion (h := sample_h) eq_refl)
    as (HG & HS & HE & HA & _ & HR).
  assert (Hdone : mon_tx_done m2 = true).
  { refine (proj2 (proj2 (HS false rd 2%nat m _ eq_refl _ _ _)) eq_refl); zcomp. }
  split.
  { refine (proj1 (HS false rd 2%nat m _ eq_refl _ _ _)); zcomp. }
  split; [exact Hdone|].
  destruct (HA 0x02 m2 Hdone) as (_ & He & Hdis & _).
  split; [exact (proj1 (Hdis (or_intror eq_refl)))|].
  split; [exact He|].
  split; [exact (proj1 (HR [(rd, 0x02); (rd, 0x02)] m2 Hdone))|].
  assert (HG' := HG [(rd, 0x22); (rd, 0x22)] m _ eq_refl).
  destruct HG' as (Hx & _ & _ & Hd2); [zcomp | zcomp |].
  split; [exact Hx|].
  split; [apply Hd2; vm_compute; discriminate|].
  destruct (HE rx 0x0a m2 Hdone) as (Ht & _ & He0 & _).
  split; [etransitivity; [exact Ht | vm_compute; reflexivity]|].
  split; [etransitivity; [exact Ht | vm_compute; reflexivity]|].
  exact (He0 eq_refl).
Defined.

(** C10 on channel 1: a second byte arrives for a buffer that already
    holds one (mon_rxp = 1, the ready bit 0x40 already set in the shadow
    value).  MOCR is written again with the ready bit; on channel 0 the
    same situation produces no MOCR write. *)
Lemma mon_RX1_second_byte_rewrites_ready :
  let m := on_isac (fun _ => {| mon_tx := None;
                                mon_rx := Some (0x11 :: repeat 0 31);
                                mon_txp := 0; mon_txc := 0;
                                mon_rxp := 1; mocr := 0xea |}) machine0 in
  trace (mon_RX1 (h := sample_h) (reg_is ISAC_MOR1 0x22) m) =
    [EvReadReg ISAC_MOR1; EvWriteReg ISAC_MOCR 0xea]
  /\ mon_rxp (hw (dch (mon_RX1 (h := sample_h) (reg_is ISAC_MOR1 0x22) m))) = 2
  /\ trace (mon_RX0 (h := sample_h) (reg_is ISAC_MOR0 0x22) m) =
       [EvReadReg ISAC_MOR0].
Proof.
  vm_compute. repeat split; reflexivity.
Qed.

(** ** The dispatcher

    A status byte with a single bit set runs the one block of that bit,
    after the entry log line; an extended interrupt with only the underrun
    bit in EXIR runs the XDU block. *)

Section Dispatcher.
Context {h : isac_h}.

Lemma ISAC_interrupt_RME rd m :
  ISAC_interrupt rd 0x80 m = irq_RME rd (entry_log 0x80 m).
Proof. reflexivity. Qed.

Lemma ISAC_interrupt_RPF rd m :
  ISAC_interrupt rd 0x40 m = isac_empty_fifo 32 (entry_log 0x40 m).
Proof. reflexivity. Qed.

Lemma ISAC_interrupt_XPR rd m :
  ISAC_interrupt rd 0x10 m = irq_XPR (entry_log 0x10 m).
Proof. reflexivity. Qed.

Lemma ISAC_interrupt_CISQ rd m :
  ISAC_interrupt rd 0x04 m = irq_CISQ rd (entry_log 0x04 m).
Proof. reflexivity. Qed.

Lemma ISAC_interrupt_EXI rd m :
  ISAC_interrupt rd 0x01 m = irq_EXI rd (entry_log 0x01 m).
Proof. reflexivity. Qed.

Lemma irq_EXI_XDU rd m :
  u8 (rd ISAC_EXIR) = 0x40 ->
  irq_EXI rd m =
  exi_XDU (log_if (deb L1_DEB_WARN m) "ISAC EXIR %02x" [0x40]
             (emit (EvReadReg ISAC_EXIR) m)).
Proof.
  intros He. unfold irq_EXI, read_reg. rewrite He. reflexivity.
Qed.

Lemma irq_EXI_MOS rd m :
  u8 (rd ISAC_EXIR) = 0x04 ->
  irq_EXI rd m =
  exi_MOS rd (log_if (deb L1_DEB_WARN m) "ISAC EXIR %02x" [0x04]
                (emit (EvReadReg ISAC_EXIR) m)).
Proof.
  intros He. unfold irq_EXI, read_reg. rewrite He. reflexivity.
Qed.

End Dispatcher.

(** ** Steps of the machine seen through its fields

    The channel context and the trace after each primitive step, as
    rewriting rules. *)

Section Steps.
Context {h : isac_h}.

Lemma dch_emit e m : dch (emit e m) = dch m.
Proof. reflexivity. Qed.
Lemma dch_log_if c f a m : dch (log_if c f a m) = dch m.
Proof. reflexivity. Qed.
Lemma dch_debugprint f a m : dch (debugprint f a m) = dch m.
Proof. reflexivity. Qed.
Lemma dch_printk f a m : dch (printk f a m) = dch m.
Proof. reflexivity. Qed.
Lemma dch_lock m : dch (lock m) = dch m.
Proof. reflexivity. Qed.
Lemma dch_unlock m : dch (unlock m) = dch m.
Proof. reflexivity. Qed.
Lemma dch_write_reg r v m : dch (write_reg r v m) = dch m.
Proof. reflexivity. Qed.
Lemma dch_read_reg rd r m : dch (snd (read_reg rd r m)) = dch m.
Proof. reflexivity. Qed.
Lemma dch_ph_command c m : dch (ph_command c m) = dch m.
Proof. reflexivity. Qed.
Lemma dch_dev_kfree_skb s m : dch (dev_kfree_skb s m) = dch m.
Proof. reflexivity. Qed.
Lemma dch_if_newhead a b s m : dch (snd (if_newhead a b s m)) = dch m.
Proof. reflexivity. Qed.
Lemma dch_on_dch f m : dch (on_dch f m) = f (dch m).
Proof. reflexivity. Qed.

Lemma trace_emit e m : trace (emit e m) = trace m ++ [e].
Proof. reflexivity. Qed.
Lemma trace_log_if c f a m : trace (log_if c f a m) = trace m.
Proof. reflexivity. Qed.
Lemma trace_debugprint f a m : trace (debugprint f a m) = trace m.
Proof. reflexivity. Qed.
Lemma trace_printk f a m : trace (printk f a m) = trace m.
Proof. reflexivity. Qed.
Lemma trace_lock m : trace (lock m) = trace m ++ [EvLock].
Proof. reflexivity. Qed.
Lemma trace_unlock m : trace (unlock m) = trace m ++ [EvUnlock].
Proof. reflexivity. Qed.
Lemma trace_write_reg r v m :
  trace (write_reg r v m) = trace m ++ [EvWriteReg r (u8 v)].
Proof. reflexivity. Qed.
Lemma trace_read_reg rd r m :
  trace (snd (read_reg rd r m)) = trace m ++ [EvReadReg r].
Proof. reflexivity. Qed.
Lemma trace_ph_command c m :
  trace (ph_command c m) = trace m ++ [EvWriteReg ISAC_CIX0 (cix0_value c)].
Proof. reflexivity. Qed.
Lemma trace_dev_kfree_skb s m :
  trace (dev_kfree_skb s m) = trace m ++ [EvKfreeSkb s].
Proof. reflexivity. Qed.
Lemma trace_if_newhead a b s m :
  trace (snd (if_newhead a b s m)) = trace m ++ [EvIfNewhead a b s].
Proof. reflexivity. Qed.
Lemma trace_on_dch f m : trace (on_dch f m) = trace m.
Proof. reflexivity. Qed.
Lemma trace_flag_set nr m : trace (snd (test_and_set_flag nr m)) = trace m.
Proof. reflexivity. Qed.
Lemma trace_flag_clear nr m : trace (snd (test_and_clear_flag nr m)) = trace m.
Proof. reflexivity. Qed.
Lemma dchannel_sched_event_trace ev m :
  trace (dchannel_sched_event ev m) = trace m.
Proof. reflexivity. Qed.

End Steps.

(** The channel context, respectively the trace, after a run of primitive
    steps. *)
Ltac dch_steps :=
  repeat progress rewrite ?dch_emit, ?dch_log_if, ?dch_debugprint, ?dch_printk, ?dch_lock,
    ?dch_unlock, ?dch_write_reg, ?dch_read_reg, ?dch_ph_command,
    ?dch_dev_kfree_skb, ?dch_if_newhead, ?dch_on_dch.

Ltac trace_steps :=
  repeat progress rewrite ?trace_emit, ?trace_log_if, ?trace_debugprint, ?trace_printk,
    ?trace_lock, ?trace_unlock, ?trace_write_reg, ?trace_read_reg,
    ?trace_ph_command, ?trace_dev_kfree_skb, ?trace_if_newhead,
    ?trace_on_dch, ?trace_flag_set, ?trace_flag_clear,
    ?dchannel_sched_event_trace.

(** ** What the interrupt handler never does *)

Lemma appends_refl P m : appends P m m.
Proof. exists []. now rewrite app_nil_r. Qed.

Lemma appends_trans P m1 m2 m3 :
  appends P m1 m2 -> appends P m2 m3 -> appends P m1 m3.
Proof.
  intros (l1 & H1 & P1) (l2 & H2 & P2). exists (l1 ++ l2).
  rewrite H2, H1, app_assoc, forallb_app, P1, P2. now split.
Qed.

Lemma appends_list (P : effect -> bool) m m' l :
  trace m' = trace m ++ l -> forallb P l = true -> appends P m m'.
Proof. intros H1 H2. now exists l. Qed.

Lemma appends_same (P : effect -> bool) m m' :
  trace m' = trace m -> appends P m m'.
Proof. intros H1. exists []. now rewrite app_nil_r. Qed.

(** A block given by its definition: run it symbolically along every
    branch and read the added effects off the trace. *)
Ltac appends_leaf :=
  unfold appends;
  repeat (mred; first [case_if | case_match]); mred; tr_norm;
  first [ exists []; rewrite app_nil_r; split; reflexivity
        | eexists; split; [reflexivity | reflexivity] ].

Section IrqEffects.
Context {h : isac_h}.

Lemma drain_effects_irq count m : forallb irq_effect (drain_effects count m) = true.
Proof.
  unfold drain_effects. destruct (rx_buffer_for_drain m); [case_if|]; reflexivity.
Qed.

Lemma fill_fifo_effects_irq m : forallb irq_effect (fill_fifo_effects m) = true.
Proof.
  unfold fill_fifo_effects. case_if; [reflexivity|].
  destruct (test_flag FLG_DBUSY_TIMER m); reflexivity.
Qed.

Lemma isac_empty_fifo_irq count m : appends irq_effect m (isac_empty_fifo count m).
Proof.
  eapply appends_list; [apply isac_empty_fifo_trace | apply drain_effects_irq].
Qed.

Lemma isac_fill_fifo_irq m : appends irq_effect m (isac_fill_fifo m).
Proof.
  eapply appends_list; [apply isac_fill_fifo_trace | apply fill_fifo_effects_irq].
Qed.

Lemma stop_dbusy_irq m : appends irq_effect m (stop_dbusy m).
Proof.
  eapply appends_list; [apply stop_dbusy_trace|].
  destruct (test_flag FLG_DBUSY_TIMER m); reflexivity.
Qed.

Lemma irq_RME_irq rd m : appends irq_effect m (irq_RME rd m).
Proof.
  unfold irq_RME. mred.
  destruct (negb (Z.land (u8 (rd ISAC_RSTA)) 112 =? 32)).
  - appends_leaf.
  - mred. set (m1 := isac_empty_fifo _ _).
    apply (appends_trans _ _ (emit (EvReadReg ISAC_RBCL) (emit (EvReadReg ISAC_RSTA) m))).
    + appends_leaf.
    + apply (appends_trans _ _ m1); [apply isac_empty_fifo_irq|].
      destruct (rx_skb (dch m1)); appends_leaf.
Qed.

End IrqEffects.

(** The handler is a sequence of blocks, each run or skipped: a preorder
    on machines that every block respects is respected by the handler. *)
Section Blocks.
Context {h : isac_h}.
Variable R : machine -> machine -> Prop.
Hypothesis R_refl : forall m, R m m.
Hypothesis R_trans : forall a b c, R a b -> R b c -> R a c.
Hypothesis R_log : forall c f a m, R m (log_if c f a m).
Hypothesis R_read : forall r m, R m (emit (EvReadReg r) m).

Lemma R_opt (c : bool) (f : machine -> machine) m :
  (forall m, R m (f m)) -> R m (if c then f m else m).
Proof. intros Hf. destruct c; [apply Hf | apply R_refl]. Qed.

Section Mos.
Hypothesis R_RX0 : forall rd m, R m (mon_RX0 rd m).
Hypothesis R_RX1 : forall rd m, R m (mon_RX1 rd m).
Hypothesis R_RXEND0 : forall m, R m (mon_RXEND0 m).
Hypothesis R_RXEND1 : forall m, R m (mon_RXEND1 m).
Hypothesis R_TX0 : forall v1 m, R m (mon_TX0 v1 m).
Hypothesis R_TX1 : forall v1 m, R m (mon_TX1 v1 m).

Lemma mos_blocks_steps rd v1 m : R m (mos_blocks rd v1 m).
Proof.
  unfold mos_blocks. cbv zeta.
  do 5 (eapply R_trans; [|apply R_opt; auto]).
  apply R_opt; auto.
Qed.

Lemma exi_MOS_steps rd m : R m (exi_MOS rd m).
Proof.
  unfold exi_MOS. cbn [read_reg]. cbv zeta.
  eapply R_trans; [|apply mos_blocks_steps].
  eapply R_trans; [apply R_read | apply R_log].
Qed.

Hypothesis R_XDU : forall m, R m (exi_XDU m).

Lemma irq_EXI_steps rd m : R m (irq_EXI rd m).
Proof.
  unfold irq_EXI. cbn [read_reg]. cbv zeta.
  eapply R_trans; [|apply R_opt; apply exi_MOS_steps].
  eapply R_trans; [|apply R_opt; apply R_XDU].
  eapply R_trans; [|apply (R_opt _ (fun m => printk _ _ (debugprint _ _ m)))].
  - eapply R_trans; [apply R_read | apply R_log].
  - intros m0. eapply R_trans; apply R_log.
Qed.

End Mos.

Lemma R_opt_if (c : bool) (f : machine -> machine) m :
  (c = true -> forall m, R m (f m)) -> R m (if c then f m else m).
Proof. intros Hf. destruct c; [now apply Hf | apply R_refl]. Qed.

(** The handler itself, for a given status byte: only the blocks whose
    bit is set have to respect the preorder. *)
Variable val : Z.
Hypothesis R_RME : tst val 0x80 = true -> forall rd m, R m (irq_RME rd m).
Hypothesis R_RPF : tst val 0x40 = true -> forall m, R m (isac_empty_fifo 32 m).
Hypothesis R_XPR : tst val 0x10 = true -> forall m, R m (irq_XPR m).
Hypothesis R_CISQ : tst val 0x04 = true -> forall rd m, R m (irq_CISQ rd m).
Hypothesis R_EXI : tst val 0x01 = true -> forall rd m, R m (irq_EXI rd m).

Lemma ISAC_interrupt_steps rd m : R m (ISAC_interrupt rd val m).
Proof.
  unfold ISAC_interrupt. cbv zeta.
  eapply R_trans; [|apply R_opt_if; intros Hb; apply (R_EXI Hb)].
  eapply R_trans; [|apply (R_opt _ (fun m => log_if _ _ _ m)); intros; apply R_log].
  eapply R_trans; [|apply R_opt_if; intros Hb; apply (R_CISQ Hb)].
  eapply R_trans; [|apply R_opt_if; intros Hb; apply (R_XPR Hb)].
  eapply R_trans; [|apply (R_opt _ (fun m => log_if _ _ _ m)); intros; apply R_log].
  eapply R_trans; [|apply R_opt_if; intros Hb; apply (R_RPF Hb)].
  eapply R_trans; [|apply R_opt_if; intros Hb; apply (R_RME Hb)].
  apply R_log.
Qed.

End Blocks.

Section IrqEffects2.
Context {h : isac_h}.

Lemma load_tx_buf_irq s m : appends irq_effect m (load_tx_buf s m).
Proof. apply appends_same. reflexivity. Qed.

Lemma promote_irq s m :
  appends irq_effect m
    (dchannel_sched_event D_XMTBUFREADY (isac_fill_fifo (load_tx_buf s m))).
Proof.
  apply (appends_trans _ _ (isac_fill_fifo (load_tx_buf s m))).
  - apply (appends_trans _ _ (load_tx_buf s m));
      [apply load_tx_buf_irq | apply isac_fill_fifo_irq].
  - apply appends_same. apply dchannel_sched_event_trace.
Qed.

Lemma irq_XPR_irq m : appends irq_effect m (irq_XPR m).
Proof.
  unfold irq_XPR.
  apply (appends_trans _ _ (stop_dbusy m)); [apply stop_dbusy_irq|].
  generalize (stop_dbusy m). intros m1.
  case_if; [apply isac_fill_fifo_irq|].
  cbn [test_and_clear_flag].
  case_if; [|appends_leaf].
  case_match; [|appends_leaf].
  eapply appends_trans; [|apply promote_irq]. appends_leaf.
Qed.

Lemma irq_CISQ_irq rd m : appends irq_effect m (irq_CISQ rd m).
Proof. unfold irq_CISQ. appends_leaf. Qed.

Lemma exi_XDU_irq m : appends irq_effect m (exi_XDU m).
Proof.
  unfold exi_XDU.
  match goal with |- context [stop_dbusy ?x] =>
    apply (appends_trans _ _ x); [appends_leaf|];
    apply (appends_trans _ _ (stop_dbusy x)); [apply stop_dbusy_irq|];
    generalize (stop_dbusy x)
  end.
  intros m1. cbv zeta.
  case_if.
  - eapply appends_trans; [|apply isac_fill_fifo_irq]. appends_leaf.
  - cbn [test_and_clear_flag].
    case_if; [|appends_leaf].
    case_match; [|appends_leaf].
    eapply appends_trans; [|apply promote_irq]. appends_leaf.
Qed.

Lemma mon_RX0_irq rd m : appends irq_effect m (mon_RX0 rd m).
Proof.
  unfold mon_RX0. mred.
  destruct (mon_rx (hw (dch m))); mred;
    [|destruct (alloc_ok m (alloc_pos m)); mred]; appends_leaf.
Qed.

Lemma mon_RX1_irq rd m : appends irq_effect m (mon_RX1 rd m).
Proof.
  unfold mon_RX1. mred.
  destruct (mon_rx (hw (dch m))); mred;
    [|destruct (alloc_ok m (alloc_pos m)); mred]; appends_leaf.
Qed.

Lemma mon_RXEND0_irq m : appends irq_effect m (mon_RXEND0 m).
Proof. unfold mon_RXEND0. appends_leaf. Qed.

Lemma mon_RXEND1_irq m : appends irq_effect m (mon_RXEND1 m).
Proof. unfold mon_RXEND1. appends_leaf. Qed.

Lemma mon_TX0_irq v1 m : appends irq_effect m (mon_TX0 v1 m).
Proof. unfold mon_TX0, mon_tx_done. appends_leaf. Qed.

Lemma mon_TX1_irq v1 m : appends irq_effect m (mon_TX1 v1 m).
Proof. unfold mon_TX1, mon_tx_done. appends_leaf. Qed.

(** X1: whatever the status byte and the registers hold, the interrupt
    handler only adds register and FIFO accesses, timer calls and buffer
    releases to the trace: it never takes or releases the hardware-access
    lock, never calls the upper layer, and never runs the ARCOFI state
    machine. *)
Theorem ISAC_interrupt_effects rd val m :
  exists l,
    trace (ISAC_interrupt rd val m) = trace m ++ l
    /\ forallb irq_effect l = true
    /\ upcalls l = [].
Proof.
  assert (H : appends irq_effect m (ISAC_interrupt rd val m)).
  { assert (Hlog : forall c f a m0, appends irq_effect m0 (log_if c f a m0))
      by (intros; apply appends_same; reflexivity).
    assert (Hread : forall r m0, appends irq_effect m0 (emit (EvReadReg r) m0))
      by (intros; eapply appends_list; reflexivity).
    apply (ISAC_interrupt_steps (appends irq_effect));
      try (intros _); auto using appends_refl, irq_RME_irq, isac_empty_fifo_irq,
        irq_XPR_irq, irq_CISQ_irq.
    - apply appends_trans.
    - apply irq_EXI_steps;
        auto using appends_refl, mon_RX0_irq, mon_RX1_irq, mon_RXEND0_irq,
          mon_RXEND1_irq, mon_TX0_irq, mon_TX1_irq, exi_XDU_irq.
      apply appends_trans. }
  destruct H as (l & Ht & Hl). exists l. repeat split; try assumption.
  clear Ht. induction l as [|e l IH]; [reflexivity|].
  cbn [forallb] in Hl. apply andb_true_iff in Hl. destruct Hl as [He Hl].
  unfold upcalls in *. cbn [filter].
  destruct e; try discriminate; cbn [is_upcall]; auto.
Qed.

End IrqEffects2.

(** ** Which block touches which part of the channel

    A view [p] of the channel context that does not depend on the fields
    a block assigns is the same before and after the block. *)

Ltac keeps_leaf :=
  repeat (mred; first [case_if | case_match]); mred;
  repeat match goal with H : forall _, _ |- _ => rewrite !H end;
  reflexivity.

Section RxBlocks.
Context {h : isac_h} {A : Type}.
Variable p : dchannel_t -> A.
Hypothesis p_errs : forall a b c d, p (set_errs a b c d) = p d.
Hypothesis p_rx_skb : forall v d, p (set_rx_skb v d) = p d.
Hypothesis p_rqueue : forall v d, p (set_rqueue v d) = p d.
Hypothesis p_event : forall v d, p (set_event v d) = p d.

Lemma isac_empty_fifo_keeps count m : p (dch (isac_empty_fifo count m)) = p (dch m).
Proof. rewrite isac_empty_fifo_dch. apply p_rx_skb. Qed.

Lemma irq_RME_keeps rd m : p (dch (irq_RME rd m)) = p (dch m).
Proof.
  unfold irq_RME. mred.
  destruct (negb (Z.land (u8 (rd ISAC_RSTA)) 112 =? 32)).
  - keeps_leaf.
  - mred. set (m1 := isac_empty_fifo _ _).
    assert (H1 : p (dch m1) = p (dch m))
      by (subst m1; rewrite isac_empty_fifo_keeps; reflexivity).
    destruct (rx_skb (dch m1)); mred;
      rewrite p_event, p_rx_skb, ?p_rqueue; exact H1.
Qed.

End RxBlocks.

Section TxBlocks.
Context {h : isac_h} {A : Type}.
Variable p : dchannel_t -> A.
Hypothesis p_errs : forall a b c d, p (set_errs a b c d) = p d.
Hypothesis p_DFlags : forall v d, p (set_DFlags v d) = p d.
Hypothesis p_event : forall v d, p (set_event v d) = p d.
Hypothesis p_expires : forall v d, p (set_expires v d) = p d.
Hypothesis p_tx_idx : forall v d, p (set_tx_idx v d) = p d.
Hypothesis p_tx_len : forall v d, p (set_tx_len v d) = p d.
Hypothesis p_tx_buf : forall v d, p (set_tx_buf v d) = p d.

Lemma stop_dbusy_keeps m : p (dch (stop_dbusy m)) = p (dch m).
Proof. unfold stop_dbusy. keeps_leaf. Qed.

Lemma isac_fill_fifo_keeps m : p (dch (isac_fill_fifo m)) = p (dch m).
Proof.
  destruct (Z_le_gt_dec (tx_len (dch m) - tx_idx (dch m)) 0) as [Hr|Hr].
  - now destruct (isac_fill_fifo_idle m Hr) as [-> _].
  - rewrite isac_fill_fifo_dch by lia.
    now rewrite p_expires, p_DFlags, p_tx_idx.
Qed.

Lemma promote_keeps s m :
  p (dch (dchannel_sched_event D_XMTBUFREADY (isac_fill_fifo (load_tx_buf s m))))
  = p (dch m).
Proof.
  cbn [dchannel_sched_event on_dch dch]. rewrite p_event, isac_fill_fifo_keeps.
  unfold load_tx_buf. mred. now rewrite p_tx_idx, p_tx_buf, p_tx_len.
Qed.

Lemma irq_XPR_keeps m : p (dch (irq_XPR m)) = p (dch m).
Proof.
  unfold irq_XPR. rewrite <- (stop_dbusy_keeps m).
  generalize (stop_dbusy m). intros m1.
  case_if; [apply isac_fill_fifo_keeps|].
  cbn [test_and_clear_flag].
  case_if; [|keeps_leaf].
  case_match; [|keeps_leaf].
  rewrite promote_keeps. keeps_leaf.
Qed.

Lemma exi_XDU_keeps m : p (dch (exi_XDU m)) = p (dch m).
Proof.
  unfold exi_XDU.
  match goal with |- context [stop_dbusy ?x] =>
    assert (H0 : p (dch (stop_dbusy x)) = p (dch m))
      by (rewrite stop_dbusy_keeps; mred; apply p_errs);
    revert H0; generalize (stop_dbusy x)
  end.
  intros m1 H1. cbv zeta.
  case_if.
  - rewrite isac_fill_fifo_keeps. mred. now rewrite p_tx_idx.
  - cbn [test_and_clear_flag].
    case_if; [|mred; now rewrite p_DFlags].
    case_match; [|mred; now rewrite p_DFlags].
    rewrite promote_keeps. mred. now rewrite p_DFlags.
Qed.

End TxBlocks.

Section OtherBlocks.
Context {h : isac_h} {A : Type}.
Variable p : dchannel_t -> A.
Hypothesis p_hw : forall f d, p (set_hw f d) = p d.
Hypothesis p_event : forall v d, p (set_event v d) = p d.
Hypothesis p_ph_state : forall v d, p (set_ph_state v d) = p d.

Lemma irq_CISQ_keeps rd m : p (dch (irq_CISQ rd m)) = p (dch m).
Proof. unfold irq_CISQ. keeps_leaf. Qed.

Lemma mon_RX0_keeps rd m : p (dch (mon_RX0 rd m)) = p (dch m).
Proof.
  unfold mon_RX0. mred.
  destruct (mon_rx (hw (dch m))); mred;
    [|destruct (alloc_ok m (alloc_pos m)); mred]; keeps_leaf.
Qed.

Lemma mon_RX1_keeps rd m : p (dch (mon_RX1 rd m)) = p (dch m).
Proof.
  unfold mon_RX1. mred.
  destruct (mon_rx (hw (dch m))); mred;
    [|destruct (alloc_ok m (alloc_pos m)); mred]; keeps_leaf.
Qed.

Lemma mon_RXEND0_keeps m : p (dch (mon_RXEND0 m)) = p (dch m).
Proof. unfold mon_RXEND0. keeps_leaf. Qed.

Lemma mon_RXEND1_keeps m : p (dch (mon_RXEND1 m)) = p (dch m).
Proof. unfold mon_RXEND1. keeps_leaf. Qed.

Lemma mon_TX0_keeps v1 m : p (dch (mon_TX0 v1 m)) = p (dch m).
Proof. unfold mon_TX0, mon_tx_done. keeps_leaf. Qed.

Lemma mon_TX1_keeps v1 m : p (dch (mon_TX1 v1 m)) = p (dch m).
Proof. unfold mon_TX1, mon_tx_done. keeps_leaf. Qed.

Lemma mos_blocks_keeps rd v1 m : p (dch (mos_blocks rd v1 m)) = p (dch m).
Proof.
  apply (mos_blocks_steps (fun m m' => p (dch m') = p (dch m))).
  - reflexivity.
  - intros a b c H1 H2. now rewrite H2.
  - apply mon_RX0_keeps.
  - apply mon_RX1_keeps.
  - apply mon_RXEND0_keeps.
  - apply mon_RXEND1_keeps.
  - apply mon_TX0_keeps.
  - apply mon_TX1_keeps.
Qed.

End OtherBlocks.

Section Separation.
Context {h : isac_h} {A : Type}.
Variable p : dchannel_t -> A.

Lemma irq_EXI_keeps rd m :
  (forall a b c d, p (set_errs a b c d) = p d) ->
  (forall v d, p (set_DFlags v d) = p d) ->
  (forall v d, p (set_event v d) = p d) ->
  (forall v d, p (set_expires v d) = p d) ->
  (forall v d, p (set_tx_idx v d) = p d) ->
  (forall v d, p (set_tx_len v d) = p d) ->
  (forall v d, p (set_tx_buf v d) = p d) ->
  (forall f d, p (set_hw f d) = p d) ->
  p (dch (irq_EXI rd m)) = p (dch m).
Proof.
  intros. apply (irq_EXI_steps (fun m m' => p (dch m') = p (dch m)));
    try reflexivity; intros;
    auto using mon_RX0_keeps, mon_RX1_keeps, mon_RXEND0_keeps, mon_RXEND1_keeps,
      mon_TX0_keeps, mon_TX1_keeps, exi_XDU_keeps.
  congruence.
Qed.

End Separation.

Ltac bit_off :=
  match goal with
  | H : ?c = false, H' : ?c = true |- _ => rewrite H in H'; discriminate H'
  end.

Section ChannelParts.
Context {h : isac_h}.

Lemma ISAC_interrupt_keeps {A} (p : dchannel_t -> A) rd val m :
  (tst val 0x80 = true \/ tst val 0x40 = true ->
     (forall v d, p (set_rx_skb v d) = p d)
     /\ (forall v d, p (set_rqueue v d) = p d)) ->
  (tst val 0x10 = true \/ tst val 0x01 = true ->
     (forall v d, p (set_DFlags v d) = p d)
     /\ (forall v d, p (set_expires v d) = p d)
     /\ (forall v d, p (set_tx_idx v d) = p d)
     /\ (forall v d, p (set_tx_len v d) = p d)
     /\ (forall v d, p (set_tx_buf v d) = p d)) ->
  (tst val 0x01 = true -> forall f d, p (set_hw f d) = p d) ->
  (tst val 0x04 = true -> forall v d, p (set_ph_state v d) = p d) ->
  (forall a b c d, p (set_errs a b c d) = p d) ->
  (forall v d, p (set_event v d) = p d) ->
  p (dch (ISAC_interrupt rd val m)) = p (dch m).
Proof.
  intros Hrx Htx Hhw Hph Herr Hev.
  apply (ISAC_interrupt_steps (fun m m' => p (dch m') = p (dch m)));
    try reflexivity.
  - congruence.
  - intros Hb rd0 m0. destruct Hrx as [H1 H2]; [now left|].
    now apply irq_RME_keeps.
  - intros Hb m0. destruct Hrx as [H1 H2]; [now right|].
    now apply isac_empty_fifo_keeps.
  - intros Hb m0. destruct Htx as (H1 & H2 & H3 & H4 & H5); [now left|].
    now apply irq_XPR_keeps.
  - intros Hb rd0 m0. apply irq_CISQ_keeps; auto.
  - intros Hb rd0 m0. destruct Htx as (H1 & H2 & H3 & H4 & H5); [now right|].
    apply irq_EXI_keeps; auto.
Qed.

(** X2: which interrupt touches what.  Without the receive bits (RME
    0x80, RPF 0x40) in the status byte the receive buffer and the receive
    queue stay as they are; without the transmit bits (XPR 0x10, EXI 0x01)
    the transmit buffer, its cursor and length and the flag word stay as
    they are; without EXI the monitor state stays as it is; without CISQ
    (0x04) the line state stays as it is.  Whatever the status byte, the
    handler leaves next_skb, the debug mask and the chain of upper
    interfaces alone. *)
Theorem ISAC_interrupt_separation rd val m :
  let m' := ISAC_interrupt rd val m in
  (tst val 0x80 = false -> tst val 0x40 = false ->
     rx_skb (dch m') = rx_skb (dch m) /\ rqueue (dch m') = rqueue (dch m))
  /\ (tst val 0x10 = false -> tst val 0x01 = false ->
     tx_buf (dch m') = tx_buf (dch m) /\ tx_idx (dch m') = tx_idx (dch m)
     /\ tx_len (dch m') = tx_len (dch m) /\ DFlags (dch m') = DFlags (dch m))
  /\ (tst val 0x01 = false -> hw (dch m') = hw (dch m))
  /\ (tst val 0x04 = false -> ph_state (dch m') = ph_state (dch m))
  /\ next_skb (dch m') = next_skb (dch m)
  /\ debug (dch m') = debug (dch m)
  /\ up_links (dch m') = up_links (dch m).
Proof.
  intros m'. subst m'.
  repeat split; intros;
    match goal with
    | |- ?f (dch _) = _ => apply (ISAC_interrupt_keeps f)
    end;
    try (intros [?|?]; bit_off); try (intros; bit_off);
    repeat split; reflexivity.
Qed.

End ChannelParts.

(** ** Invariants of the interrupt handler *)

(** [H] holds of the state before a block, and the block keeps the view
    the goal is about (lemma [lem]). *)
Ltac kept H lem :=
  etransitivity; [apply lem; intros; reflexivity | exact H].

Section Invariants.
Context {h : isac_h}.

Lemma fifo_next_len count m :
  List.length (fifo_next count m) = Z.to_nat count.
Proof. unfold fifo_next. now rewrite length_map, length_seq. Qed.

Lemma drain_result_bounded count m :
  0 < MAX_DFRAME_LEN_L1 <= 2 ^ 31 ->
  count < 2 ^ 31 ->
  rx_bounded (dch m) = true ->
  match drain_result count m with
  | Some s => skb_len s <? MAX_DFRAME_LEN_L1
  | None => true
  end = true.
Proof.
  intros Hmax Hcnt Hb. unfold rx_bounded in Hb. apply andb_true_iff in Hb.
  destruct Hb as [Hs _].
  unfold drain_result, rx_buffer_for_drain.
  assert (Hok : forall s, (skb_len s <? MAX_DFRAME_LEN_L1) = true ->
            match (if uint (skb_len s + count) >=? MAX_DFRAME_LEN_L1 then Some s
                   else Some (skb_put s (fifo_next count m))) with
            | Some s' => skb_len s' <? MAX_DFRAME_LEN_L1
            | None => true
            end = true).
  { intros s Hl. case_if; [exact Hl|]. b2p.
    apply Z.ltb_lt.
    assert (Hu : 0 <= count -> uint (skb_len s + count) = skb_len s + count).
    { intros H0. unfold uint. apply Z.mod_small. unfold skb_len in *. lia. }
    unfold skb_len, skb_put in *. cbn [skb_data].
    rewrite length_app, fifo_next_len. lia. }
  destruct (rx_skb (dch m)) as [s|].
  - now apply Hok.
  - destruct (alloc_ok m (alloc_pos m)); [|reflexivity].
    apply Hok. apply Z.ltb_lt. cbn. lia.
Qed.

Lemma isac_empty_fifo_rx_bounded count m :
  0 < MAX_DFRAME_LEN_L1 <= 2 ^ 31 ->
  count < 2 ^ 31 ->
  rx_bounded (dch m) = true ->
  rx_bounded (dch (isac_empty_fifo count m)) = true.
Proof.
  intros Hmax Hcnt Hb.
  pose proof (drain_result_bounded count m Hmax Hcnt Hb) as Hd.
  rewrite isac_empty_fifo_dch. unfold rx_bounded in *. mred.
  apply andb_true_iff in Hb. destruct Hb as [_ Hq].
  now rewrite Hd, Hq.
Qed.

Lemma irq_RME_rx_bounded rd m :
  0 < MAX_DFRAME_LEN_L1 <= 2 ^ 31 ->
  rx_bounded (dch m) = true ->
  rx_bounded (dch (irq_RME rd m)) = true.
Proof.
  intros Hmax Hb. unfold irq_RME. mred.
  assert (Hq : forallb (fun s => skb_len s <? MAX_DFRAME_LEN_L1) (rqueue (dch m))
               = true)
    by (unfold rx_bounded in Hb; apply andb_true_iff in Hb; tauto).
  destruct (negb (Z.land (u8 (rd ISAC_RSTA)) 112 =? 32)).
  - unfold rx_bounded.
    repeat (mred; first [case_if | case_match]); mred; exact Hq.
  - mred. set (m0 := emit _ (emit _ m)).
    assert (H0 : rx_bounded (dch m0) = true) by exact Hb.
    assert (Hcnt : (if Z.land (u8 (rd ISAC_RBCL)) 31 =? 0 then 32
                    else Z.land (u8 (rd ISAC_RBCL)) 31) < 2 ^ 31).
    { pose proof (land_1f_range (u8 (rd ISAC_RBCL)) (u8_nonneg _)).
      case_if; lia. }
    pose proof (isac_empty_fifo_rx_bounded
                  (if Z.land (u8 (rd ISAC_RBCL)) 31 =? 0 then 32
                   else Z.land (u8 (rd ISAC_RBCL)) 31) m0 Hmax Hcnt H0) as H1.
    revert H1. generalize (isac_empty_fifo
                  (if Z.land (u8 (rd ISAC_RBCL)) 31 =? 0 then 32
                   else Z.land (u8 (rd ISAC_RBCL)) 31) m0).
    intros m1 H1. unfold rx_bounded in *.
    apply andb_true_iff in H1. destruct H1 as [Hs Hq1].
    destruct (rx_skb (dch m1)) as [s|]; mred; [|exact Hq1].
    rewrite forallb_app, Hq1. cbn [forallb]. now rewrite Hs.
Qed.

(** X3: no receive buffer ever reaches the maximum frame length.  If
    every receive buffer the channel holds (the one being filled and the
    ones queued for the upper layer) is shorter than MAX_DFRAME_LEN_L1,
    the same holds after any interrupt, whatever the status byte, the
    registers and the FIFO deliver (the limit being positive and at most
    2^31, so that the unsigned sum isac_empty_fifo tests is the plain
    sum). *)
Theorem ISAC_interrupt_rx_bounded rd val m :
  0 < MAX_DFRAME_LEN_L1 <= 2 ^ 31 ->
  rx_bounded (dch m) = true ->
  rx_bounded (dch (ISAC_interrupt rd val m)) = true.
Proof.
  intros Hmax.
  apply (ISAC_interrupt_steps
           (fun m m' => rx_bounded (dch m) = true -> rx_bounded (dch m') = true));
    auto.
  - intros _ rd0 m0. now apply irq_RME_rx_bounded.
  - intros _ m0. apply isac_empty_fifo_rx_bounded; [exact Hmax | lia].
  - intros _ m0 H0. kept H0 (@irq_XPR_keeps h).
  - intros _ rd0 m0 H0. kept H0 (@irq_CISQ_keeps h).
  - intros _ rd0 m0 H0. kept H0 (@irq_EXI_keeps h).
Qed.

Lemma cursor_ok_iff d :
  tx_cursor_ok d = true <-> 0 <= tx_idx d <= tx_len d.
Proof.
  unfold tx_cursor_ok. rewrite andb_true_iff, !Z.leb_le. tauto.
Qed.

Lemma isac_fill_fifo_cursor m :
  tx_cursor_ok (dch m) = true -> tx_cursor_ok (dch (isac_fill_fifo m)) = true.
Proof.
  rewrite !cursor_ok_iff. intros Hc.
  destruct (isac_fill_fifo_frame m) as (_ & Hl & _).
  rewrite Hl, isac_fill_fifo_idx. case_if; b2p; lia.
Qed.

Lemma load_tx_buf_cursor s m : tx_cursor_ok (dch (load_tx_buf s m)) = true.
Proof.
  apply cursor_ok_iff. unfold load_tx_buf, skb_len. mred. lia.
Qed.

Lemma sched_event_cursor ev m :
  tx_cursor_ok (dch (dchannel_sched_event ev m)) = tx_cursor_ok (dch m).
Proof. reflexivity. Qed.

Lemma promote_cursor s m :
  tx_cursor_ok
    (dch (dchannel_sched_event D_XMTBUFREADY (isac_fill_fifo (load_tx_buf s m))))
  = true.
Proof.
  rewrite sched_event_cursor.
  apply isac_fill_fifo_cursor, load_tx_buf_cursor.
Qed.

Lemma irq_XPR_cursor m :
  tx_cursor_ok (dch m) = true -> tx_cursor_ok (dch (irq_XPR m)) = true.
Proof.
  intros Hc. unfold irq_XPR.
  assert (H1 : tx_cursor_ok (dch (stop_dbusy m)) = true)
    by (kept Hc (@stop_dbusy_keeps h)).
  revert H1. generalize (stop_dbusy m). intros m1 H1.
  case_if; [now apply isac_fill_fifo_cursor|].
  cbn [test_and_clear_flag].
  case_if; [|exact H1].
  case_match; [apply promote_cursor | exact H1].
Qed.

Lemma exi_XDU_cursor m :
  tx_cursor_ok (dch m) = true -> tx_cursor_ok (dch (exi_XDU m)) = true.
Proof.
  intros Hc. unfold exi_XDU.
  match goal with |- context [stop_dbusy ?x] =>
    assert (H1 : tx_cursor_ok (dch (stop_dbusy x)) = true)
      by (kept Hc (@stop_dbusy_keeps h));
    revert H1; generalize (stop_dbusy x)
  end.
  intros m1 H1. cbv zeta.
  case_if.
  - apply isac_fill_fifo_cursor. apply cursor_ok_iff. mred.
    apply cursor_ok_iff in H1. lia.
  - cbn [test_and_clear_flag].
    case_if; [|exact H1].
    case_match; [apply promote_cursor | exact H1].
Qed.

Lemma ISAC_interrupt_cursor rd val m :
  tx_cursor_ok (dch m) = true ->
  tx_cursor_ok (dch (ISAC_interrupt rd val m)) = true.
Proof.
  apply (ISAC_interrupt_steps
           (fun m m' => tx_cursor_ok (dch m) = true -> tx_cursor_ok (dch m') = true));
    auto.
  - intros _ rd0 m0 H0. kept H0 (@irq_RME_keeps h).
  - intros _ m0 H0. kept H0 (@isac_empty_fifo_keeps h).
  - intros _ m0. apply irq_XPR_cursor.
  - intros _ rd0 m0 H0. kept H0 (@irq_CISQ_keeps h).
  - intros _ rd0 m0.
    apply (irq_EXI_steps
             (fun m m' => tx_cursor_ok (dch m) = true -> tx_cursor_ok (dch m') = true));
      auto; try apply exi_XDU_cursor; intros until 1;
      first [ kept H (@mon_RX0_keeps h) | kept H (@mon_RX1_keeps h)
            | kept H (@mon_RXEND0_keeps h) | kept H (@mon_RXEND1_keeps h)
            | kept H (@mon_TX0_keeps h) | kept H (@mon_TX1_keeps h) ].
Qed.

End Invariants.

Section ProcessBlocks.
Context {h : isac_h} {A : Type}.
Variable p : dchannel_t -> A.
Hypothesis p_DFlags : forall v d, p (set_DFlags v d) = p d.
Hypothesis p_event : forall v d, p (set_event v d) = p d.
Hypothesis p_rqueue : forall v d, p (set_rqueue v d) = p d.
Hypothesis p_next_skb : forall v d, p (set_next_skb v d) = p d.

Lemma hw_deactivate_keeps m : p (dch (hw_deactivate m)) = p (dch m).
Proof.
  unfold hw_deactivate. rewrite stop_dbusy_keeps by assumption.
  cbn [test_and_clear_flag snd on_dch dch]. rewrite !p_DFlags.
  destruct (next_skb (dch (discard_queue m)));
    cbn [dev_kfree_skb emit on_dch dch];
    rewrite ?p_next_skb, discard_queue_dch; apply p_rqueue.
Qed.

Lemma isac_hwbh_keeps m : p (dch (isac_hwbh m)) = p (dch m).
Proof.
  unfold isac_hwbh. cbn [test_and_clear_event]. cbv zeta.
  match goal with |- context [negb (test_flag HW_ARCOFI ?x)] => set (m2 := x) end.
  assert (H2 : p (dch m2) = p (dch m)).
  { subst m2. case_if; rewrite ?isac_new_ph_dch; mred; apply p_event. }
  clearbody m2. rewrite <- H2. clear H2.
  repeat (first [case_if | case_match]; mred); now rewrite ?p_event.
Qed.

End ProcessBlocks.

Section Requests.
Context {h : isac_h}.

(** The outcomes of a request: every path through [ISAC_l1hw] ends in one
    of these results, so a property of all of them is a property of the
    call. *)
Lemma ISAC_l1hw_shape (P : Z -> machine -> Prop) (hif : hisaxif_t) skb m :
  (hh_prim skb = PH_DATA_REQ -> next_skb (dch m) <> None ->
     forall f a, P (- EBUSY) (debugprint f a m)) ->
  (hh_prim skb = PH_DATA_REQ -> next_skb (dch m) = None ->
     test_flag FLG_TX_BUSY m = true ->
     P 0 (unlock (on_dch (set_next_skb (Some skb))
                    (snd (test_and_set_flag FLG_TX_NEXT
                            (snd (test_and_set_flag FLG_TX_BUSY (lock m)))))))) ->
  (hh_prim skb = PH_DATA_REQ -> next_skb (dch m) = None ->
     test_flag FLG_TX_BUSY m = false ->
     forall m1,
       m1 = unlock (isac_fill_fifo
                      (load_tx_buf skb (snd (test_and_set_flag FLG_TX_BUSY (lock m))))) ->
       P (fst (if_newhead PH_DATA_CNF DINFO_SKB skb m1))
         (snd (if_newhead PH_DATA_CNF DINFO_SKB skb m1))) ->
  (hh_prim skb <> PH_DATA_REQ ->
     forall cmd, P 0 (dev_kfree_skb skb (unlock (ph_command cmd (lock m))))) ->
  (hh_prim skb <> PH_DATA_REQ ->
     P 0 (dev_kfree_skb skb (unlock (hw_deactivate (lock m))))) ->
  (hh_prim skb <> PH_DATA_REQ ->
     forall a b,
       P 0 (dev_kfree_skb skb
              (unlock (write_reg ISAC_ADF1 a (write_reg ISAC_SPCR b (lock m)))))) ->
  (hh_prim skb <> PH_DATA_REQ ->
     forall c f a, P (- EINVAL) (unlock (log_if c f a (lock m)))) ->
  (hh_prim skb <> PH_DATA_REQ -> P (- EINVAL) (unlock (lock m))) ->
  (hh_prim skb <> PH_DATA_REQ -> forall c f a, P (- EINVAL) (log_if c f a m)) ->
  P (fst (ISAC_l1hw (Some hif) (Some skb) m))
    (snd (ISAC_l1hw (Some hif) (Some skb) m)).
Proof.
  intros Hbusy Hnext Hstart Hcmd Hdeact Hloop Hctl Hsig Hprim.
  unfold ISAC_l1hw.
  destruct (hh_prim skb =? PH_DATA_REQ) eqn:Ep; b2p.
  - destruct (next_skb (dch m)) eqn:En.
    + apply Hbusy; congruence.
    + cbn [test_and_set_flag].
      destruct (test_bit FLG_TX_BUSY (DFlags (dch (lock m)))) eqn:Eb.
      * now apply Hnext.
      * now apply (Hstart Ep eq_refl Eb).
  - specialize (Hcmd Ep). specialize (Hdeact Ep). specialize (Hloop Ep).
    specialize (Hctl Ep). specialize (Hsig Ep). specialize (Hprim Ep).
    cbv zeta beta.
    repeat (case_if; cbv iota beta;
            change (0 =? 0) with true; change (- EINVAL =? 0) with false;
            cbv iota beta);
      cbn [fst snd];
      first [ apply Hcmd | apply Hdeact | apply Hloop | apply Hctl
            | apply Hsig | apply Hprim ].
Qed.

Lemma ISAC_l1hw_cursor hif skb m :
  tx_cursor_ok (dch m) = true ->
  tx_cursor_ok (dch (snd (ISAC_l1hw hif skb m))) = true.
Proof.
  intros Hc.
  destruct hif as [hif|], skb as [skb|]; try exact Hc.
  apply (ISAC_l1hw_shape (fun _ m' => tx_cursor_ok (dch m') = true));
    intros; subst; dch_steps.
  - exact Hc.
  - exact Hc.
  - apply isac_fill_fifo_cursor, load_tx_buf_cursor.
  - exact Hc.
  - kept Hc (@hw_deactivate_keeps h).
  - exact Hc.
  - exact Hc.
  - exact Hc.
  - exact Hc.
Qed.

Lemma dbusy_timer_handler_cursor lock_busy rd m :
  tx_cursor_ok (dch m) = true ->
  tx_cursor_ok (dch (dbusy_timer_handler lock_busy rd m)) = true.
Proof.
  intros Hc. unfold dbusy_timer_handler.
  repeat (mred; first [case_if | case_match]); mred; try exact Hc.
  apply cursor_ok_iff in Hc. apply cursor_ok_iff. mred. lia.
Qed.

(** X4: the transmit cursor stays inside the frame.  If
    0 <= tx_idx <= tx_len holds, it holds again after an interrupt with
    any status byte, after any request through ISAC_l1hw, after the
    bottom half, and after an expiry of the busy timer. *)
Theorem tx_cursor_invariant m :
  tx_cursor_ok (dch m) = true ->
  (forall rd val, tx_cursor_ok (dch (ISAC_interrupt rd val m)) = true)
  /\ (forall hif skb, tx_cursor_ok (dch (snd (ISAC_l1hw hif skb m))) = true)
  /\ tx_cursor_ok (dch (isac_hwbh m)) = true
  /\ (forall lock_busy rd,
        tx_cursor_ok (dch (dbusy_timer_handler lock_busy rd m)) = true).
Proof.
  intros Hc. repeat split; intros.
  - now apply ISAC_interrupt_cursor.
  - now apply ISAC_l1hw_cursor.
  - kept Hc (@isac_hwbh_keeps h).
  - now apply dbusy_timer_handler_cursor.
Qed.

End Requests.

(** ** The lock discipline *)

Lemma lock_run_app l1 : forall held l2,
  lock_run held (l1 ++ l2) =
  match lock_run held l1 with
  | Some b => lock_run b l2
  | None => None
  end.
Proof.
  induction l1 as [|e l1 IH]; intros held l2; [reflexivity|].
  destruct e; cbn [app lock_run is_hw_access is_upcall]; destruct held;
    cbn [negb]; auto.
Qed.

Lemma lock_run_held l :
  forallb (fun e => is_hw_access e || lock_neutral e) l = true ->
  lock_run true l = Some true.
Proof.
  induction l as [|e l IH]; [reflexivity|]. cbn [forallb]. intros H.
  apply andb_true_iff in H. destruct H as [He Hl].
  destruct e; try discriminate He; cbn [lock_run is_hw_access is_upcall]; auto.
Qed.

Lemma lock_run_free l :
  forallb (fun e => is_upcall e || lock_neutral e) l = true ->
  lock_run false l = Some false.
Proof.
  induction l as [|e l IH]; [reflexivity|]. cbn [forallb]. intros H.
  apply andb_true_iff in H. destruct H as [He Hl].
  destruct e; try discriminate He; cbn [lock_run is_hw_access is_upcall negb]; auto.
Qed.

(** A critical section followed by calls upstream and buffer releases. *)
Lemma locked_ok_section body tail :
  forallb (fun e => is_hw_access e || lock_neutral e) body = true ->
  forallb (fun e => is_upcall e || lock_neutral e) tail = true ->
  locked_ok ([EvLock] ++ body ++ [EvUnlock] ++ tail) = true.
Proof.
  intros Hb Ht. unfold locked_ok. cbn [app lock_run].
  rewrite lock_run_app, (lock_run_held _ Hb). cbn [app lock_run].
  now rewrite (lock_run_free _ Ht).
Qed.

Lemma locked_ok_free tail :
  forallb (fun e => is_upcall e || lock_neutral e) tail = true ->
  locked_ok tail = true.
Proof. intros Ht. unfold locked_ok. now rewrite (lock_run_free _ Ht). Qed.

Section LockDiscipline.
Context {h : isac_h}.

Lemma trace_load_tx_buf s m : trace (load_tx_buf s m) = trace m.
Proof. reflexivity. Qed.

Lemma fill_fifo_effects_held m :
  forallb (fun e => is_hw_access e || lock_neutral e) (fill_fifo_effects m) = true.
Proof.
  unfold fill_fifo_effects. case_if; [reflexivity|].
  destruct (test_flag FLG_DBUSY_TIMER m); reflexivity.
Qed.

Lemma hw_deactivate_neutral m :
  appends lock_neutral m (hw_deactivate m).
Proof.
  unfold hw_deactivate.
  match goal with |- context [stop_dbusy ?x] =>
    apply (appends_trans _ _ x);
      [| eapply appends_list; [apply stop_dbusy_trace|];
         destruct (test_flag FLG_DBUSY_TIMER x); reflexivity]
  end.
  trace_steps.
  apply (appends_trans _ _ (discard_queue m)).
  - eapply appends_list; [apply discard_queue_trace|].
    induction (rqueue (dch m)); [reflexivity | assumption].
  - generalize (discard_queue m). intros m1. unfold appends. trace_steps.
    destruct (next_skb (dch m1)); trace_steps.
    + eexists; split; reflexivity.
    + exists []. now rewrite app_nil_r.
Qed.

Lemma neutral_held l :
  forallb lock_neutral l = true ->
  forallb (fun e => is_hw_access e || lock_neutral e) l = true.
Proof.
  intros H. rewrite forallb_forall in *. intros e He.
  rewrite (H e He). apply orb_true_r.
Qed.

Lemma neutral_free l :
  forallb lock_neutral l = true ->
  forallb (fun e => is_upcall e || lock_neutral e) l = true.
Proof.
  intros H. rewrite forallb_forall in *. intros e He.
  rewrite (H e He). apply orb_true_r.
Qed.

Lemma ISAC_l1hw_locked hif skb m :
  exists l, trace (snd (ISAC_l1hw hif skb m)) = trace m ++ l
            /\ locked_ok l = true.
Proof.
  destruct hif as [hif|], skb as [skb|];
    try (exists []; rewrite app_nil_r; split; reflexivity).
  apply (ISAC_l1hw_shape
           (fun _ m' => exists l, trace m' = trace m ++ l /\ locked_ok l = true));
    intros; subst; trace_steps.
  - exists []. rewrite app_nil_r. split; reflexivity.
  - exists [EvLock; EvUnlock]. tr_norm. split; reflexivity.
  - rewrite isac_fill_fifo_trace, trace_load_tx_buf. trace_steps.
    eexists. tr_norm. split; [reflexivity|].
    apply (locked_ok_section _ [_]); [apply fill_fifo_effects_held | reflexivity].
  - eexists. tr_norm. split; reflexivity.
  - destruct (hw_deactivate_neutral (lock m)) as (l & Hl & Hn).
    rewrite Hl. trace_steps. eexists. tr_norm. split; [reflexivity|].
    apply (locked_ok_section l [_]); [now apply neutral_held | reflexivity].
  - eexists. tr_norm. split; reflexivity.
  - eexists. tr_norm. split; reflexivity.
  - eexists. tr_norm. split; reflexivity.
  - exists []. rewrite app_nil_r. split; reflexivity.
Qed.

Lemma locked_ok_then l1 l2 :
  locked_ok l1 = true ->
  forallb (fun e => is_upcall e || lock_neutral e) l2 = true ->
  locked_ok (l1 ++ l2) = true.
Proof.
  unfold locked_ok. intros H1 H2. rewrite lock_run_app.
  destruct (lock_run false l1) as [[|]|]; try discriminate.
  now rewrite (lock_run_free _ H2).
Qed.

Lemma if_link_free (prim para : Z) k n :
  forallb (fun e => is_upcall e || lock_neutral e)
    (map (fun i => EvIfLink i prim para) (seq k n)) = true.
Proof.
  revert k. induction n as [|n IH]; intros k; [reflexivity|].
  cbn [seq map forallb]. now rewrite IH.
Qed.

Lemma isac_new_ph_locked m :
  exists l, trace (isac_new_ph m) = trace m ++ l /\ locked_ok l = true.
Proof.
  unfold isac_new_ph. cbv zeta.
  repeat case_if; rewrite ?if_link_chain_trace; trace_steps;
    try (eexists; tr_norm; split; [reflexivity|];
         first [ apply (locked_ok_section [_]); [reflexivity | apply if_link_free]
               | apply locked_ok_free; apply if_link_free ]).
  exists []. now rewrite app_nil_r.
Qed.

Lemma isac_hwbh_locked m :
  exists l, trace (isac_hwbh m) = trace m ++ l /\ locked_ok l = true.
Proof.
  unfold isac_hwbh. cbn [test_and_clear_event]. cbv zeta.
  match goal with |- context [negb (test_flag HW_ARCOFI ?x)] => set (m2 := x) end.
  assert (H2 : exists l, trace m2 = trace m ++ l /\ locked_ok l = true).
  { subst m2. case_if.
    - match goal with |- context [isac_new_ph ?x] =>
        destruct (isac_new_ph_locked x) as (l & Hl & Ho); exists l;
        rewrite Hl; split; [reflexivity | exact Ho]
      end.
    - exists []. now rewrite app_nil_r. }
  clearbody m2. destruct H2 as (l & Hl & Ho).
  assert (Hfin : forall t l3, t = trace m2 ++ l3 ->
            forallb (fun e => is_upcall e || lock_neutral e) l3 = true ->
            exists l0, t = trace m ++ l0 /\ locked_ok l0 = true).
  { intros t l3 H3 Hn. exists (l ++ l3). rewrite H3, Hl, app_assoc.
    split; [reflexivity | now apply locked_ok_then]. }
  repeat (first [case_if | case_match]; mred);
    (eapply Hfin; [tr_norm; first [reflexivity | symmetry; apply app_nil_r]
                  | reflexivity]).
Qed.

Lemma dbusy_timer_handler_locked lock_busy rd m :
  exists l, trace (dbusy_timer_handler lock_busy rd m) = trace m ++ l
            /\ locked_ok l = true.
Proof.
  unfold dbusy_timer_handler.
  repeat (mred; first [case_if | case_match]); mred; tr_norm;
    first [ exists []; rewrite app_nil_r; split; reflexivity
          | eexists; split; reflexivity ].
Qed.

(** X5: the lock discipline of the entry points that run outside the
    interrupt handler.  Whatever the request, the pending events or the
    registers, ISAC_l1hw, the bottom half and the busy-timer handler take
    the hardware-access lock only when they do not hold it and release it
    before they return, touch registers and FIFO only while they hold it,
    and call the upper layer only after they have released it. *)
Theorem lock_discipline m :
  (forall hif skb,
     exists l, trace (snd (ISAC_l1hw hif skb m)) = trace m ++ l
               /\ locked_ok l = true)
  /\ (exists l, trace (isac_hwbh m) = trace m ++ l /\ locked_ok l = true)
  /\ (forall lock_busy rd,
        exists l, trace (dbusy_timer_handler lock_busy rd m) = trace m ++ l
                  /\ locked_ok l = true).
Proof.
  split; [|split].
  - intros. apply ISAC_l1hw_locked.
  - apply isac_hwbh_locked.
  - intros. apply dbusy_timer_handler_locked.
Qed.

End LockDiscipline.

(** ** Requests other than send-frame *)

Section Control.
Context {h : isac_h}.

Lemma hw_deactivate_held m :
  exists l, trace (hw_deactivate m) = trace m ++ l
            /\ forallb (fun e => is_hw_access e || lock_neutral e) l = true.
Proof.
  destruct (hw_deactivate_neutral m) as (l & Hl & Hn).
  exists l. split; [exact Hl | now apply neutral_held].
Qed.

(** X6: who owns the buffer after a request that is not a send-frame.
    A call with a NULL interface or a NULL buffer returns -EINVAL and does
    nothing.  Otherwise the call returns 0 or -EINVAL.  When it returns 0
    it has run one critical section (lock, register accesses, timer calls
    and releases of queued buffers, unlock) and then released the request
    buffer as its last act.  When it returns -EINVAL the channel context
    is as before, no register was touched and the request buffer was not
    released: the trace grew by nothing or by an empty lock/unlock
    pair. *)
Theorem ISAC_l1hw_ownership hif skb m :
  (hif = None \/ skb = None -> ISAC_l1hw hif skb m = (- EINVAL, m))
  /\
  (forall i s, hif = Some i -> skb = Some s -> hh_prim s <> PH_DATA_REQ ->
     let r := fst (ISAC_l1hw hif skb m) in
     let m' := snd (ISAC_l1hw hif skb m) in
     (r = 0
      /\ exists l,
           trace m' = trace m ++ [EvLock] ++ l ++ [EvUnlock; EvKfreeSkb s]
           /\ forallb (fun e => is_hw_access e || lock_neutral e) l = true)
     \/
     (r = - EINVAL
      /\ dch m' = dch m
      /\ (trace m' = trace m \/ trace m' = trace m ++ [EvLock; EvUnlock]))).
Proof.
  split.
  - intros [->| ->]; [reflexivity|]. destruct hif; reflexivity.
  - intros i s -> -> Hp. cbv zeta.
    apply (ISAC_l1hw_shape
             (fun r m' =>
                (r = 0
                 /\ exists l,
                      trace m' = trace m ++ [EvLock] ++ l ++ [EvUnlock; EvKfreeSkb s]
                      /\ forallb (fun e => is_hw_access e || lock_neutral e) l = true)
                \/
                (r = - EINVAL
                 /\ dch m' = dch m
                 /\ (trace m' = trace m \/ trace m' = trace m ++ [EvLock; EvUnlock]))));
      intros; try contradiction; trace_steps; dch_steps.
    + left. split; [reflexivity|].
      exists [EvWriteReg ISAC_CIX0 (cix0_value cmd)]. tr_norm.
      split; reflexivity.
    + left. split; [reflexivity|].
      destruct (hw_deactivate_held (lock m)) as (l & Hl & Hn).
      exists l. rewrite Hl. trace_steps. tr_norm. split; [reflexivity | exact Hn].
    + left. split; [reflexivity|].
      exists [EvWriteReg ISAC_SPCR (u8 b); EvWriteReg ISAC_ADF1 (u8 a)]. tr_norm.
      split; reflexivity.
    + right. split; [reflexivity|]. split; [reflexivity|]. right. now tr_norm.
    + right. split; [reflexivity|]. split; [reflexivity|]. right. now tr_norm.
    + right. split; [reflexivity|]. split; [reflexivity|]. now left.
Qed.

Hypothesis Hwf : header_wf = true.

(** The request is looked at past the send-frame test. *)
Lemma not_data_req skb :
  hh_prim skb = Z.lor PH_SIGNAL REQUEST \/ hh_prim skb = Z.lor PH_CONTROL REQUEST ->
  (hh_prim skb =? PH_DATA_REQ) = false.
Proof.
  intros [-> | ->]; apply Z.eqb_neq; wf_solve Hwf.
Qed.

(** X7: an activation request (PH_SIGNAL | REQUEST).  With parameter
    INFO3_P8 the command AR8, with INFO3_P10 the command AR10 is written
    to CIX0 between lock and unlock, the call returns 0 and releases the
    request buffer; any other parameter makes the call return -EINVAL
    after an empty lock/unlock pair, the buffer being left to the caller.
    The channel context is never changed. *)
Theorem ISAC_l1hw_signal_req (hif : hisaxif_t) skb m :
  hh_prim skb = Z.lor PH_SIGNAL REQUEST ->
  let r := fst (ISAC_l1hw (Some hif) (Some skb) m) in
  let m' := snd (ISAC_l1hw (Some hif) (Some skb) m) in
  let command c :=
    trace m ++ [EvLock; EvWriteReg ISAC_CIX0 (cix0_value c); EvUnlock;
                EvKfreeSkb skb] in
  dch m' = dch m
  /\ (hh_dinfo skb = INFO3_P8 -> r = 0 /\ trace m' = command ISAC_CMD_AR8)
  /\ (hh_dinfo skb <> INFO3_P8 -> hh_dinfo skb = INFO3_P10 ->
       r = 0 /\ trace m' = command ISAC_CMD_AR10)
  /\ (hh_dinfo skb <> INFO3_P8 -> hh_dinfo skb <> INFO3_P10 ->
       r = - EINVAL /\ trace m' = trace m ++ [EvLock; EvUnlock]).
Proof.
  intros Hp r m' command. subst r m' command.
  unfold ISAC_l1hw. rewrite not_data_req by now left.
  rewrite Hp, Z.eqb_refl. cbv zeta beta.
  destruct (hh_dinfo skb =? INFO3_P8) eqn:E8;
    [|destruct (hh_dinfo skb =? INFO3_P10) eqn:E10];
    b2p; cbv iota beta; cbn [fst snd Z.eqb Z.opp EINVAL];
    trace_steps; dch_steps; tr_norm;
    repeat split; intros; try reflexivity; congruence.
Qed.

(** X8: a reset or power-up request (PH_CONTROL | REQUEST).  HW_RESET
    writes the command TIM when the line state is EI, DR or RS and the
    command RS otherwise; HW_POWERUP writes TIM.  The write happens
    between lock and unlock, the call returns 0 and releases the request
    buffer; the channel context is not changed. *)
Theorem ISAC_l1hw_reset_req (hif : hisaxif_t) skb m :
  hh_prim skb = Z.lor PH_CONTROL REQUEST ->
  let r := fst (ISAC_l1hw (Some hif) (Some skb) m) in
  let m' := snd (ISAC_l1hw (Some hif) (Some skb) m) in
  let command c :=
    trace m ++ [EvLock; EvWriteReg ISAC_CIX0 (cix0_value c); EvUnlock;
                EvKfreeSkb skb] in
  let st := ph_state (dch m) in
  (hh_dinfo skb = HW_RESET ->
     st = ISAC_IND_EI \/ st = ISAC_IND_DR \/ st = ISAC_IND_RS ->
     r = 0 /\ dch m' = dch m /\ trace m' = command ISAC_CMD_TIM)
  /\ (hh_dinfo skb = HW_RESET ->
       st <> ISAC_IND_EI -> st <> ISAC_IND_DR -> st <> ISAC_IND_RS ->
       r = 0 /\ dch m' = dch m /\ trace m' = command ISAC_CMD_RS)
  /\ (hh_dinfo skb = HW_POWERUP ->
       r = 0 /\ dch m' = dch m /\ trace m' = command ISAC_CMD_TIM).
Proof.
  intros Hp r m' command st. subst r m' command st.
  unfold ISAC_l1hw. rewrite not_data_req by now right.
  rewrite Hp, Z.eqb_refl.
  rewrite (proj2 (Z.eqb_neq (Z.lor PH_CONTROL REQUEST) (Z.lor PH_SIGNAL REQUEST)))
    by wf_solve Hwf.
  cbv zeta beta.
  split; [|split].
  - intros Hd Hs. rewrite Hd, Z.eqb_refl. dch_steps.
    assert (E : (ph_state (dch m) =? ISAC_IND_EI)
                || (ph_state (dch m) =? ISAC_IND_DR)
                || (ph_state (dch m) =? ISAC_IND_RS) = true).
    { destruct Hs as [->|[->| ->]]; rewrite Z.eqb_refl, ?orb_true_r; reflexivity. }
    rewrite E. cbv iota beta. cbn [fst snd Z.eqb].
    trace_steps; dch_steps; tr_norm. repeat split.
  - intros Hd H1 H2 H3. rewrite Hd, Z.eqb_refl. dch_steps.
    apply Z.eqb_neq in H1, H2, H3. rewrite H1, H2, H3.
    cbv iota beta. cbn [orb fst snd Z.eqb].
    trace_steps; dch_steps; tr_norm. repeat split.
  - intros Hd. rewrite Hd, Z.eqb_refl.
    rewrite (proj2 (Z.eqb_neq HW_POWERUP HW_RESET)) by wf_solve Hwf.
    cbv iota beta. cbn [fst snd Z.eqb].
    trace_steps; dch_steps; tr_norm. repeat split.
Qed.

Lemma testloop_tl_cases dinfo :
  testloop_tl dinfo = 0 \/ testloop_tl dinfo = 0x3
  \/ testloop_tl dinfo = 0xc \/ testloop_tl dinfo = 0xf.
Proof.
  unfold testloop_tl. destruct (tst 1 dinfo), (tst 2 dinfo); cbn; tauto.
Qed.

(** X9: a test-loop request (PH_CONTROL | REQUEST whose parameter
    contains all bits of HW_TESTLOOP and is none of HW_RESET, HW_POWERUP,
    HW_DEACTIVATE).  Bits 0 and 1 of the parameter select the loops
    (0x0c and 0x03).  In IOM-2 mode SPCR gets the selection and ADF1 gets
    0x8 when a loop is closed and 0x0 when none is; in IOM-1 mode SPCR and
    ADF1 get 0xa and 0x2 when no loop is closed, and the selection and 0xa
    otherwise.  Both writes happen between lock and unlock; the call
    returns 0, releases the request buffer and leaves the channel context
    alone. *)
Theorem ISAC_l1hw_testloop (hif : hisaxif_t) skb m :
  hh_prim skb = Z.lor PH_CONTROL REQUEST ->
  hh_dinfo skb <> HW_RESET -> hh_dinfo skb <> HW_POWERUP ->
  hh_dinfo skb <> HW_DEACTIVATE ->
  Z.land (hh_dinfo skb) HW_TESTLOOP = HW_TESTLOOP ->
  let r := fst (ISAC_l1hw (Some hif) (Some skb) m) in
  let m' := snd (ISAC_l1hw (Some hif) (Some skb) m) in
  let tl := testloop_tl (hh_dinfo skb) in
  let regs := testloop_regs (test_flag HW_IOM1 m) tl in
  r = 0
  /\ dch m' = dch m
  /\ trace m' =
       trace m ++ [EvLock; EvWriteReg ISAC_SPCR (fst regs);
                   EvWriteReg ISAC_ADF1 (snd regs); EvUnlock; EvKfreeSkb skb]
  /\ (tl = 0 \/ tl = 0x3 \/ tl = 0xc \/ tl = 0xf).
Proof.
  intros Hp H1 H2 H3 Ht r m' tl regs. subst r m' regs tl.
  unfold ISAC_l1hw. rewrite not_data_req by now right.
  rewrite Hp, Z.eqb_refl.
  rewrite (proj2 (Z.eqb_neq (Z.lor PH_CONTROL REQUEST) (Z.lor PH_SIGNAL REQUEST)))
    by wf_solve Hwf.
  apply Z.eqb_neq in H1, H2, H3. rewrite H1, H2, H3, Ht, Z.eqb_refl.
  cbv zeta beta. unfold testloop_tl, testloop_regs, test_flag.
  change (test_bit HW_IOM1 (DFlags (dch (lock m))))
    with (test_bit HW_IOM1 (DFlags (dch m))).
  destruct (tst 1 (hh_dinfo skb)), (tst 2 (hh_dinfo skb)),
    (test_bit HW_IOM1 (DFlags (dch m)));
    cbn [Z.lor Pos.lor Pos.succ Z.eqb Pos.eqb negb fst snd];
    trace_steps; dch_steps; tr_norm;
    (split; [reflexivity|]; split; [reflexivity|]; split; [reflexivity|]);
    tauto.
Qed.

End Control.

(** ** Reassembly of a received frame *)

Section Reassembly.
Context {h : isac_h}.

Lemma map_seq_shift {B} (f : nat -> B) a : forall n s,
  map f (seq (a + s) n) = map (fun i => f (a + i)%nat) (seq s n).
Proof.
  induction n as [|n IH]; intros s; [reflexivity|].
  cbn [seq map]. f_equal. rewrite <- IH. f_equal. f_equal. lia.
Qed.

Lemma fifo_next_app a b m m1 :
  rfifo m1 = rfifo m ->
  rfifo_pos m1 = (rfifo_pos m + Z.to_nat a)%nat ->
  0 <= a -> 0 <= b ->
  fifo_next (a + b) m = fifo_next a m ++ fifo_next b m1.
Proof.
  intros Hf Hp Ha Hb. unfold fifo_next.
  rewrite Z2Nat.inj_add by assumption.
  rewrite seq_app, map_app. f_equal.
  rewrite Nat.add_0_l, <- (Nat.add_0_r (Z.to_nat a)), map_seq_shift.
  rewrite Hf, Hp. apply map_ext. intros i. f_equal. f_equal. lia.
Qed.

Lemma skb_put_nil s : skb_put s [] = s.
Proof. destruct s. unfold skb_put. cbn. now rewrite app_nil_r. Qed.

Lemma skb_put_put s l1 l2 : skb_put (skb_put s l1) l2 = skb_put s (l1 ++ l2).
Proof. unfold skb_put. cbn. now rewrite app_assoc. Qed.

Lemma skb_len_put s l : skb_len (skb_put s l) = skb_len s + Z.of_nat (List.length l).
Proof. unfold skb_len, skb_put. cbn. rewrite length_app. lia. Qed.

Lemma isac_empty_fifo_rfifo count m : rfifo (isac_empty_fifo count m) = rfifo m.
Proof.
  unfold isac_empty_fifo. mred.
  destruct (rx_skb (dch m)); mred;
    [|destruct (alloc_ok m (alloc_pos m)); mred];
    repeat (case_if; mred); reflexivity.
Qed.

(** A drain that fits. *)
Lemma isac_empty_fifo_fits count m s :
  rx_buffer_for_drain m = Some s ->
  0 <= count ->
  skb_len s + count < MAX_DFRAME_LEN_L1 ->
  rx_skb (dch (isac_empty_fifo count m)) = Some (skb_put s (fifo_next count m))
  /\ rqueue (dch (isac_empty_fifo count m)) = rqueue (dch m)
  /\ event (dch (isac_empty_fifo count m)) = event (dch m)
  /\ rfifo_pos (isac_empty_fifo count m) = (rfifo_pos m + Z.to_nat count)%nat.
Proof.
  intros Hs H0 Hc.
  rewrite isac_empty_fifo_dch, isac_empty_fifo_pos.
  unfold drain_result, drain_effects. rewrite Hs.
  assert (Hu : uint (skb_len s + count) <= skb_len s + count).
  { unfold uint. apply Z.mod_le; [unfold skb_len; lia | lia]. }
  destruct (uint (skb_len s + count) >=? MAX_DFRAME_LEN_L1) eqn:E; b2p; [lia|].
  repeat split.
Qed.

Lemma rpf_times_drain k : forall m s,
  rx_buffer_for_drain m = Some s ->
  skb_len s + 32 * Z.of_nat k < MAX_DFRAME_LEN_L1 ->
  rx_buffer_for_drain (rpf_times k m)
    = Some (skb_put s (fifo_next (32 * Z.of_nat k) m))
  /\ rqueue (dch (rpf_times k m)) = rqueue (dch m)
  /\ event (dch (rpf_times k m)) = event (dch m)
  /\ rfifo (rpf_times k m) = rfifo m
  /\ rfifo_pos (rpf_times k m) = (rfifo_pos m + 32 * k)%nat.
Proof.
  induction k as [|k IH]; intros m s Hs Hl.
  - cbn [rpf_times]. change (fifo_next (32 * Z.of_nat 0) m) with (@nil Z).
    rewrite skb_put_nil, Nat.mul_0_r, Nat.add_0_r. repeat split. exact Hs.
  - cbn [rpf_times].
    destruct (isac_empty_fifo_fits 32 m s Hs) as (Hr & Hq & He & Hp);
      [lia | lia |].
    pose proof (isac_empty_fifo_rfifo 32 m) as Hf.
    set (m1 := isac_empty_fifo 32 m) in *.
    destruct (IH m1 (skb_put s (fifo_next 32 m))) as (Hr' & Hq' & He' & Hf' & Hp').
    + unfold rx_buffer_for_drain. now rewrite Hr.
    + rewrite skb_len_put, fifo_next_len. lia.
    + rewrite Hr', Hq', He', Hf', Hp', Hq, He, Hf, Hp, skb_put_put.
      repeat split; try lia.
      do 2 f_equal.
      replace (32 * Z.of_nat (S k)) with (32 + 32 * Z.of_nat k) by lia.
      symmetry. apply fifo_next_app; [assumption | | lia | lia].
      rewrite Hp. reflexivity.
Qed.

Hypothesis Hwf : header_wf = true.

(** X10: a frame longer than the FIFO is put together from the FIFO's
    bursts.  Starting with an empty receive slot and a working allocator,
    [k] receive-pool-full interrupts followed by a receive-message-end
    interrupt with a clean status and a byte count [c] (1..32, reported by
    RBCL modulo 32) queue exactly one buffer: the next 32k + c bytes of
    the FIFO, in order, provided that is less than the maximum frame
    length.  The slot is empty again and D_RCVBUFREADY is pending. *)
Theorem rx_frame_reassembly rd k c m :
  rx_skb (dch m) = None ->
  alloc_ok m (alloc_pos m) = true ->
  1 <= c <= 32 ->
  32 * Z.of_nat k + c < MAX_DFRAME_LEN_L1 ->
  Z.land (u8 (rd ISAC_RSTA)) 0x70 = 0x20 ->
  Z.land (u8 (rd ISAC_RBCL)) 0x1f = c mod 32 ->
  let m' := irq_RME rd (rpf_times k m) in
  rqueue (dch m') =
    rqueue (dch m)
    ++ [{| hh_prim := 0; hh_dinfo := 0;
           skb_data := fifo_next (32 * Z.of_nat k + c) m |}]
  /\ rx_skb (dch m') = None
  /\ rfifo_pos m' = (rfifo_pos m + 32 * k + Z.to_nat c)%nat
  /\ test_bit D_RCVBUFREADY (event (dch m')) = true.
Proof.
  intros Hn Ha Hc Hmax Hsta Hcnt m'. subst m'.
  assert (Hd : rx_buffer_for_drain m = Some fresh_skb)
    by (unfold rx_buffer_for_drain; rewrite Hn, Ha; reflexivity).
  destruct (rpf_times_drain k m fresh_skb Hd) as (Hr & Hq & He & Hf & Hp).
  { change (skb_len fresh_skb) with 0. lia. }
  set (mk := rpf_times k m) in *.
  assert (Hcount : (if Z.land (u8 (rd ISAC_RBCL)) 31 =? 0 then 32
                    else Z.land (u8 (rd ISAC_RBCL)) 31) = c).
  { change 31 with 0x1f. rewrite Hcnt.
    destruct (Z.eq_dec c 32) as [->|Hne]; [reflexivity|].
    rewrite Z.mod_small by lia.
    destruct (c =? 0) eqn:E; b2p; [lia | reflexivity]. }
  unfold irq_RME. cbn [read_reg]. cbv iota beta zeta.
  rewrite Hsta, Z.eqb_refl. cbn [negb]. cbv iota beta zeta. rewrite Hcount.
  set (m0 := emit (EvReadReg ISAC_RBCL) (emit (EvReadReg ISAC_RSTA) mk)).
  assert (Hd0 : rx_buffer_for_drain m0
                = Some (skb_put fresh_skb (fifo_next (32 * Z.of_nat k) m)))
    by exact Hr.
  destruct (isac_empty_fifo_fits c m0 _ Hd0) as (Hr1 & Hq1 & He1 & Hp1);
    [lia | |].
  { rewrite skb_len_put, fifo_next_len. change (skb_len fresh_skb) with 0. lia. }
  rewrite Hr1. dch_steps. cbn [rqueue rx_skb event set_rqueue set_rx_skb set_event
                               dchannel_sched_event on_dch dch rfifo_pos].
  rewrite Hq1, He1, Hp1.
  change (rqueue (dch m0)) with (rqueue (dch mk)).
  change (rfifo_pos m0) with (rfifo_pos mk).
  rewrite Hq, Hp. rewrite test_set_eq by wf_solve Hwf.
  repeat split. do 2 f_equal.
  rewrite skb_put_put. unfold skb_put, fresh_skb. cbn [hh_prim hh_dinfo skb_data app].
  f_equal. symmetry. apply fifo_next_app; try lia.
  - exact Hf.
  - change (rfifo_pos m0) with (rfifo_pos mk). rewrite Hp. lia.
Qed.

End Reassembly.

(** ** The end of a transmitted frame *)

Section EndOfFrame.
Context {h : isac_h}.
Hypothesis Hwf : header_wf = true.

(** Loading a frame into the transmit buffer and sending its first
    chunk, as the XPR and XDU blocks and [ISAC_l1hw] do. *)
Lemma load_fill s m1 :
  let m2 := isac_fill_fifo (load_tx_buf s m1) in
  let L := skb_len s in
  tx_len (dch m2) = L
  /\ tx_buf (dch m2) = memcpy (tx_buf (dch m1)) (skb_data s)
  /\ tx_idx (dch m2) = Z.min L 32
  /\ next_skb (dch m2) = next_skb (dch m1)
  /\ event (dch m2) = event (dch m1)
  /\ (forall nr, nr <> FLG_DBUSY_TIMER ->
        test_bit nr (DFlags (dch m2)) = test_bit nr (DFlags (dch m1)))
  /\ trace m2 =
       trace m1
       ++ (if L <=? 0 then [] else
           [EvWriteFifo (firstn (Z.to_nat (Z.min L 32)) (skb_data s));
            EvWriteReg ISAC_CMDR (if 32 <? L then 0x8 else 0xa)]
           ++ (if test_flag FLG_DBUSY_TIMER m1 then [EvDelTimer] else [])
           ++ [EvInitTimer;
               EvAddTimer (ulong (jiffies m1
                                  + Z.quot (DBUSY_TIMER_VALUE * HZ) 1000))]).
Proof.
  intros m2 L. subst m2.
  set (m0 := load_tx_buf s m1).
  assert (HL : 0 <= L) by (subst L; unfold skb_len; lia).
  destruct (isac_fill_fifo_frame m0) as (Fb & Fl & Fn & Fe & _).
  rewrite Fb, Fl, Fn, Fe, isac_fill_fifo_idx, isac_fill_fifo_trace.
  unfold fill_fifo_effects, test_flag.
  change (tx_len (dch m0)) with L. change (tx_idx (dch m0)) with 0.
  change (tx_buf (dch m0)) with (memcpy (tx_buf (dch m1)) (skb_data s)).
  change (next_skb (dch m0)) with (next_skb (dch m1)).
  change (event (dch m0)) with (event (dch m1)).
  change (trace m0) with (trace m1). change (jiffies m0) with (jiffies m1).
  change (DFlags (dch m0)) with (DFlags (dch m1)).
  rewrite Z.sub_0_r, Z.add_0_l. cbn [Z.to_nat skipn].
  split; [reflexivity|]. split; [reflexivity|].
  split; [destruct (L <=? 0) eqn:E; b2p; lia|].
  split; [reflexivity|]. split; [reflexivity|].
  split.
  - intros nr Hnr. now rewrite (isac_fill_fifo_flags Hwf m0 nr Hnr).
  - destruct (L <=? 0) eqn:E; b2p; [reflexivity|].
    rewrite firstn_memcpy by (subst L; unfold skb_len in *; lia).
    reflexivity.
Qed.

Lemma dch_sched_event ev m :
  dch (dchannel_sched_event ev m) = set_event (set_bit ev (event (dch m))) (dch m).
Proof. reflexivity. Qed.

Lemma DFlags_set_event v d : DFlags (set_event v d) = DFlags d.
Proof. reflexivity. Qed.

Lemma event_set_event v d : event (set_event v d) = v.
Proof. reflexivity. Qed.

Lemma dch_flag_clear nr m :
  dch (snd (test_and_clear_flag nr m))
  = set_DFlags (clear_bit nr (DFlags (dch m))) (dch m).
Proof. reflexivity. Qed.

(** The state after [stop_dbusy], as far as the XPR block looks at it. *)
Lemma stop_dbusy_facts m :
  let m1 := stop_dbusy m in
  (forall nr, nr <> FLG_DBUSY_TIMER -> nr <> FLG_L1_DBUSY ->
     test_bit nr (DFlags (dch m1)) = test_bit nr (DFlags (dch m)))
  /\ test_bit FLG_DBUSY_TIMER (DFlags (dch m1)) = false
  /\ test_bit FLG_L1_DBUSY (DFlags (dch m1)) = false
  /\ test_bit D_XMTBUFREADY (event (dch m1)) = test_bit D_XMTBUFREADY (event (dch m))
  /\ tx_buf (dch m1) = tx_buf (dch m)
  /\ tx_idx (dch m1) = tx_idx (dch m)
  /\ tx_len (dch m1) = tx_len (dch m)
  /\ next_skb (dch m1) = next_skb (dch m)
  /\ jiffies m1 = jiffies m
  /\ trace m1 = trace m ++ (if test_flag FLG_DBUSY_TIMER m then [EvDelTimer] else []).
Proof.
  intros m1. subst m1.
  rewrite (stop_dbusy_dch Hwf), stop_dbusy_trace, (proj1 (stop_dbusy_env m)).
  mred. bits Hwf.
  repeat split; try reflexivity.
  - intros nr H1 H2. now rewrite !test_clear_neq by congruence.
  - destruct (test_flag FLG_L1_DBUSY m); [|reflexivity].
    apply test_set_neq; wf_solve Hwf.
Qed.

Lemma irq_XPR_idle m :
  tx_len (dch m) <= tx_idx (dch m) ->
  test_flag FLG_TX_NEXT m = false \/ next_skb (dch m) = None ->
  let m' := irq_XPR m in
  test_flag FLG_TX_BUSY m' = false
  /\ test_flag FLG_TX_NEXT m' = false
  /\ test_flag FLG_DBUSY_TIMER m' = false
  /\ trace m' = trace m ++ (if test_flag FLG_DBUSY_TIMER m then [EvDelTimer] else [])
  /\ tx_buf (dch m') = tx_buf (dch m)
  /\ tx_idx (dch m') = tx_idx (dch m)
  /\ tx_len (dch m') = tx_len (dch m)
  /\ test_bit D_XMTBUFREADY (event (dch m'))
     = test_bit D_XMTBUFREADY (event (dch m)).
Proof.
  intros Hi Hx m'. subst m'. unfold irq_XPR, test_flag in *.
  destruct (stop_dbusy_facts m) as (Hf & Ha & _ & He & Hb & Hix & Hl & Hn & _ & Ht).
  revert Hf Ha He Hb Hix Hl Hn Ht. generalize (stop_dbusy m). intros m1. intros.
  assert (E : (tx_idx (dch m1) <? tx_len (dch m1)) = false)
    by (apply Z.ltb_ge; lia).
  rewrite E. cbn [test_and_clear_flag]. cbv zeta.
  rewrite (Hf FLG_TX_NEXT) by wf_solve Hwf.
  assert (Hfin : forall m2,
            DFlags (dch m2) = clear_bit FLG_TX_BUSY
                                (clear_bit FLG_TX_NEXT (DFlags (dch m1))) ->
            tx_buf (dch m2) = tx_buf (dch m1) ->
            tx_idx (dch m2) = tx_idx (dch m1) ->
            tx_len (dch m2) = tx_len (dch m1) ->
            event (dch m2) = event (dch m1) ->
            trace m2 = trace m1 ->
            test_bit FLG_TX_BUSY (DFlags (dch m2)) = false
            /\ test_bit FLG_TX_NEXT (DFlags (dch m2)) = false
            /\ test_bit FLG_DBUSY_TIMER (DFlags (dch m2)) = false
            /\ trace m2 =
                 trace m ++ (if test_bit FLG_DBUSY_TIMER (DFlags (dch m))
                             then [EvDelTimer] else [])
            /\ tx_buf (dch m2) = tx_buf (dch m)
            /\ tx_idx (dch m2) = tx_idx (dch m)
            /\ tx_len (dch m2) = tx_len (dch m)
            /\ test_bit D_XMTBUFREADY (event (dch m2))
               = test_bit D_XMTBUFREADY (event (dch m))).
  { intros m2 Hf2 Hb2 Hi2 Hl2 He2 Ht2.
    rewrite Hf2, Hb2, Hi2, Hl2, He2, Ht2, Ht. bits Hwf.
    rewrite Ha, He, Hb, Hix, Hl. repeat split; reflexivity. }
  destruct (test_bit FLG_TX_NEXT (DFlags (dch m))) eqn:En.
  - destruct Hx as [Hx|Hx]; [discriminate|].
    cbn [on_dch dch next_skb set_DFlags]. rewrite Hn, Hx.
    apply Hfin; reflexivity.
  - apply Hfin; reflexivity.
Qed.

Lemma irq_XPR_promote m s :
  tx_len (dch m) <= tx_idx (dch m) ->
  test_flag FLG_TX_NEXT m = true -> next_skb (dch m) = Some s ->
  let m' := irq_XPR m in
  let L := skb_len s in
  tx_len (dch m') = L
  /\ tx_buf (dch m') = memcpy (tx_buf (dch m)) (skb_data s)
  /\ firstn (List.length (skb_data s)) (tx_buf (dch m')) = skb_data s
  /\ tx_idx (dch m') = Z.min L 32
  /\ test_flag FLG_TX_NEXT m' = false
  /\ test_flag FLG_TX_BUSY m' = test_flag FLG_TX_BUSY m
  /\ next_skb (dch m') = Some s
  /\ test_bit D_XMTBUFREADY (event (dch m')) = true
  /\ trace m' =
       trace m ++ (if test_flag FLG_DBUSY_TIMER m then [EvDelTimer] else [])
       ++ (if L <=? 0 then [] else
           [EvWriteFifo (firstn (Z.to_nat (Z.min L 32)) (skb_data s));
            EvWriteReg ISAC_CMDR (if 32 <? L then 0x8 else 0xa);
            EvInitTimer;
            EvAddTimer (ulong (jiffies m
                               + Z.quot (DBUSY_TIMER_VALUE * HZ) 1000))]).
Proof.
  intros Hi Hx Hs m' L. subst m'. unfold irq_XPR, test_flag in *.
  destruct (stop_dbusy_facts m) as (Hf & Ha & _ & He & Hb & Hix & Hl & Hn & Hj & Ht).
  revert Hf Ha He Hb Hix Hl Hn Hj Ht. generalize (stop_dbusy m). intros m1. intros.
  assert (E : (tx_idx (dch m1) <? tx_len (dch m1)) = false)
    by (apply Z.ltb_ge; lia).
  rewrite E. cbn [test_and_clear_flag]. cbv zeta.
  rewrite (Hf FLG_TX_NEXT), Hx by wf_solve Hwf.
  cbn [on_dch dch next_skb set_DFlags]. rewrite Hn, Hs.
  match goal with |- context [load_tx_buf s ?x] => set (m2 := x) end.
  assert (F2 : DFlags (dch m2) = clear_bit FLG_TX_NEXT (DFlags (dch m1))
               /\ tx_buf (dch m2) = tx_buf (dch m1)
               /\ next_skb (dch m2) = next_skb (dch m1)
               /\ event (dch m2) = event (dch m1)
               /\ trace m2 = trace m1 /\ jiffies m2 = jiffies m1)
    by (repeat split).
  clearbody m2. destruct F2 as (G1 & G2 & G3 & G4 & G5 & G6).
  destruct (load_fill s m2) as (Fl & Fb & Fi & Fn & Fe & Ff & Ftr).
  fold L in Fl, Fi, Ftr. unfold test_flag in Ftr.
  revert Fl Fb Fi Fn Fe Ff Ftr.
  generalize (isac_fill_fifo (load_tx_buf s m2)). intros m3. intros.
  rewrite dchannel_sched_event_trace, dch_sched_event.
  cbn [set_event tx_len tx_buf tx_idx next_skb DFlags event].
  rewrite Fl, Fb, Fi, Fn, Ftr, !Ff by wf_solve Hwf.
  rewrite G1, G2, G3, G5, G6, Hb, Hn, Hj, Ht. bits Hwf.
  rewrite Ha, (Hf FLG_TX_BUSY), memcpy_prefix by wf_solve Hwf.
  repeat split; try reflexivity; try assumption.
  now rewrite <- app_assoc.
Qed.

(** X11: a transmit-pool-ready interrupt when the frame in the buffer is
    out (tx_idx >= tx_len).  The busy timer is stopped.  Without a queued
    frame (FLG_TX_NEXT clear, or set with next_skb empty) FLG_TX_BUSY is
    cleared and nothing goes to the FIFO.  With a queued frame the frame
    is copied to the start of the transmit buffer, its first chunk is
    sent, FLG_TX_NEXT is cleared, FLG_TX_BUSY stays as it was and
    D_XMTBUFREADY is scheduled; next_skb still holds the frame. *)
Theorem irq_XPR_end_of_frame m :
  tx_len (dch m) <= tx_idx (dch m) ->
  let m' := irq_XPR m in
  let disarm := if test_flag FLG_DBUSY_TIMER m then [EvDelTimer] else [] in
  (test_flag FLG_TX_NEXT m = false \/ next_skb (dch m) = None ->
     test_flag FLG_TX_BUSY m' = false
     /\ test_flag FLG_TX_NEXT m' = false
     /\ test_flag FLG_DBUSY_TIMER m' = false
     /\ trace m' = trace m ++ disarm
     /\ tx_buf (dch m') = tx_buf (dch m)
     /\ tx_idx (dch m') = tx_idx (dch m)
     /\ tx_len (dch m') = tx_len (dch m)
     /\ test_bit D_XMTBUFREADY (event (dch m'))
        = test_bit D_XMTBUFREADY (event (dch m)))
  /\
  (forall s, test_flag FLG_TX_NEXT m = true -> next_skb (dch m) = Some s ->
     let L := skb_len s in
     tx_len (dch m') = L
     /\ tx_buf (dch m') = memcpy (tx_buf (dch m)) (skb_data s)
     /\ firstn (List.length (skb_data s)) (tx_buf (dch m')) = skb_data s
     /\ tx_idx (dch m') = Z.min L 32
     /\ test_flag FLG_TX_NEXT m' = false
     /\ test_flag FLG_TX_BUSY m' = test_flag FLG_TX_BUSY m
     /\ next_skb (dch m') = Some s
     /\ test_bit D_XMTBUFREADY (event (dch m')) = true
     /\ trace m' =
          trace m ++ disarm
          ++ (if L <=? 0 then [] else
              [EvWriteFifo (firstn (Z.to_nat (Z.min L 32)) (skb_data s));
               EvWriteReg ISAC_CMDR (if 32 <? L then 0x8 else 0xa);
               EvInitTimer;
               EvAddTimer (ulong (jiffies m
                                  + Z.quot (DBUSY_TIMER_VALUE * HZ) 1000))])).
Proof.
  intros Hi m' disarm. subst m' disarm. split.
  - intros Hx. exact (irq_XPR_idle m Hi Hx).
  - intros s Hx Hs. exact (irq_XPR_promote m s Hi Hx Hs).
Qed.

End EndOfFrame.

(** ** A frame from request to completion *)

Section Completion.
Context {h : isac_h}.
Hypothesis Hwf : header_wf = true.

Lemma irq_effect_no_upcall l : forallb irq_effect l = true -> upcalls l = [].
Proof.
  induction l as [|e l IH]; [reflexivity|].
  cbn [forallb]. intros H. apply andb_true_iff in H. destruct H as [He Hl].
  unfold upcalls in *. cbn [filter].
  destruct e; try discriminate; cbn [is_upcall]; auto.
Qed.

Lemma appends_upcalls m m' :
  appends irq_effect m m' -> upcalls (trace m') = upcalls (trace m).
Proof.
  intros (l & Hl & Hs). rewrite Hl, upcalls_app, (irq_effect_no_upcall l Hs).
  apply app_nil_r.
Qed.

Lemma xpr_times_upcalls n : forall m,
  upcalls (trace (xpr_times n m)) = upcalls (trace m).
Proof.
  induction n as [|n IH]; intros m; [reflexivity|].
  cbn [xpr_times]. rewrite IH. apply appends_upcalls, irq_XPR_irq.
Qed.

(** A transmit-pool-ready interrupt while bytes remain: the flags other
    than the two of the busy timer, and the queued frame, stay. *)
Lemma irq_XPR_continue_flags m :
  tx_idx (dch m) < tx_len (dch m) ->
  (forall nr, nr <> FLG_DBUSY_TIMER -> nr <> FLG_L1_DBUSY ->
     test_bit nr (DFlags (dch (irq_XPR m))) = test_bit nr (DFlags (dch m)))
  /\ next_skb (dch (irq_XPR m)) = next_skb (dch m)
  /\ test_bit FLG_DBUSY_TIMER (DFlags (dch (irq_XPR m))) = true.
Proof.
  intros Hi. unfold irq_XPR.
  destruct (stop_dbusy_facts Hwf m) as (Hf & Ha & _ & He & Hb & Hix & Hl & Hn & _ & Ht).
  revert Hf Ha He Hb Hix Hl Hn Ht. generalize (stop_dbusy m). intros m1. intros.
  assert (E : (tx_idx (dch m1) <? tx_len (dch m1)) = true)
    by (apply Z.ltb_lt; lia).
  rewrite E.
  destruct (isac_fill_fifo_frame m1) as (_ & _ & Fn & _).
  rewrite Fn, Hn. repeat split.
  - intros nr H1 H2. rewrite (isac_fill_fifo_flags Hwf) by assumption.
    now apply Hf.
  - rewrite isac_fill_fifo_dch by lia. mred. now bits Hwf.
Qed.

Lemma xpr_times_flags n : forall m,
  0 <= tx_idx (dch m) <= tx_len (dch m) ->
  32 * (Z.of_nat n - 1) < tx_len (dch m) - tx_idx (dch m) <= 32 * Z.of_nat n ->
  tx_idx (dch (xpr_times n m)) = tx_len (dch m)
  /\ tx_len (dch (xpr_times n m)) = tx_len (dch m)
  /\ next_skb (dch (xpr_times n m)) = next_skb (dch m)
  /\ (forall nr, nr <> FLG_DBUSY_TIMER -> nr <> FLG_L1_DBUSY ->
        test_bit nr (DFlags (dch (xpr_times n m))) = test_bit nr (DFlags (dch m))).
Proof.
  induction n as [|n IH]; intros m Hi Hr; cbn [xpr_times].
  - repeat split. lia.
  - destruct (irq_XPR_continue Hwf m) as (_ & Hl & Hx & _); [lia|].
    destruct (irq_XPR_continue_flags m) as (Hf & Hn & _); [lia|].
    destruct (IH (irq_XPR m)) as (Hi' & Hl' & Hn' & Hf'); rewrite ?Hx, ?Hl; try lia.
    rewrite Hi', Hl', Hn', Hl, Hn. repeat split.
    intros nr H1 H2. now rewrite Hf', Hf.
Qed.

(** X12: a frame from the request to the release of the transmitter.  A
    send-frame request of L > 0 bytes on an idle channel, followed by as
    many transmit-pool-ready interrupts as there are further 32-byte
    chunks, has written exactly the frame's bytes to the FIFO, in order;
    the transmitter is still busy.  The next such interrupt writes
    nothing more, clears FLG_TX_BUSY and leaves the busy timer stopped.
    Over the whole run the upper layer was called exactly once, with the
    confirmation of the request. *)
Theorem send_frame_completes (hif : hisaxif_t) skb m (n : nat) :
  hh_prim skb = PH_DATA_REQ ->
  next_skb (dch m) = None ->
  test_flag FLG_TX_BUSY m = false ->
  test_flag FLG_TX_NEXT m = false ->
  32 * Z.of_nat n < skb_len skb <= 32 * (Z.of_nat n + 1) ->
  let m1 := snd (ISAC_l1hw (Some hif) (Some skb) m) in
  let m2 := xpr_times n m1 in
  let m3 := irq_XPR m2 in
  fifo_written (trace m2) = fifo_written (trace m) ++ skb_data skb
  /\ tx_idx (dch m2) = skb_len skb
  /\ test_flag FLG_TX_BUSY m2 = true
  /\ fifo_written (trace m3) = fifo_written (trace m2)
  /\ test_flag FLG_TX_BUSY m3 = false
  /\ test_flag FLG_DBUSY_TIMER m3 = false
  /\ upcalls (trace m3)
     = upcalls (trace m) ++ [EvIfNewhead PH_DATA_CNF DINFO_SKB skb].
Proof.
  intros Hp Hn Hb Hx HL m1 m2 m3.
  destruct (ISAC_l1hw_start Hwf hif skb m Hp Hn Hb)
    as (Hl1 & Hbuf1 & Hpre1 & Hi1 & Hbusy1 & Hn1 & Ht1 & _).
  fold m1 in Hl1, Hbuf1, Hpre1, Hi1, Hbusy1, Hn1, Ht1.
  assert (E : (skb_len skb <=? 0) = false) by (apply Z.leb_gt; lia).
  rewrite E in Ht1.
  assert (Hx1 : test_bit FLG_TX_NEXT (DFlags (dch m1)) = false).
  { subst m1. unfold ISAC_l1hw. rewrite Hp, Z.eqb_refl, Hn.
    cbn [test_and_set_flag]. unfold test_flag in Hb, Hx.
    rewrite dch_lock, Hb. cbv iota beta zeta. rewrite dch_if_newhead, dch_unlock.
    rewrite (isac_fill_fifo_flags Hwf) by wf_solve Hwf.
    cbn [load_tx_buf on_dch dch DFlags set_tx_idx set_tx_buf set_tx_len set_DFlags
         lock emit].
    rewrite test_set_neq by wf_solve Hwf. exact Hx. }
  clearbody m1.
  destruct (xpr_times_sends Hwf n m1) as (Hw2 & Hb2 & _); rewrite ?Hi1, ?Hl1; try lia.
  destruct (xpr_times_flags n m1) as (Hi2 & Hl2 & Hn2 & Hf2);
    rewrite ?Hi1, ?Hl1; try lia.
  fold m2 in Hw2, Hb2, Hi2, Hl2, Hn2, Hf2.
  pose proof (xpr_times_upcalls n m1) as Hu2. fold m2 in Hu2.
  rewrite Hi1, Hl1 in Hw2. rewrite Hl1 in Hi2, Hl2.
  assert (Hbusy2 : test_flag FLG_TX_BUSY m2 = true).
  { unfold test_flag in *. rewrite Hf2 by wf_solve Hwf. exact Hbusy1. }
  assert (Hx2 : test_flag FLG_TX_NEXT m2 = false).
  { unfold test_flag in *. rewrite Hf2 by wf_solve Hwf. exact Hx1. }
  clearbody m2.
  destruct (irq_XPR_idle Hwf m2) as (Hb3 & _ & Ha3 & Ht3 & _); [lia | now left |].
  fold m3 in Hb3, Ha3, Ht3.
  pose proof (appends_upcalls m2 m3 (irq_XPR_irq m2)) as Hu3.
  clearbody m3.
  split; [|split; [exact Hi2|split; [exact Hbusy2|split; [|split; [exact Hb3|
    split; [exact Ha3|]]]]]].
  - rewrite Hw2, Ht1, Hbuf1, !fifo_written_app.
    assert (Hd : fifo_written (if test_flag FLG_DBUSY_TIMER m
                               then [EvDelTimer] else []) = [])
      by (destruct (test_flag FLG_DBUSY_TIMER m); reflexivity).
    rewrite Hd. cbn [fifo_written flat_map app].
    rewrite ?app_nil_r, <- ?app_assoc. cbn [app]. f_equal.
    rewrite <- (firstn_memcpy _ (tx_buf (dch m)))
      by (unfold skb_len in *; lia).
    pose proof (firstn_skipn_chunk (memcpy (tx_buf (dch m)) (skb_data skb)) 0
                  (Z.to_nat (Z.min (skb_len skb) 32))
                  (Z.to_nat (skb_len skb - Z.min (skb_len skb) 32))) as Hc.
    cbn [skipn Nat.add] in Hc. rewrite Hc.
    replace (Z.to_nat (Z.min (skb_len skb) 32)
             + Z.to_nat (skb_len skb - Z.min (skb_len skb) 32))%nat
      with (List.length (skb_data skb)) by (unfold skb_len; lia).
    apply memcpy_prefix.
  - rewrite Ht3, fifo_written_app.
    destruct (test_flag FLG_DBUSY_TIMER m2); cbn; apply app_nil_r.
  - rewrite Hu3, Hu2, Ht1, !upcalls_app.
    assert (Hd : upcalls (if test_flag FLG_DBUSY_TIMER m
                          then [EvDelTimer] else []) = [])
      by (destruct (test_flag FLG_DBUSY_TIMER m); reflexivity).
    rewrite Hd. cbn [upcalls filter is_upcall app].
    now rewrite ?app_nil_r.
Qed.

End Completion.

(** ** After the busy timer *)

Section AfterBusyTimer.
Context {h : isac_h}.
Hypothesis Hwf : header_wf = true.

Lemma dbusy_stall_state rd m :
  test_flag FLG_DBUSY_TIMER m = true ->
  tst (u8 (rd ISAC_RBCH)) ISAC_RBCH_XAC = false ->
  let m1 := dbusy_timer_handler false rd m in
  tx_idx (dch m1) = 0
  /\ tx_len (dch m1) = tx_len (dch m)
  /\ tx_buf (dch m1) = tx_buf (dch m)
  /\ DFlags (dch m1) = clear_bit FLG_DBUSY_TIMER (DFlags (dch m))
  /\ fifo_written (trace m1) = fifo_written (trace m).
Proof.
  intros Ha Hx m1. subst m1. unfold dbusy_timer_handler, test_flag in *.
  rewrite Ha. mred. rewrite Hx. mred.
  destruct (tx_idx (dch m) =? 0) eqn:E; b2p; mred; tr_norm;
    rewrite fifo_written_app; cbn [fifo_written flat_map app];
    rewrite app_nil_r; repeat split; try reflexivity; assumption.
Qed.

Lemma dbusy_busy_state rd m :
  test_flag FLG_DBUSY_TIMER m = true ->
  tst (u8 (rd ISAC_RBCH)) ISAC_RBCH_XAC = true ->
  let m1 := dbusy_timer_handler false rd m in
  tx_idx (dch m1) = tx_idx (dch m)
  /\ tx_len (dch m1) = tx_len (dch m)
  /\ event (dch m1) = event (dch m)
  /\ DFlags (dch m1) = set_bit FLG_L1_DBUSY (DFlags (dch m))
  /\ trace m1 = trace m ++ [EvLock; EvReadReg ISAC_RBCH; EvReadReg ISAC_STAR;
                            EvUnlock].
Proof.
  intros Ha Hx m1. subst m1. unfold dbusy_timer_handler, test_flag in *.
  rewrite Ha. mred. rewrite Hx. mred. tr_norm. repeat split.
Qed.

(** X13: what follows an expiry of the busy timer.  When the expiry found
    the transmitter stalled (RBCH without XAC) and reset it, the next
    transmit-pool-ready interrupt sends the frame in the buffer again from
    its first byte and arms the busy timer anew.  When the expiry found
    the D channel busy (XAC set) and only flagged it, the next
    transmit-pool-ready interrupt deletes the timer, clears the flag and
    schedules D_CLEARBUSY. *)
Theorem dbusy_then_XPR rd m :
  test_flag FLG_DBUSY_TIMER m = true ->
  let m1 := dbusy_timer_handler false rd m in
  let m2 := irq_XPR m1 in
  (tst (u8 (rd ISAC_RBCH)) ISAC_RBCH_XAC = false -> 0 < tx_len (dch m) ->
     fifo_written (trace m2) =
       fifo_written (trace m)
       ++ firstn (Z.to_nat (Z.min (tx_len (dch m)) 32)) (tx_buf (dch m))
     /\ tx_idx (dch m2) = Z.min (tx_len (dch m)) 32
     /\ tx_len (dch m2) = tx_len (dch m)
     /\ test_flag FLG_DBUSY_TIMER m2 = true
     /\ test_flag FLG_TX_BUSY m2 = test_flag FLG_TX_BUSY m)
  /\
  (tst (u8 (rd ISAC_RBCH)) ISAC_RBCH_XAC = true ->
     test_flag FLG_L1_DBUSY m1 = true
     /\ test_flag FLG_L1_DBUSY m2 = false
     /\ test_bit D_CLEARBUSY (event (dch m2)) = true
     /\ exists l, trace m2 = trace m1 ++ EvDelTimer :: l).
Proof.
  intros Ha m1 m2. split.
  - intros Hx HL.
    destruct (dbusy_stall_state rd m Ha Hx) as (Hi1 & Hl1 & Hb1 & Hf1 & Hw1).
    fold m1 in Hi1, Hl1, Hb1, Hf1, Hw1. clearbody m1.
    destruct (irq_XPR_continue Hwf m1) as (_ & Hl2 & Hi2 & Hbusy2 & Hw2); [lia|].
    destruct (irq_XPR_continue_flags Hwf m1) as (_ & _ & Ha2); [lia|].
    fold m2 in Hl2, Hi2, Hbusy2, Hw2, Ha2. clearbody m2.
    rewrite Hw2, Hi2, Hl2, Hbusy2, Hw1, Hi1, Hl1, Hb1. unfold test_flag.
    rewrite Hf1, Z.sub_0_r, Z.add_0_l. cbn [Z.to_nat skipn].
    repeat split; try assumption.
    apply test_clear_neq. wf_solve Hwf.
  - intros Hx.
    destruct (dbusy_busy_state rd m Ha Hx) as (Hi1 & Hl1 & He1 & Hf1 & Ht1).
    fold m1 in Hi1, Hl1, He1, Hf1, Ht1.
    assert (Hd1 : test_flag FLG_L1_DBUSY m1 = true).
    { unfold test_flag. rewrite Hf1. apply test_set_eq. wf_solve Hwf. }
    assert (Ha1 : test_flag FLG_DBUSY_TIMER m1 = true).
    { unfold test_flag in *. rewrite Hf1, test_set_neq by wf_solve Hwf. exact Ha. }
    clearbody m1. split; [exact Hd1|].
    subst m2. unfold irq_XPR.
    pose proof (stop_dbusy_dch Hwf m1) as Hd. pose proof (stop_dbusy_trace m1) as Ht.
    rewrite Hd1 in Hd. rewrite Ha1 in Ht.
    assert (Hc : test_bit FLG_L1_DBUSY (DFlags (dch (stop_dbusy m1))) = false
                 /\ test_bit D_CLEARBUSY (event (dch (stop_dbusy m1))) = true).
    { rewrite Hd. mred. bits Hwf. split; reflexivity. }
    revert Hd Ht Hc. generalize (stop_dbusy m1). intros ms Hd Ht (Hc1 & Hc2).
    assert (Hfill : forall mx,
              test_bit FLG_L1_DBUSY (DFlags (dch mx)) = false ->
              test_bit D_CLEARBUSY (event (dch mx)) = true ->
              (exists l, trace mx = trace ms ++ l) ->
              test_flag FLG_L1_DBUSY mx = false
              /\ test_bit D_CLEARBUSY (event (dch mx)) = true
              /\ exists l, trace mx = trace m1 ++ EvDelTimer :: l).
    { intros mx H1 H2 (l & H3). repeat split; try assumption.
      exists l. now rewrite H3, Ht, <- app_assoc. }
    assert (Hff : forall mx,
              test_bit FLG_L1_DBUSY (DFlags (dch mx)) = false ->
              test_bit D_CLEARBUSY (event (dch mx)) = true ->
              (exists l, trace mx = trace ms ++ l) ->
              test_bit FLG_L1_DBUSY (DFlags (dch (isac_fill_fifo mx))) = false
              /\ test_bit D_CLEARBUSY (event (dch (isac_fill_fifo mx))) = true
              /\ (exists l, trace (isac_fill_fifo mx) = trace ms ++ l)).
    { intros mx H1 H2 (l & H3).
      destruct (isac_fill_fifo_frame mx) as (_ & _ & _ & Fe & _).
      rewrite Fe, (isac_fill_fifo_flags Hwf), isac_fill_fifo_trace, H3
        by wf_solve Hwf.
      repeat split; try assumption. eexists. now rewrite <- app_assoc. }
    case_if.
    + destruct (Hff ms Hc1 Hc2) as (G1 & G2 & G3);
        [exists []; now rewrite app_nil_r|].
      now apply Hfill.
    + cbn [test_and_clear_flag]. case_if.
      * case_match.
        -- match goal with |- context [isac_fill_fifo ?x] =>
             destruct (Hff x) as (G1 & G2 & G3)
           end.
           ++ mred. now rewrite test_clear_neq by wf_solve Hwf.
           ++ exact Hc2.
           ++ exists []. now rewrite app_nil_r.
           ++ apply Hfill.
              ** rewrite dch_sched_event, DFlags_set_event. exact G1.
              ** rewrite dch_sched_event, event_set_event.
                 apply test_set_mono; [wf_solve Hwf | exact G2].
              ** rewrite dchannel_sched_event_trace. exact G3.
        -- apply Hfill; mred.
           ++ now rewrite !test_clear_neq by wf_solve Hwf.
           ++ exact Hc2.
           ++ exists []. now rewrite app_nil_r.
      * apply Hfill; mred.
        -- now rewrite !test_clear_neq by wf_solve Hwf.
        -- exact Hc2.
        -- exists []. now rewrite app_nil_r.
Qed.

End AfterBusyTimer.

(** ** The bottom half *)

Section BottomHalf.
Context {h : isac_h}.
Hypothesis Hwf : header_wf = true.

Lemma isac_hwbh_dch m :
  dch (isac_hwbh m) =
  set_event
    (if test_flag HW_ARCOFI m
     then clear_bit D_TX_MON1
            (clear_bit D_RX_MON1 (clear_bit D_L1STATECHANGE (event (dch m))))
     else clear_bit D_L1STATECHANGE (event (dch m)))
    (dch m).
Proof.
  unfold isac_hwbh. cbn [test_and_clear_event]. cbv zeta.
  match goal with |- context [negb (test_flag HW_ARCOFI ?x)] => set (m2 := x) end.
  assert (H2 : dch m2 = set_event (clear_bit D_L1STATECHANGE (event (dch m))) (dch m)).
  { subst m2. case_if; rewrite ?isac_new_ph_dch; reflexivity. }
  clearbody m2. unfold test_flag.
  repeat (mred; rewrite ?H2; mred; try case_if);
    destruct (dch m); try reflexivity; discriminate.
Qed.

Lemma isac_hwbh_quiet m :
  test_bit D_L1STATECHANGE (event (dch m)) = false ->
  (test_flag HW_ARCOFI m = true ->
     test_bit D_RX_MON1 (event (dch m)) = false
     /\ test_bit D_TX_MON1 (event (dch m)) = false) ->
  trace (isac_hwbh m) = trace m.
Proof.
  intros Hc Ha. unfold isac_hwbh, test_flag in *. mred. rewrite Hc. mred.
  destruct (test_bit HW_ARCOFI (DFlags (dch m))); mred; [|reflexivity].
  destruct Ha as [H1 H2]; [reflexivity|].
  rewrite !test_clear_neq by wf_solve Hwf. rewrite H1. mred.
  rewrite !test_clear_neq by wf_solve Hwf. rewrite H2.
  reflexivity.
Qed.

(** X14: the bottom half consumes what it handles, and only that.  After
    isac_hwbh the state-change event is no longer pending, and neither are
    the two monitor-channel-1 events when the chip has an ARCOFI; every
    other pending event (receive and transmit notifications, busy-cleared,
    the monitor-channel-0 events, and the channel-1 events without an
    ARCOFI) is still pending, and nothing but the event mask has changed.
    A second run right after the first does nothing: no notification is
    delivered twice. *)
Theorem isac_hwbh_consumes m :
  let m' := isac_hwbh m in
  test_bit D_L1STATECHANGE (event (dch m')) = false
  /\ (test_flag HW_ARCOFI m = true ->
        test_bit D_RX_MON1 (event (dch m')) = false
        /\ test_bit D_TX_MON1 (event (dch m')) = false)
  /\ (forall nr, nr <> D_L1STATECHANGE ->
        test_flag HW_ARCOFI m = false \/ (nr <> D_RX_MON1 /\ nr <> D_TX_MON1) ->
        test_bit nr (event (dch m')) = test_bit nr (event (dch m)))
  /\ dch m' = set_event (event (dch m')) (dch m)
  /\ trace (isac_hwbh m') = trace m'.
Proof.
  intros m'.
  pose proof (isac_hwbh_dch m) as Hd. fold m' in Hd. clearbody m'.
  assert (H1 : test_bit D_L1STATECHANGE (event (dch m')) = false).
  { rewrite Hd. mred. destruct (test_flag HW_ARCOFI m); now bits Hwf. }
  assert (H2 : test_flag HW_ARCOFI m = true ->
               test_bit D_RX_MON1 (event (dch m')) = false
               /\ test_bit D_TX_MON1 (event (dch m')) = false).
  { intros Ha. rewrite Hd, Ha. mred. split; now bits Hwf. }
  split; [exact H1|]. split; [exact H2|]. split; [|split].
  - intros nr Hn Hx. rewrite Hd. mred.
    destruct (test_flag HW_ARCOFI m).
    + destruct Hx as [Hx|[Hx1 Hx2]]; [discriminate|].
      now rewrite !test_clear_neq by congruence.
    + now rewrite test_clear_neq by congruence.
  - rewrite Hd. reflexivity.
  - apply isac_hwbh_quiet; [exact H1|].
    intros Ha. apply H2. unfold test_flag in *. rewrite Hd in Ha. exact Ha.
Qed.

End BottomHalf.

(** ** The monitor channel: reception *)

(** Both receive blocks, case by case. *)
Ltac mon_rx_cases m :=
  mred;
  destruct (mon_rx (hw (dch m))) as [b|] eqn:Eb; mred;
  [|destruct (alloc_ok m (alloc_pos m)) eqn:Ea; mred];
  repeat (case_if; mred).

Section MonitorReceive.
Context {h : isac_h}.



Lemma mon_RX0_store rd m b :
  mon_rx (hw (dch m)) = Some b -> mon_rxp (hw (dch m)) < MAX_MON_FRAME ->
  mon_rx (hw (dch (mon_RX0 rd m)))
    = Some (array_set b (Z.to_nat (mon_rxp (hw (dch m)))) (u8 (rd ISAC_MOR0)))
  /\ mon_rxp (hw (dch (mon_RX0 rd m))) = mon_rxp (hw (dch m)) + 1
  /\ mon_tx (hw (dch (mon_RX0 rd m))) = mon_tx (hw (dch m))
  /\ alloc_pos (mon_RX0 rd m) = alloc_pos m
  /\ exists l, trace (mon_RX0 rd m) = trace m ++ EvReadReg ISAC_MOR0 :: l.
Proof.
  intros Hb Hp. unfold mon_RX0. rewrite Hb. mred.
  destruct (mon_rxp (hw (dch m)) >=? MAX_MON_FRAME) eqn:E; b2p; [lia|].
  mred. case_if; mred; tr_norm; repeat split; eexists; reflexivity.
Qed.

Lemma mon_RX1_store rd m b :
  mon_rx (hw (dch m)) = Some b -> mon_rxp (hw (dch m)) < MAX_MON_FRAME ->
  mon_rx (hw (dch (mon_RX1 rd m)))
    = Some (array_set b (Z.to_nat (mon_rxp (hw (dch m)))) (u8 (rd ISAC_MOR1)))
  /\ mon_rxp (hw (dch (mon_RX1 rd m))) = mon_rxp (hw (dch m)) + 1
  /\ mon_tx (hw (dch (mon_RX1 rd m))) = mon_tx (hw (dch m))
  /\ alloc_pos (mon_RX1 rd m) = alloc_pos m
  /\ exists l, trace (mon_RX1 rd m) = trace m ++ EvReadReg ISAC_MOR1 :: l.
Proof.
  intros Hb Hp. unfold mon_RX1. rewrite Hb. mred.
  destruct (mon_rxp (hw (dch m)) >=? MAX_MON_FRAME) eqn:E; b2p; [lia|].
  mred. tr_norm. repeat split. eexists; reflexivity.
Qed.



Lemma array_set_split (l : list Z) v : forall i,
  (i < List.length l)%nat ->
  array_set l i v = firstn i l ++ v :: skipn (S i) l.
Proof.
  induction l as [|x l IH]; intros i Hi; cbn [List.length] in Hi; [lia|].
  destruct i as [|i]; cbn [array_set firstn skipn app]; [reflexivity|].
  rewrite IH by lia. reflexivity.
Qed.

Lemma array_set_length (l : list Z) v : forall i,
  List.length (array_set l i v) = List.length l.
Proof.
  induction l as [|x l IH]; intros i; [reflexivity|].
  destruct i; cbn [array_set List.length]; [reflexivity|]. now rewrite IH.
Qed.





Lemma mon_rx_ok_iff c :
  mon_rx_ok c = true <->
  0 <= mon_rxp c <= MAX_MON_FRAME
  /\ (forall b, mon_rx c = Some b -> Z.of_nat (List.length b) = MAX_MON_FRAME).
Proof.
  unfold mon_rx_ok. rewrite !andb_true_iff, !Z.leb_le.
  destruct (mon_rx c) as [b|].
  - rewrite Z.eqb_eq. split.
    + intros [[H1 H2] H3]. split; [lia|]. intros b' Hb. now injection Hb as <-.
    + intros [H1 H2]. split; [lia|]. now apply H2.
  - split.
    + intros [[H1 H2] _]. split; [lia|]. discriminate.
    + intros [H1 _]. split; [lia|reflexivity].
Qed.

Lemma mon_RX0_rx_ok rd m :
  0 <= MAX_MON_FRAME ->
  mon_rx_ok (hw (dch m)) = true -> mon_rx_ok (hw (dch (mon_RX0 rd m))) = true.
Proof.
  intros Hmax Hok. apply mon_rx_ok_iff in Hok. destruct Hok as [Hp Hl].
  apply mon_rx_ok_iff. unfold mon_RX0. mon_rx_cases m; b2p;
    (split; [try lia | intros b' Hb'; rewrite ?Eb in Hb'; try discriminate;
                        try (injection Hb' as <-);
                        rewrite ?array_set_length, ?repeat_length;
                        first [ now apply Hl | lia ]]).
Qed.

Lemma mon_RX1_rx_ok rd m :
  0 <= MAX_MON_FRAME ->
  mon_rx_ok (hw (dch m)) = true -> mon_rx_ok (hw (dch (mon_RX1 rd m))) = true.
Proof.
  intros Hmax Hok. apply mon_rx_ok_iff in Hok. destruct Hok as [Hp Hl].
  apply mon_rx_ok_iff. unfold mon_RX1. mon_rx_cases m; b2p;
    (split; [try lia | intros b' Hb'; rewrite ?Eb in Hb'; try discriminate;
                        try (injection Hb' as <-);
                        rewrite ?array_set_length, ?repeat_length;
                        first [ now apply Hl | lia ]]).
Qed.

Lemma mon_other_rx_ok v1 m :
  mon_rx_ok (hw (dch (mon_RXEND0 m))) = mon_rx_ok (hw (dch m))
  /\ mon_rx_ok (hw (dch (mon_RXEND1 m))) = mon_rx_ok (hw (dch m))
  /\ mon_rx_ok (hw (dch (mon_TX0 v1 m))) = mon_rx_ok (hw (dch m))
  /\ mon_rx_ok (hw (dch (mon_TX1 v1 m))) = mon_rx_ok (hw (dch m)).
Proof.
  unfold mon_RXEND0, mon_RXEND1, mon_TX0, mon_TX1, mon_tx_done.
  repeat split; repeat (mred; first [case_if | case_match]); reflexivity.
Qed.

(** X16: the monitor receive cursor never leaves the buffer.  If the
    cursor is within 0..MAX_MON_FRAME and a buffer that is there has
    MAX_MON_FRAME bytes, the same holds after any interrupt; a byte is
    stored only at a cursor below MAX_MON_FRAME, that is inside the
    buffer, where it can be read back. *)
Theorem ISAC_interrupt_mon_rx_ok rd val m :
  0 <= MAX_MON_FRAME ->
  mon_rx_ok (hw (dch m)) = true ->
  mon_rx_ok (hw (dch (ISAC_interrupt rd val m))) = true
  /\ (forall b,
        mon_rx (hw (dch m)) = Some b -> mon_rxp (hw (dch m)) < MAX_MON_FRAME ->
        let p := Z.to_nat (mon_rxp (hw (dch m))) in
        (p < List.length b)%nat
        /\ (forall b', mon_rx (hw (dch (mon_RX0 rd m))) = Some b' ->
               nth p b' 0 = u8 (rd ISAC_MOR0))
        /\ (forall b', mon_rx (hw (dch (mon_RX1 rd m))) = Some b' ->
               nth p b' 0 = u8 (rd ISAC_MOR1))).
Proof.
  intros Hmax Hok. split.
  - revert Hok.
    apply (ISAC_interrupt_steps
             (fun m m' => mon_rx_ok (hw (dch m)) = true ->
                          mon_rx_ok (hw (dch m')) = true)); auto.
    + intros _ rd0 m0 H0. kept H0 (@irq_RME_keeps h _ (fun d => mon_rx_ok (hw d))).
    + intros _ m0 H0. kept H0 (@isac_empty_fifo_keeps h _ (fun d => mon_rx_ok (hw d))).
    + intros _ m0 H0. kept H0 (@irq_XPR_keeps h _ (fun d => mon_rx_ok (hw d))).
    + intros _ rd0 m0 H0. kept H0 (@irq_CISQ_keeps h _ (fun d => mon_rx_ok (hw d))).
    + intros _ rd0 m0.
      apply (irq_EXI_steps
               (fun m m' => mon_rx_ok (hw (dch m)) = true ->
                            mon_rx_ok (hw (dch m')) = true)); auto.
      * intros rd1 m1. now apply mon_RX0_rx_ok.
      * intros rd1 m1. now apply mon_RX1_rx_ok.
      * intros v1 m1 H1.
        now rewrite (proj1 (proj2 (proj2 (mon_other_rx_ok v1 m1)))).
      * intros v1 m1 H1.
        now rewrite (proj2 (proj2 (proj2 (mon_other_rx_ok v1 m1)))).
      * intros m1 H1. kept H1 (@exi_XDU_keeps h _ (fun d => mon_rx_ok (hw d))).
  - intros b Hb Hp p. apply mon_rx_ok_iff in Hok. destruct Hok as [H0 Hl].
    specialize (Hl b Hb).
    assert (Hlt : (p < List.length b)%nat) by (subst p; lia).
    split; [exact Hlt|].
    destruct (mon_RX0_store rd m b Hb Hp) as (S0 & _).
    destruct (mon_RX1_store rd m b Hb Hp) as (S1 & _).
    fold p in S0, S1.
    assert (Hnth : forall v, nth p (array_set b p v) 0 = v).
    { intros v. rewrite array_set_split by exact Hlt.
      rewrite app_nth2; rewrite length_firstn; [|lia].
      replace (p - Nat.min p (List.length b))%nat with 0%nat by lia.
      reflexivity. }
    split; intros b' Hb'; [rewrite S0 in Hb' | rewrite S1 in Hb'];
      injection Hb' as <-; apply Hnth.
Qed.

End MonitorReceive.

(** ** The monitor channel: the control register shadow *)

(** Masks of closed numbers, by computation. *)
Ltac land_consts :=
  repeat match goal with
  | |- context [Z.land (Zpos ?a) (Zpos ?b)] =>
      let v := eval vm_compute in (Z.land (Zpos a) (Zpos b)) in
      change (Z.land (Zpos a) (Zpos b)) with v
  end.

(** A nibble of a value built by the assignments [x &= a] and [x |= o]
    on an unsigned char. *)
Ltac nibble :=
  unfold u8;
  repeat first [ rewrite Z.land_lor_distr_l | rewrite <- Z.land_assoc ];
  land_consts;
  rewrite ?Z.land_0_r, ?Z.lor_0_r, ?Z.lor_0_l;
  try reflexivity.

Section MonitorControl.
Context {h : isac_h}.

Lemma mon_RX0_hi rd m :
  Z.land (mocr (hw (dch (mon_RX0 rd m)))) 0xf0 = Z.land (mocr (hw (dch m))) 0xf0.
Proof. unfold mon_RX0. mon_rx_cases m; nibble. Qed.

Lemma mon_RXEND0_hi m :
  Z.land (mocr (hw (dch (mon_RXEND0 m)))) 0xf0 = Z.land (mocr (hw (dch m))) 0xf0.
Proof. unfold mon_RXEND0. mred. nibble. Qed.

Lemma mon_TX0_hi v1 m :
  Z.land (mocr (hw (dch (mon_TX0 v1 m)))) 0xf0 = Z.land (mocr (hw (dch m))) 0xf0.
Proof.
  unfold mon_TX0, mon_tx_done.
  repeat (mred; first [case_if | case_match]); mred; nibble.
Qed.

Lemma mon_RX1_lo rd m :
  Z.land (mocr (hw (dch (mon_RX1 rd m)))) 0x0f = Z.land (mocr (hw (dch m))) 0x0f.
Proof. unfold mon_RX1. mon_rx_cases m; nibble. Qed.

Lemma mon_RXEND1_lo m :
  Z.land (mocr (hw (dch (mon_RXEND1 m)))) 0x0f = Z.land (mocr (hw (dch m))) 0x0f.
Proof. unfold mon_RXEND1. mred. nibble. Qed.

Lemma mon_TX1_lo v1 m :
  Z.land (mocr (hw (dch (mon_TX1 v1 m)))) 0x0f = Z.land (mocr (hw (dch m))) 0x0f.
Proof.
  unfold mon_TX1, mon_tx_done.
  repeat (mred; first [case_if | case_match]); mred; nibble.
Qed.

(** X17: the two monitor channels share the shadow of MOCR without
    disturbing each other.  A monitor event with none of the channel-1
    bits (0x80, 0x40, 0x20) in MOSR leaves the high nibble of the shadow
    as it is, and one with none of the channel-0 bits (0x08, 0x04, 0x02)
    leaves the low nibble as it is, whatever else the event does. *)
Theorem mos_blocks_mocr_nibbles rd v1 m :
  let m' := mos_blocks rd v1 m in
  (tst v1 0x80 = false -> tst v1 0x40 = false -> tst v1 0x20 = false ->
     Z.land (mocr (hw (dch m'))) 0xf0 = Z.land (mocr (hw (dch m))) 0xf0)
  /\
  (tst v1 0x08 = false -> tst v1 0x04 = false -> tst v1 0x02 = false ->
     Z.land (mocr (hw (dch m'))) 0x0f = Z.land (mocr (hw (dch m))) 0x0f).
Proof.
  intros m'. subst m'. unfold mos_blocks. split; intros H1 H2 H3;
    rewrite H1, H2, H3; cbv zeta.
  - destruct (tst v1 2); [rewrite mon_TX0_hi|];
      (destruct (tst v1 4); [rewrite mon_RXEND0_hi|]);
      (destruct (tst v1 8); [rewrite mon_RX0_hi|]); reflexivity.
  - destruct (tst v1 32); [rewrite mon_TX1_lo|];
      (destruct (tst v1 64); [rewrite mon_RXEND1_lo|]);
      (destruct (tst v1 128); [rewrite mon_RX1_lo|]); reflexivity.
Qed.

(** X18: a received monitor byte that cannot be stored.  With the cursor
    at the end of the buffer the byte is not even read: the receiver of
    the channel is switched off in MOCR (its nibble becomes 0xa), the
    cursor goes back to 0 and the buffer keeps its content.  With no
    buffer and a failing allocator the receiver is switched off as well,
    nothing is stored and the slot stays empty.  In both cases the write
    to MOCR is the only access to the chip. *)
Theorem mon_rx_refused rd m :
  let off0 := u8 (Z.lor (u8 (Z.land (mocr (hw (dch m))) 0xf0)) 0x0a) in
  let off1 := u8 (Z.lor (u8 (Z.land (mocr (hw (dch m))) 0x0f)) 0xa0) in
  let m0 := mon_RX0 rd m in
  let m1 := mon_RX1 rd m in
  (forall b, mon_rx (hw (dch m)) = Some b ->
     MAX_MON_FRAME <= mon_rxp (hw (dch m)) ->
     (trace m0 = trace m ++ [EvWriteReg ISAC_MOCR off0]
      /\ mon_rx (hw (dch m0)) = Some b /\ mon_rxp (hw (dch m0)) = 0
      /\ mocr (hw (dch m0)) = off0)
     /\ (trace m1 = trace m ++ [EvWriteReg ISAC_MOCR off1]
         /\ mon_rx (hw (dch m1)) = Some b /\ mon_rxp (hw (dch m1)) = 0
         /\ mocr (hw (dch m1)) = off1))
  /\
  (mon_rx (hw (dch m)) = None -> alloc_ok m (alloc_pos m) = false ->
     (trace m0 = trace m ++ [EvWriteReg ISAC_MOCR off0]
      /\ mon_rx (hw (dch m0)) = None
      /\ mon_rxp (hw (dch m0)) = mon_rxp (hw (dch m))
      /\ mocr (hw (dch m0)) = off0)
     /\ (trace m1 = trace m ++ [EvWriteReg ISAC_MOCR off1]
         /\ mon_rx (hw (dch m1)) = None
         /\ mon_rxp (hw (dch m1)) = mon_rxp (hw (dch m))
         /\ mocr (hw (dch m1)) = off1))
  /\ Z.land off0 0x0f = 0x0a
  /\ Z.land off1 0xf0 = 0xa0.
Proof.
  intros off0 off1 m0 m1. subst off0 off1 m0 m1.
  split; [|split; [|split]].
  - intros b Hb Hp. unfold mon_RX0, mon_RX1. rewrite Hb. mred.
    destruct (mon_rxp (hw (dch m)) >=? MAX_MON_FRAME) eqn:E; b2p; [|lia].
    mred. rewrite !u8_idem. repeat split; assumption.
  - intros Hb Ha. unfold mon_RX0, mon_RX1. rewrite Hb. mred. rewrite Ha. mred.
    rewrite !u8_idem. repeat split; assumption.
  - nibble.
  - nibble.
Qed.

End MonitorControl.

(** ** Status bits without a handler *)

Section IgnoredBits.
Context {h : isac_h}.

(** X19: what the handler ignores.  A status byte with none of the bits
    RME, RPF, XPR, CISQ and EXI (that is, only RSC 0x20, SIN 0x02 or bit
    0x08) changes neither the channel context nor the trace.  An EXI
    interrupt whose EXIR has neither XDU (0x40) nor MOS (0x04), for
    instance only XMR (0x80), reads EXIR and does nothing else.  A CISQ
    interrupt whose CIR0 has neither change bit reads CIR0 and does
    nothing else. *)
Theorem ISAC_interrupt_ignored_bits rd val m :
  tst val 0x80 = false -> tst val 0x40 = false -> tst val 0x10 = false ->
  let m' := ISAC_interrupt rd val m in
  (tst val 0x04 = false -> tst val 0x01 = false ->
     dch m' = dch m /\ trace m' = trace m)
  /\
  (tst val 0x04 = false -> tst val 0x01 = true ->
   tst (u8 (rd ISAC_EXIR)) 0x40 = false -> tst (u8 (rd ISAC_EXIR)) 0x04 = false ->
     dch m' = dch m /\ trace m' = trace m ++ [EvReadReg ISAC_EXIR])
  /\
  (tst val 0x04 = true -> tst val 0x01 = false ->
   tst (u8 (rd ISAC_CIR0)) 2 = false -> tst (u8 (rd ISAC_CIR0)) 1 = false ->
     dch m' = dch m /\ trace m' = trace m ++ [EvReadReg ISAC_CIR0]).
Proof.
  intros H80 H40 H10 m'. subst m'. unfold ISAC_interrupt.
  rewrite H80, H40, H10. cbv zeta.
  split; [|split].
  - intros H04 H01. rewrite H04, H01.
    repeat (case_if; mred); split; reflexivity.
  - intros H04 H01 Hx Hm. rewrite H04, H01. unfold irq_EXI. mred.
    rewrite Hx, Hm.
    repeat (case_if; mred); split; reflexivity.
  - intros H04 H01 Hc Hi. rewrite H04, H01. unfold irq_CISQ. mred.
    rewrite Hc, Hi.
    repeat (case_if; mred); split; reflexivity.
Qed.

(** X20: the C/I code travels in bits 2..5.  For a 4-bit command code
    ph_command writes to CIX0 a byte whose two low bits are set and whose
    bits 2..5 are the code, that is the field the CISQ block and
    ISAC_clear_pending_ints read an indication from: decoding the byte
    written gives the code back.  ph_command changes nothing in the
    channel context. *)
Theorem ph_command_roundtrip c m :
  0 <= c < 16 ->
  trace (ph_command c m) = trace m ++ [EvWriteReg ISAC_CIX0 (cix0_value c)]
  /\ dch (ph_command c m) = dch m
  /\ ci_field (cix0_value c) = c
  /\ Z.land (cix0_value c) 3 = 3
  /\ (forall rd m0, u8 (rd ISAC_CIR0) = cix0_value c ->
        ph_state (dch (irq_CISQ rd m0)) = c).
Proof.
  intros Hc.
  assert (Hf : ci_field (cix0_value c) = c /\ Z.land (cix0_value c) 3 = 3
               /\ tst (cix0_value c) 2 = true).
  { assert (Hin : In c (map Z.of_nat (seq 0 16))).
    { apply in_map_iff. exists (Z.to_nat c). split; [lia|].
      apply in_seq. lia. }
    cbn in Hin.
    repeat (destruct Hin as [<-|Hin]; [repeat split; reflexivity|]).
    contradiction. }
  destruct Hf as (F1 & F2 & F3).
  split; [reflexivity|]. split; [reflexivity|].
  split; [exact F1|]. split; [exact F2|].
  intros rd m0 Hr. unfold irq_CISQ. mred. rewrite Hr, F3.
  repeat (case_if; mred); exact F1.
Qed.

End IgnoredBits.

(** ** Set-up and tear-down *)

Lemma skipn_len_app {B} (l l' : list B) : skipn (List.length l) (l ++ l') = l'.
Proof.
  induction l as [|x l IH]; [reflexivity|]. exact IH.
Qed.

Lemma skipn_len {B} (l : list B) : skipn (List.length l) l = [].
Proof. apply skipn_all. Qed.

(** Reduce the card: its fields, its steps, and what a step of the
    channel's machine adds to the card's trace. *)
Ltac cred :=
  repeat progress
    (cbn [chan hw_null adf2 timer_function timer_data hw_bh card_trace
          on_chan card_emit set_adf2 set_timer_function set_timer_data
          set_hw_bh set_mon_tx read_cfg write_cfg chan_read_reg kfree
          fst snd map app] in *;
     mred;
     rewrite ?skipn_len_app, ?skipn_len in *).

Section CardProofs.
Context {h : isac_h}.



Lemma ISAC_free_quiet c :
  timer_function c = None ->
  (hw_null c = false ->
     mon_rx (hw (dch (chan c))) = None /\ mon_tx (hw (dch (chan c))) = None) ->
  ISAC_free c = c.
Proof.
  intros Ht Hb. unfold ISAC_free. rewrite Ht.
  destruct (hw_null c); [reflexivity|].
  destruct Hb as [Hr Hx]; [reflexivity|]. now rewrite Hr, Hx.
Qed.

(** X22: ISAC_free releases everything once.  The busy timer is deleted if
    (and only if) its callback is installed, and the callback is removed;
    with chip state present each monitor buffer that exists is freed and
    its slot emptied, receive before transmit; without chip state the
    buffers are not looked at.  A second call right after the first does
    nothing at all, so no buffer is freed twice. *)
Theorem ISAC_free_once c :
  let c' := ISAC_free c in
  card_trace c' =
    card_trace c
    ++ (match timer_function c with
        | Some _ => [CeChan EvDelTimer]
        | None => []
        end)
    ++ (if hw_null c then [] else
        match mon_rx (hw (dch (chan c))) with
        | Some b => [CeKfree b]
        | None => []
        end
        ++ match mon_tx (hw (dch (chan c))) with
           | Some b => [CeKfree b]
           | None => []
           end)
  /\ timer_function c' = None
  /\ (hw_null c = false ->
        mon_rx (hw (dch (chan c'))) = None /\ mon_tx (hw (dch (chan c'))) = None)
  /\ (hw_null c = true -> hw (dch (chan c')) = hw (dch (chan c)))
  /\ ISAC_free c' = c'.
Proof.
  intros c'.
  assert (H : card_trace c' =
    card_trace c
    ++ (match timer_function c with
        | Some _ => [CeChan EvDelTimer]
        | None => []
        end)
    ++ (if hw_null c then [] else
        match mon_rx (hw (dch (chan c))) with
        | Some b => [CeKfree b]
        | None => []
        end
        ++ match mon_tx (hw (dch (chan c))) with
           | Some b => [CeKfree b]
           | None => []
           end)
  /\ timer_function c' = None
  /\ (hw_null c = false ->
        mon_rx (hw (dch (chan c'))) = None /\ mon_tx (hw (dch (chan c'))) = None)
  /\ (hw_null c = true -> hw (dch (chan c')) = hw (dch (chan c)))
  /\ hw_null c' = hw_null c).
  { subst c'. unfold ISAC_free.
    destruct (timer_function c) eqn:Et, (hw_null c) eqn:En; cred;
      rewrite ?En; cred;
      try (destruct (mon_rx (hw (dch (chan c)))) eqn:Er; cred);
      try (destruct (mon_tx (hw (dch (chan c)))) eqn:Ex; cred);
      rewrite ?Et, ?En, ?Er, ?Ex; cred; tr_norm; rewrite ?app_nil_r;
      repeat split; try reflexivity; try discriminate; try assumption. }
  destruct H as (H1 & H2 & H3 & H4 & H5).
  split; [exact H1|]. split; [exact H2|]. split; [exact H3|]. split; [exact H4|].
  apply ISAC_free_quiet; [exact H2|]. rewrite H5. exact H3.
Qed.

Lemma ci_field_range v : 0 <= ci_field v <= 15.
Proof.
  unfold ci_field.
  assert (Hm : forall x, Z.land x 15 = x mod 16)
    by (intros x; change 15 with (Z.ones 4); now rewrite Z.land_ones by lia).
  rewrite Hm. pose proof (Z.mod_pos_bound (Z.shiftr v 2) 16). lia.
Qed.

(** The steps [ISAC_clear_pending_ints] is made of, on any card. *)
Lemma card_trace_emit e c : card_trace (card_emit e c) = card_trace c ++ [e].
Proof. reflexivity. Qed.

Lemma chan_emit e c : chan (card_emit e c) = chan c.
Proof. reflexivity. Qed.

Lemma card_trace_log f a c : card_trace (on_chan (debugprint f a) c) = card_trace c.
Proof.
  unfold on_chan. cbn [card_trace].
  change (trace (debugprint f a (chan c))) with (trace (chan c)).
  rewrite skipn_len. cbn [map]. apply app_nil_r.
Qed.

Lemma dch_chan_log f a c : dch (chan (on_chan (debugprint f a) c)) = dch (chan c).
Proof. reflexivity. Qed.

Lemma card_trace_read rd r c :
  card_trace (on_chan (fun m => snd (read_reg rd r m)) c) =
  card_trace c ++ [CeChan (EvReadReg r)].
Proof.
  unfold on_chan. cbn [card_trace].
  change (trace (snd (read_reg rd r (chan c))))
    with (trace (chan c) ++ [EvReadReg r]).
  rewrite skipn_len_app. reflexivity.
Qed.

Lemma dch_chan_read rd r c :
  dch (chan (on_chan (fun m => snd (read_reg rd r m)) c)) = dch (chan c).
Proof. reflexivity. Qed.

Lemma card_trace_on_dch g c : card_trace (on_chan (on_dch g) c) = card_trace c.
Proof.
  unfold on_chan. cbn [card_trace].
  change (trace (on_dch g (chan c))) with (trace (chan c)).
  rewrite skipn_len. cbn [map]. apply app_nil_r.
Qed.

Lemma dch_chan_on_dch g c : dch (chan (on_chan (on_dch g) c)) = g (dch (chan c)).
Proof. reflexivity. Qed.

Lemma fst_read_reg rd r m : fst (read_reg rd r m) = u8 (rd r).
Proof. reflexivity. Qed.

Ltac card_steps :=
  repeat progress rewrite ?card_trace_log, ?card_trace_on_dch, ?card_trace_read,
    ?card_trace_emit, ?dch_chan_on_dch, ?dch_chan_log, ?dch_chan_read, ?chan_emit.

Lemma ISAC_clear_pending_ints_run rd rdc c :
  hw_null c = false ->
  let c' := ISAC_clear_pending_ints rd rdc c in
  card_trace c' =
    card_trace c
    ++ [CeWriteCfg ISAC_MASK 0xff; CeChan (EvReadReg ISAC_STAR);
        CeReadCfg ISAC_MODE; CeReadCfg ISAC_ADF2; CeReadCfg ISAC_ISTA]
    ++ (if tst (u8 (rdc ISAC_ISTA)) 0x01
        then [CeChan (EvReadReg ISAC_EXIR)] else [])
    ++ [CeChan (EvReadReg ISAC_CIR0)]
  /\ dch (chan c') = set_ph_state (ci_field (u8 (rd ISAC_CIR0))) (dch (chan c)).
Proof.
  intros Hn c'. subst c'. unfold ISAC_clear_pending_ints.
  rewrite Hn.
  cbv beta iota zeta delta [read_cfg chan_read_reg write_cfg].
  rewrite !fst_read_reg.
  destruct (tst (u8 (rdc ISAC_ISTA)) 1);
    cbv beta iota zeta; card_steps; rewrite <- ?app_assoc;
    split; reflexivity.
Qed.

(** X23: ISAC_clear_pending_ints.  Without chip state it does nothing.
    Otherwise it masks all interrupts first and writes nothing else; it
    reads STAR, MODE, ADF2 and ISTA, reads EXIR exactly when ISTA has its
    EXI bit set, and reads CIR0 last.  The line state becomes bits 2..5
    of CIR0, a value from 0 to 15, whether or not CIR0 flags a change, and
    no deferred event is scheduled; the rest of the channel context is
    untouched. *)
Theorem ISAC_clear_pending_ints_reads rd rdc c :
  let c' := ISAC_clear_pending_ints rd rdc c in
  (hw_null c = true -> c' = c)
  /\
  (hw_null c = false ->
     card_trace c' =
       card_trace c
       ++ [CeWriteCfg ISAC_MASK 0xff; CeChan (EvReadReg ISAC_STAR);
           CeReadCfg ISAC_MODE; CeReadCfg ISAC_ADF2; CeReadCfg ISAC_ISTA]
       ++ (if tst (u8 (rdc ISAC_ISTA)) 0x01
           then [CeChan (EvReadReg ISAC_EXIR)] else [])
       ++ [CeChan (EvReadReg ISAC_CIR0)]
     /\ ph_state (dch (chan c')) = ci_field (u8 (rd ISAC_CIR0))
     /\ 0 <= ph_state (dch (chan c')) <= 15
     /\ dch (chan c') = set_ph_state (ph_state (dch (chan c'))) (dch (chan c))).
Proof.
  intros c'. split.
  - intros Hn. subst c'. unfold ISAC_clear_pending_ints. now rewrite Hn.
  - intros Hn. destruct (ISAC_clear_pending_ints_run rd rdc c Hn) as (Ht & Hd).
    fold c' in Ht, Hd. clearbody c'.
    rewrite Ht, Hd. cbn [ph_state set_ph_state].
    split; [reflexivity|]. split; [reflexivity|].
    split; [apply ci_field_range | reflexivity].
Qed.

End CardProofs.

(** ** The further properties on concrete channels

    Each lemma applies one of the theorems above to a concrete channel,
    register file and request, with the header constants of [sample_h]. *)

(** A line-state interrupt (status 0x04, CIR0 = 0x0e) on the idle channel
    leaves the receive side, the transmit side and the monitor state
    alone. *)
Lemma ISAC_interrupt_separation_witness :
  let m' := ISAC_interrupt (h := sample_h) (reg_is ISAC_CIR0 0x0e) 0x04 machine0 in
  tst 0x04 0x80 = false /\ tst 0x04 0x40 = false
  /\ tst 0x04 0x10 = false /\ tst 0x04 0x01 = false
  /\ rx_skb (dch m') = rx_skb (dch machine0)
  /\ tx_idx (dch m') = tx_idx (dch machine0)
  /\ hw (dch m') = hw (dch machine0)
  /\ next_skb (dch m') = next_skb (dch machine0).
Proof.
  intros m'. do 4 (split; [reflexivity|]).
  destruct (ISAC_interrupt_separation (h := sample_h)
              (reg_is ISAC_CIR0 0x0e) 0x04 machine0)
    as (Hrx & Htx & Hhw & _ & Hn & _).
  split; [exact (proj1 (Hrx eq_refl eq_refl))|].
  split; [exact (proj1 (proj2 (Htx eq_refl eq_refl)))|].
  split; [exact (Hhw eq_refl) | exact Hn].
Defined.

(** A receive-pool-full interrupt on the idle channel: the buffer it
    starts is shorter than the maximum frame. *)
Lemma ISAC_interrupt_rx_bounded_witness :
  0 < MAX_DFRAME_LEN_L1 (isac_h := sample_h) <= 2 ^ 31
  /\ rx_bounded (h := sample_h) (dch machine0) = true
  /\ rx_bounded (h := sample_h)
       (dch (ISAC_interrupt (h := sample_h) (reg_is ISAC_RBCL 0) 0x40 machine0))
     = true.
Proof.
  assert (Hmax : 0 < MAX_DFRAME_LEN_L1 (isac_h := sample_h) <= 2 ^ 31)
    by (vm_compute; split; [reflexivity | discriminate]).
  split; [exact Hmax|]. split; [reflexivity|].
  exact (ISAC_interrupt_rx_bounded (h := sample_h) (reg_is ISAC_RBCL 0) 0x40
           machine0 Hmax eq_refl).
Defined.

(** A channel with a 40-byte frame to send, cursor at 0: the cursor stays
    inside the frame over a transmit interrupt and over a new request. *)
Lemma tx_cursor_invariant_witness :
  let m := on_dch (set_tx_len 40) machine0 in
  tx_cursor_ok (dch m) = true
  /\ tx_cursor_ok (dch (ISAC_interrupt (h := sample_h) (reg_is ISAC_CIR0 0) 0x10 m))
     = true
  /\ tx_cursor_ok
       (dch (snd (ISAC_l1hw (h := sample_h) (Some tt)
                    (Some (data_req (h := sample_h) [1; 2; 3])) m))) = true.
Proof.
  intros m. split; [reflexivity|].
  destruct (tx_cursor_invariant (h := sample_h) m eq_refl) as (Hi & Hr & _).
  split; [apply Hi | apply Hr].
Defined.

(** A request without an interface is refused untouched; an activation
    request with an unknown parameter is one of the two outcomes of the
    theorem. *)
Lemma ISAC_l1hw_ownership_witness :
  ISAC_l1hw (h := sample_h) None (Some (signal_req (h := sample_h) 0)) machine0
    = (- EINVAL, machine0)
  /\ (let s := signal_req (h := sample_h) 0 in
      let r := fst (ISAC_l1hw (h := sample_h) (Some tt) (Some s) machine0) in
      let m' := snd (ISAC_l1hw (h := sample_h) (Some tt) (Some s) machine0) in
      (r = 0
       /\ exists l,
            trace m' = trace machine0 ++ [EvLock] ++ l ++ [EvUnlock; EvKfreeSkb s]
            /\ forallb (fun e => is_hw_access e || lock_neutral e) l = true)
      \/
      (r = - EINVAL
       /\ dch m' = dch machine0
       /\ (trace m' = trace machine0
           \/ trace m' = trace machine0 ++ [EvLock; EvUnlock]))).
Proof.
  split.
  - exact (proj1 (ISAC_l1hw_ownership (h := sample_h) None
                    (Some (signal_req (h := sample_h) 0)) machine0)
             (or_introl eq_refl)).
  - refine (proj2 (ISAC_l1hw_ownership (h := sample_h) (Some tt)
                     (Some (signal_req (h := sample_h) 0)) machine0)
              tt _ eq_refl eq_refl _).
    vm_compute. discriminate.
Defined.

(** An activation request with INFO3_P8: the command AR8 goes to CIX0. *)
Lemma ISAC_l1hw_signal_req_witness :
  let s := signal_req (h := sample_h) 0x308 in
  header_wf (h := sample_h) = true
  /\ hh_prim s = Z.lor (PH_SIGNAL (isac_h := sample_h)) REQUEST
  /\ fst (ISAC_l1hw (h := sample_h) (Some tt) (Some s) machine0) = 0
  /\ trace (snd (ISAC_l1hw (h := sample_h) (Some tt) (Some s) machine0)) =
       [EvLock; EvWriteReg ISAC_CIX0 0x23; EvUnlock; EvKfreeSkb s].
Proof.
  intros s. split; [reflexivity|]. split; [reflexivity|].
  destruct (ISAC_l1hw_signal_req (h := sample_h) eq_refl tt s machine0 eq_refl)
    as (_ & H & _).
  exact (H eq_refl).
Defined.

(** A reset request in line state DR: the command TIM goes to CIX0. *)
Lemma ISAC_l1hw_reset_req_witness :
  let s := control_req (h := sample_h) 0x1 in
  header_wf (h := sample_h) = true
  /\ hh_prim s = Z.lor (PH_CONTROL (isac_h := sample_h)) REQUEST
  /\ ph_state (dch machine0) = ISAC_IND_DR (isac_h := sample_h)
  /\ fst (ISAC_l1hw (h := sample_h) (Some tt) (Some s) machine0) = 0
  /\ trace (snd (ISAC_l1hw (h := sample_h) (Some tt) (Some s) machine0)) =
       [EvLock; EvWriteReg ISAC_CIX0 0x03; EvUnlock; EvKfreeSkb s].
Proof.
  intros s. do 3 (split; [reflexivity|]).
  destruct (ISAC_l1hw_reset_req (h := sample_h) eq_refl tt s machine0 eq_refl)
    as (H & _).
  destruct (H eq_refl (or_intror (or_introl eq_refl))) as (Hr & _ & Ht).
  split; [exact Hr | exact Ht].
Defined.

(** A test-loop request with bit 0 set, in IOM-2 mode: SPCR gets 0x0c and
    ADF1 gets 0x8. *)
Lemma ISAC_l1hw_testloop_witness :
  let s := control_req (h := sample_h) 0xff01 in
  header_wf (h := sample_h) = true
  /\ Z.land (hh_dinfo s) (HW_TESTLOOP (isac_h := sample_h)) = HW_TESTLOOP
  /\ fst (ISAC_l1hw (h := sample_h) (Some tt) (Some s) machine0) = 0
  /\ trace (snd (ISAC_l1hw (h := sample_h) (Some tt) (Some s) machine0)) =
       [EvLock; EvWriteReg ISAC_SPCR 0x0c; EvWriteReg ISAC_ADF1 0x8;
        EvUnlock; EvKfreeSkb s].
Proof.
  intros s. do 2 (split; [reflexivity|]).
  assert (H := ISAC_l1hw_testloop (h := sample_h) eq_refl tt s machine0 eq_refl).
  destruct H as (Hr & _ & Ht & _);
    [vm_compute; discriminate | vm_compute; discriminate
    | vm_compute; discriminate | reflexivity |].
  split; [exact Hr | exact Ht].
Defined.

(** One full burst and a final burst of 3 bytes make a frame of the 35
    bytes the FIFO delivered. *)
Lemma rx_frame_reassembly_witness :
  let rd := fun r => match r with
                     | ISAC_RSTA => 0x20
                     | ISAC_RBCL => 3
                     | _ => 0
                     end in
  let m' := irq_RME (h := sample_h) rd (rpf_times (h := sample_h) 1 machine0) in
  header_wf (h := sample_h) = true
  /\ rqueue (dch m') =
       [{| hh_prim := 0; hh_dinfo := 0; skb_data := fifo_next 35 machine0 |}]
  /\ rx_skb (dch m') = None.
Proof.
  intros rd m'. split; [reflexivity|].
  assert (H := rx_frame_reassembly (h := sample_h) eq_refl rd 1%nat 3 machine0
                 eq_refl eq_refl).
  destruct H as (Hq & Hs & _);
    [vm_compute; split; discriminate | vm_compute; reflexivity
    | reflexivity | reflexivity |].
  split; [exact Hq | exact Hs].
Defined.

(** The frame is out and nothing is queued: the transmitter is released.
    The frame is out and a 3-byte frame is queued: it is loaded and
    sent. *)
Lemma irq_XPR_end_of_frame_witness :
  let s := data_req (h := sample_h) [1; 2; 3] in
  let m := on_dch (fun d => set_DFlags 16 (set_next_skb (Some s) d)) machine0 in
  header_wf (h := sample_h) = true
  /\ test_flag (FLG_TX_BUSY (isac_h := sample_h)) (irq_XPR (h := sample_h) machine0)
     = false
  /\ trace (irq_XPR (h := sample_h) machine0) = []
  /\ test_flag (FLG_TX_NEXT (isac_h := sample_h)) m = true
  /\ tx_len (dch (irq_XPR (h := sample_h) m)) = 3
  /\ tx_idx (dch (irq_XPR (h := sample_h) m)) = 3
  /\ next_skb (dch (irq_XPR (h := sample_h) m)) = Some s.
Proof.
  intros s m. split; [reflexivity|].
  destruct (irq_XPR_end_of_frame (h := sample_h) eq_refl machine0) as (H0 & _);
    [vm_compute; discriminate|].
  destruct (H0 (or_introl eq_refl)) as (Hb & _ & _ & Ht & _).
  split; [exact Hb|]. split; [exact Ht|]. split; [reflexivity|].
  destruct (irq_XPR_end_of_frame (h := sample_h) eq_refl m) as (_ & H1);
    [vm_compute; discriminate|].
  destruct (H1 s eq_refl eq_refl) as (Hl & _ & _ & Hi & _ & _ & Hn & _).
  split; [exact Hl|]. split; [exact Hi | exact Hn].
Defined.

(** A frame of 40 bytes: the request and one further interrupt put the 40
    bytes into the FIFO, the next interrupt releases the transmitter, and
    the upper layer got the one confirmation. *)
Lemma send_frame_completes_witness :
  let s := data_req (h := sample_h) (repeat 7 40) in
  let m1 := snd (ISAC_l1hw (h := sample_h) (Some tt) (Some s) machine0) in
  let m2 := xpr_times (h := sample_h) 1 m1 in
  let m3 := irq_XPR (h := sample_h) m2 in
  header_wf (h := sample_h) = true
  /\ 32 * Z.of_nat 1 < skb_len s <= 32 * (Z.of_nat 1 + 1)
  /\ fifo_written (trace m2) = repeat 7 40
  /\ test_flag (FLG_TX_BUSY (isac_h := sample_h)) m3 = false
  /\ upcalls (trace m3) = [EvIfNewhead 0x121 (-1) s].
Proof.
  intros s m1 m2 m3. split; [reflexivity|].
  assert (Hl : 32 * Z.of_nat 1 < skb_len s <= 32 * (Z.of_nat 1 + 1))
    by (vm_compute; split; [reflexivity | discriminate]).
  split; [exact Hl|].
  destruct (send_frame_completes (h := sample_h) eq_refl tt s machine0 1%nat
              eq_refl eq_refl eq_refl eq_refl Hl)
    as (Hw & _ & _ & _ & Hb & _ & Hu).
  split; [exact Hw|]. split; [exact Hb | exact Hu].
Defined.

(** The busy timer expires on a channel that was sending a 3-byte frame
    and finds the transmitter stalled: the next transmit interrupt sends
    the 3 bytes again. *)
Lemma dbusy_then_XPR_witness :
  let m := on_dch (fun d => set_DFlags 32 (set_tx_len 3 d)) machine0 in
  let m2 := irq_XPR (h := sample_h)
              (dbusy_timer_handler (h := sample_h) false (reg_is ISAC_RBCH 0) m) in
  header_wf (h := sample_h) = true
  /\ test_flag (FLG_DBUSY_TIMER (isac_h := sample_h)) m = true
  /\ fifo_written (trace m2) = [0; 0; 0]
  /\ tx_idx (dch m2) = 3.
Proof.
  intros m m2. split; [reflexivity|]. split; [reflexivity|].
  destruct (dbusy_then_XPR (h := sample_h) eq_refl (reg_is ISAC_RBCH 0) m eq_refl)
    as (H & _).
  destruct (H eq_refl eq_refl) as (Hw & Hi & _).
  split; [exact Hw | exact Hi].
Defined.

(** With a state change and a receive notification pending, the bottom
    half consumes the first and leaves the second. *)
Lemma isac_hwbh_consumes_witness :
  let m := on_dch (set_event 5) machine0 in
  let m' := isac_hwbh (h := sample_h) m in
  header_wf (h := sample_h) = true
  /\ test_bit (D_L1STATECHANGE (isac_h := sample_h)) (event (dch m)) = true
  /\ test_bit (D_L1STATECHANGE (isac_h := sample_h)) (event (dch m')) = false
  /\ test_bit (D_RCVBUFREADY (isac_h := sample_h)) (event (dch m')) = true.
Proof.
  intros m m'. split; [reflexivity|]. split; [reflexivity|].
  destruct (isac_hwbh_consumes (h := sample_h) eq_refl m) as (H0 & _ & Hk & _).
  split; [exact H0|].
  etransitivity;
    [apply (Hk (D_RCVBUFREADY (isac_h := sample_h)));
       [vm_compute; discriminate | left; reflexivity]
    | reflexivity].
Defined.


(** A monitor byte arriving on the idle channel (status 0x01, EXIR 0x04,
    MOSR 0x08) leaves the receive cursor inside the fresh buffer. *)
Lemma ISAC_interrupt_mon_rx_ok_witness :
  let rd := fun r => match r with
                     | ISAC_EXIR => 0x04
                     | ISAC_MOSR => 0x08
                     | ISAC_MOR0 => 0x11
                     | _ => 0
                     end in
  0 <= MAX_MON_FRAME (isac_h := sample_h)
  /\ mon_rx_ok (h := sample_h) (hw (dch machine0)) = true
  /\ mon_rx_ok (h := sample_h)
       (hw (dch (ISAC_interrupt (h := sample_h) rd 0x01 machine0))) = true.
Proof.
  intros rd.
  assert (Hm : 0 <= MAX_MON_FRAME (isac_h := sample_h))
    by (vm_compute; discriminate).
  split; [exact Hm|]. split; [reflexivity|].
  exact (proj1 (ISAC_interrupt_mon_rx_ok (h := sample_h) rd 0x01 machine0
                  Hm eq_refl)).
Defined.

(** A first byte on channel 0 sets the ready bit in the low nibble of the
    shadow and leaves the high nibble. *)
Lemma mos_blocks_mocr_nibbles_witness :
  let m' := mos_blocks (h := sample_h) (reg_is ISAC_MOR0 0x11) 0x08 machine0 in
  mocr (hw (dch m')) = 0xae
  /\ Z.land (mocr (hw (dch m'))) 0xf0 = Z.land (mocr (hw (dch machine0))) 0xf0.
Proof.
  intros m'. split; [reflexivity|].
  exact (proj1 (mos_blocks_mocr_nibbles (h := sample_h) (reg_is ISAC_MOR0 0x11)
                  0x08 machine0) eq_refl eq_refl eq_refl).
Defined.

(** A byte for channel 0 with the cursor at the end of the buffer: the
    receiver is switched off and the cursor reset. *)
Lemma mon_rx_refused_witness :
  let b := repeat 0x55 32 in
  let m := on_isac (fun _ => {| mon_tx := None; mon_rx := Some b;
                                mon_txp := 0; mon_txc := 0;
                                mon_rxp := 32; mocr := 0xee |}) machine0 in
  let m0 := mon_RX0 (h := sample_h) (reg_is ISAC_MOR0 0x11) m in
  MAX_MON_FRAME (isac_h := sample_h) <= mon_rxp (hw (dch m))
  /\ trace m0 = [EvWriteReg ISAC_MOCR 0xea]
  /\ mon_rx (hw (dch m0)) = Some b
  /\ mon_rxp (hw (dch m0)) = 0.
Proof.
  intros b m m0.
  assert (Hp : MAX_MON_FRAME (isac_h := sample_h) <= mon_rxp (hw (dch m)))
    by (vm_compute; discriminate).
  split; [exact Hp|].
  destruct (mon_rx_refused (h := sample_h) (reg_is ISAC_MOR0 0x11) m) as (H & _).
  destruct (H b eq_refl Hp) as ((Ht & Hb & Hc & _) & _).
  split; [exact Ht|]. split; [exact Hb | exact Hc].
Defined.

(** A status byte with only RSC (0x20) does nothing; an extended
    interrupt with only XMR in EXIR reads EXIR and does nothing else. *)
Lemma ISAC_interrupt_ignored_bits_witness :
  let m' := ISAC_interrupt (h := sample_h) (reg_is ISAC_EXIR 0x80) 0x20 machine0 in
  let m1 := ISAC_interrupt (h := sample_h) (reg_is ISAC_EXIR 0x80) 0x01 machine0 in
  (dch m' = dch machine0 /\ trace m' = trace machine0)
  /\ (dch m1 = dch machine0 /\ trace m1 = trace machine0 ++ [EvReadReg ISAC_EXIR]).
Proof.
  intros m' m1. split.
  - exact (proj1 (ISAC_interrupt_ignored_bits (h := sample_h)
                    (reg_is ISAC_EXIR 0x80) 0x20 machine0 eq_refl eq_refl eq_refl)
             eq_refl eq_refl).
  - exact (proj1 (proj2 (ISAC_interrupt_ignored_bits (h := sample_h)
                    (reg_is ISAC_EXIR 0x80) 0x01 machine0 eq_refl eq_refl eq_refl))
             eq_refl eq_refl eq_refl eq_refl).
Defined.

(** The command AR8 (code 8) is written as 0x23 and read back as 8. *)
Lemma ph_command_roundtrip_witness :
  0 <= ISAC_CMD_AR8 (isac_h := sample_h) < 16
  /\ trace (ph_command (h := sample_h) (ISAC_CMD_AR8 (isac_h := sample_h)) machine0) =
       [EvWriteReg ISAC_CIX0 0x23]
  /\ ci_field 0x23 = 8
  /\ ph_state (dch (irq_CISQ (h := sample_h) (reg_is ISAC_CIR0 0x23) machine0)) = 8.
Proof.
  assert (Hc : 0 <= ISAC_CMD_AR8 (isac_h := sample_h) < 16)
    by (vm_compute; split; [discriminate | reflexivity]).
  split; [exact Hc|].
  destruct (ph_command_roundtrip (h := sample_h) _ machine0 Hc)
    as (Ht & _ & Hf & _ & Hr).
  split; [exact Ht|]. split; [exact Hf|].
  exact (Hr (reg_is ISAC_CIR0 0x23) machine0 eq_refl).
Defined.


(** Tear-down of a card with the timer callback installed and a monitor
    receive buffer. *)
Lemma ISAC_free_once_witness :
  let b := repeat 0 32 in
  let c := {| chan := on_isac (set_mon_rx (Some b)) machine0; hw_null := false;
              adf2 := 0x80; timer_function := Some Fn_dbusy_timer_handler;
              timer_data := true; hw_bh := Some Fn_isac_hwbh;
              card_trace := [] |} in
  card_trace (ISAC_free c) = [CeChan EvDelTimer; CeKfree b]
  /\ mon_rx (hw (dch (chan (ISAC_free c)))) = None
  /\ ISAC_free (ISAC_free c) = ISAC_free c.
Proof.
  intros b c.
  destruct (ISAC_free_once c) as (Ht & _ & Hm & _ & Hi).
  split; [exact Ht|]. split; [exact (proj1 (Hm eq_refl)) | exact Hi].
Defined.

(** Start-up with ISTA = 0x01 and CIR0 = 0x0e: EXIR is read, and the line
    state becomes 3. *)
Lemma ISAC_clear_pending_ints_reads_witness :
  let c' := ISAC_clear_pending_ints (reg_is ISAC_CIR0 0x0e) (ista_is 0x01)
              (card0 machine0) in
  card_trace c' =
    [CeWriteCfg ISAC_MASK 0xff; CeChan (EvReadReg ISAC_STAR);
     CeReadCfg ISAC_MODE; CeReadCfg ISAC_ADF2; CeReadCfg ISAC_ISTA;
     CeChan (EvReadReg ISAC_EXIR); CeChan (EvReadReg ISAC_CIR0)]
  /\ ph_state (dch (chan c')) = 3.
Proof.
  intros c'.
  destruct (ISAC_clear_pending_ints_reads (reg_is ISAC_CIR0 0x0e) (ista_is 0x01)
              (card0 machine0)) as (_ & H).
  destruct (H eq_refl) as (Ht & Hp & _).
  split; [exact Ht | exact Hp].
Defined.
